(** * Radar / AIS target fusion and Kalman estimator: a shallow embedding

    The development follows [src/fusion.py] (classes [TargetFusion] and
    [FusionEngine]), [src/models.py] (the contact and track records),
    [src/kalman_filter.py] ([KalmanFilter], [MultiTargetKalmanFilter]),
    [src/advanced_tracker.py] ([KFTracker], [TrackerFactory]) and
    [src/config_validator.py] ([ConfigValidator]).

    Conventions of the embedding.
    - Python floats are idealised as real numbers ([R]); [math.sin],
      [math.cos], [math.sqrt] and [math.atan2] are the real functions, and
      rounding of values and NaN are outside the model.  Over the reals
      neither [math.sqrt] of [_haversine_distance] has a negative
      argument; in floats rounding can make one negative at near-antipodal
      points, and [math.sqrt] then raises [ValueError].  Module
      [TargetFusion] is the engine on the calls where no distance raises;
      modules [Checked] and [CheckedEngine] are the same methods with the
      error, which input rounds that way being a parameter.
    - A Python [dict] is an association list in insertion order with
      unique keys ([PyDict]); a Python [set] of strings is a [gset string].
    - [datetime] values are integers counting microseconds; every method
      that reads [datetime.now()] takes the clock reading as an argument.
    - Methods that mutate [self] return the new object; methods that may
      raise return an [outcome]. *)

From Stdlib Require Import Reals Lra ZArith List String Bool.
From stdpp Require Import gmap strings pretty.
Import ListNotations.

Open Scope R_scope.

(** ** Comparisons on floats *)

Definition Rltb (x y : R) : bool := if Rlt_dec x y then true else false.
Definition Rgtb (x y : R) : bool := Rltb y x.
Definition Reqb (x y : R) : bool := if Req_dec_T x y then true else false.

(** Truthiness of a float, and Python's [a or b] on floats. *)
Definition truthy (x : R) : bool := negb (Reqb x 0).
Definition py_or (a b : R) : R := if truthy a then a else b.

(** ** Python dictionaries, in insertion order *)

Module PyDict.

Definition dict (V : Type) : Type := list (string * V).

Definition empty {V} : dict V := [].

(** [d.get(k)] / [d[k]] *)
Fixpoint get {V} (k : string) (d : dict V) : option V :=
  match d with
  | [] => None
  | (k', v) :: d' => if String.eqb k k' then Some v else get k d'
  end.

(** [k in d] *)
Definition contains {V} (k : string) (d : dict V) : bool :=
  match get k d with Some _ => true | None => false end.

(** [d[k] = v]: an existing key keeps its position, a new key goes last. *)
Fixpoint setitem {V} (k : string) (v : V) (d : dict V) : dict V :=
  match d with
  | [] => [(k, v)]
  | (k', v') :: d' =>
      if String.eqb k k' then (k', v) :: d' else (k', v') :: setitem k v d'
  end.

(** [del d[k]].  Python raises [KeyError] on an absent key; every call
    site below deletes a key it has just seen in the dictionary. *)
Fixpoint delitem {V} (k : string) (d : dict V) : dict V :=
  match d with
  | [] => []
  | (k', v') :: d' =>
      if String.eqb k k' then d' else (k', v') :: delitem k d'
  end.

Definition keys {V} (d : dict V) : list string := map fst d.
Definition values {V} (d : dict V) : list V := map snd d.
Definition items {V} (d : dict V) : list (string * V) := d.

(** The representation invariant of a dictionary. *)
Definition wf {V} (d : dict V) : Prop := NoDup (keys d).

End PyDict.

Import PyDict.

(** ** GeoMath: the two static helpers of [TargetFusion] *)

Definition radians (deg : R) : R := deg * (PI / 180).

(** [math.atan2(y, x)] *)
Definition atan2 (y x : R) : R :=
  if Rlt_dec 0 x then atan (y / x)
  else if Rlt_dec x 0 then
    (if Rle_dec 0 y then atan (y / x) + PI else atan (y / x) - PI)
  else if Rlt_dec 0 y then PI / 2
  else if Rlt_dec y 0 then - (PI / 2)
  else 0.

(** [TargetFusion._radar_to_geo] *)
Definition _radar_to_geo (distance_nm bearing_deg ref_lat ref_lon : R) : R * R :=
  let distance_m := distance_nm * 1852 in
  let distance_deg := distance_m / 111000 in
  let bearing_rad := radians bearing_deg in
  let lat := ref_lat + distance_deg * cos bearing_rad in
  let lon := ref_lon + distance_deg * sin bearing_rad / cos (radians ref_lat) in
  (lat, lon).

(** [TargetFusion._haversine_distance], over the reals: the value the
    function returns when neither [math.sqrt] raises.  The function with
    that error is [Checked._haversine_distance] below. *)
Definition _haversine_distance (lat1 lon1 lat2 lon2 : R) : R :=
  let R_earth := 6371000 in
  let lat1_rad := radians lat1 in
  let lat2_rad := radians lat2 in
  let delta_lat := radians (lat2 - lat1) in
  let delta_lon := radians (lon2 - lon1) in
  let a := sin (delta_lat / 2) ^ 2 +
           cos lat1_rad * cos lat2_rad * sin (delta_lon / 2) ^ 2 in
  let c := 2 * atan2 (sqrt a) (sqrt (1 - a)) in
  R_earth * c.

(** ** The records of [models.py] *)

(** [datetime]: microseconds on the clock; [timedelta.total_seconds()]. *)
Definition datetime : Type := Z.
Definition total_seconds (delta : Z) : R := IZR delta / 1000000.

Module RadarTarget.
Record t : Type := mk {
  target_id : string;
  distance_nm : R;
  bearing_deg : R;
  speed_knots : R;
  course_deg : R;
  target_type : string;
  name : string;
  status : string;
  signal_strength : R;
  timestamp : datetime
}.
End RadarTarget.

Module AISTarget.
Record t : Type := mk {
  mmsi : string;
  name : string;
  lat : R;
  lon : R;
  speed_knots : R;
  course_deg : R;
  heading_deg : Z;
  ship_type : string;
  imo : string;
  call_sign : string;
  dest : string;
  eta : string;
  timestamp : datetime
}.
End AISTarget.

(** One entry of [FusedTarget.history]. *)
Record history_entry : Type := {
  h_lat : R;
  h_lon : R;
  h_speed : R;
  h_timestamp : datetime
}.

Module FusedTarget.
Record t : Type := mk {
  fused_id : string;
  radar_target : option RadarTarget.t;
  ais_target : option AISTarget.t;
  source_type : string;
  lat : R;
  lon : R;
  speed_knots : R;
  course_deg : R;
  heading_deg : Z;
  confidence : R;
  status : string;
  timestamp : datetime;
  history : list history_entry
}.

(** The constructor call with the dataclass defaults for the fields the
    caller leaves out; [now] is the reading of [datetime.now] taken by
    the [timestamp] default factory. *)
Definition new (now : datetime) (fused_id : string)
    (radar_target : option RadarTarget.t) (ais_target : option AISTarget.t)
    (source_type : string) (lat lon speed_knots course_deg : R)
    (heading_deg : Z) (confidence : R) : t :=
  mk fused_id radar_target ais_target source_type lat lon speed_knots
     course_deg heading_deg confidence "tracking" now [].

(** [history[-100:]] *)
Definition last100 {A} (l : list A) : list A :=
  skipn (length l - 100) l.

(** [FusedTarget.update] *)
Definition update (now : datetime) (radar : option RadarTarget.t)
    (ais : option AISTarget.t) (self : t) : t :=
  (* if radar_target: *)
  let radar_target1 :=
    match radar with Some r => Some r | None => radar_target self end in
  let speed1 :=
    match radar with
    | Some r => RadarTarget.speed_knots r
    | None => speed_knots self
    end in
  let course1 :=
    match radar with
    | Some r => RadarTarget.course_deg r
    | None => course_deg self
    end in
  (* if ais_target: *)
  let ais_target1 :=
    match ais with Some a => Some a | None => ais_target self end in
  let lat1 := match ais with Some a => AISTarget.lat a | None => lat self end in
  let lon1 := match ais with Some a => AISTarget.lon a | None => lon self end in
  let speed2 :=
    match ais with
    | Some a =>
        if Rgtb (AISTarget.speed_knots a) 0 then AISTarget.speed_knots a
        else speed1
    | None => speed1
    end in
  let heading1 :=
    match ais with
    | Some a =>
        if (AISTarget.heading_deg a >? 0)%Z then AISTarget.heading_deg a
        else heading_deg self
    | None => heading_deg self
    end in
  (* re-derive the classification *)
  let has_radar := match radar_target1 with Some _ => true | None => false end in
  let has_ais := match ais_target1 with Some _ => true | None => false end in
  let source1 : string :=
    if has_radar && has_ais then "fused"
    else if has_ais then "ais" else "radar" in
  let confidence1 : R :=
    if has_radar && has_ais then 0.9
    else if has_ais then 0.8 else 0.7 in
  let history1 :=
    history self ++
      [ {| h_lat := lat1; h_lon := lon1; h_speed := speed2;
           h_timestamp := now |} ] in
  let history2 :=
    if (100 <? length history1)%nat then last100 history1 else history1 in
  mk (fused_id self) radar_target1 ais_target1 source1 lat1 lon1 speed2
     course1 heading1 confidence1 (status self) now history2.
End FusedTarget.

(** ** Python calls that may raise *)

Inductive exn : Type :=
| LinAlgError.   (* numpy.linalg.LinAlgError: singular matrix *)

Inductive outcome (A : Type) : Type :=
| Returns (a : A)
| Raises (e : exn).
Arguments Returns {A} a.
Arguments Raises {A} e.

Definition bind {A B} (m : outcome A) (k : A -> outcome B) : outcome B :=
  match m with
  | Returns a => k a
  | Raises e => Raises e
  end.

Notation "'do' x <- m ; k" := (bind m (fun x => k))
  (at level 10, x name, m at level 100, k at level 200).

(** ** The fusion section of the configuration *)

(** The keys of [config.fusion_config] that the code reads; a key that is
    absent from the dictionary is [None]. *)
Record fusion_config : Type := {
  cfg_enabled : option bool;
  cfg_association_distance_m : option R;
  cfg_max_age_seconds : option R;
  cfg_tracker : option string
}.

(** [d.get(key, default)] on an entry already looked up. *)
Definition get_default {A} (entry : option A) (default : A) : A :=
  match entry with Some v => v | None => default end.

(** ** [TargetFusion]

    The methods over the reals: every distance is computed.  A call of
    the code that returns ends in the state given here (lemmas
    [checked_add_radar_target_eq] and [checked_add_ais_target_eq] below);
    the calls on which [math.sqrt] raises are in module [Checked]. *)

Module TargetFusion.

Record t : Type := mk {
  enabled : bool;
  association_distance : R;
  max_age : R;
  radar_targets : dict RadarTarget.t;
  ais_targets : dict AISTarget.t;
  fused_targets : dict FusedTarget.t;
  matched_ais : gset string;
  radar_origin : R * R;            (* (lon, lat) *)
  callback : bool;                 (* is a callback registered? *)
  notified : list FusedTarget.t    (* the calls made to it, oldest first *)
}.

Definition with_radar_targets (d : dict RadarTarget.t) (s : t) : t :=
  mk (enabled s) (association_distance s) (max_age s) d (ais_targets s)
     (fused_targets s) (matched_ais s) (radar_origin s) (callback s)
     (notified s).

Definition with_ais_targets (d : dict AISTarget.t) (s : t) : t :=
  mk (enabled s) (association_distance s) (max_age s) (radar_targets s) d
     (fused_targets s) (matched_ais s) (radar_origin s) (callback s)
     (notified s).

Definition with_fused_targets (d : dict FusedTarget.t) (s : t) : t :=
  mk (enabled s) (association_distance s) (max_age s) (radar_targets s)
     (ais_targets s) d (matched_ais s) (radar_origin s) (callback s)
     (notified s).

Definition with_matched_ais (m : gset string) (s : t) : t :=
  mk (enabled s) (association_distance s) (max_age s) (radar_targets s)
     (ais_targets s) (fused_targets s) m (radar_origin s) (callback s)
     (notified s).

Definition with_radar_origin (o : R * R) (s : t) : t :=
  mk (enabled s) (association_distance s) (max_age s) (radar_targets s)
     (ais_targets s) (fused_targets s) (matched_ais s) o (callback s)
     (notified s).

(** [if self.callback: self.callback(fused)] *)
Definition notify (fused : FusedTarget.t) (s : t) : t :=
  if callback s then
    mk (enabled s) (association_distance s) (max_age s) (radar_targets s)
       (ais_targets s) (fused_targets s) (matched_ais s) (radar_origin s)
       (callback s) (notified s ++ [fused])
  else s.

(** The object that [TargetFusion.__init__] builds. *)
Definition fresh (config : fusion_config) (callback : bool) : t :=
  mk (get_default (cfg_enabled config) true)
     (get_default (cfg_association_distance_m config) 100)
     (get_default (cfg_max_age_seconds config) 60)
     empty empty empty ∅ (0, 0) callback [].

(** [TargetFusion.__init__]: three [dict.get] with a default and the
    field assignments; no statement of the constructor raises. *)
Definition __init__ (config : fusion_config) (callback : bool) : outcome t :=
  Returns (fresh config callback).

Definition set_radar_origin (lon lat : R) (s : t) : t :=
  with_radar_origin (lon, lat) s.

(** The body of the loop of [_find_matching_ais], over
    [self.ais_targets.values()]. *)
Fixpoint scan_ais (matched : gset string) (gate lat lon : R)
    (pool : list AISTarget.t) : option AISTarget.t :=
  match pool with
  | [] => None
  | ais :: rest =>
      if bool_decide (AISTarget.mmsi ais ∈ matched) then
        scan_ais matched gate lat lon rest
      else
        let distance :=
          _haversine_distance lat lon (AISTarget.lat ais) (AISTarget.lon ais) in
        if Rltb distance gate then Some ais
        else scan_ais matched gate lat lon rest
  end.

Definition _find_matching_ais (s : t) (lat lon : R) : option AISTarget.t :=
  scan_ais (matched_ais s) (association_distance s) lat lon
           (values (ais_targets s)).

(** The geographic position of a radar contact as the engine sees it. *)
Definition radar_geo (s : t) (radar : RadarTarget.t) : R * R :=
  _radar_to_geo (RadarTarget.distance_nm radar) (RadarTarget.bearing_deg radar)
                (snd (radar_origin s)) (fst (radar_origin s)).

(** The body of the loop of [_find_matching_radar], over
    [self.radar_targets.values()]. *)
Fixpoint scan_radar (s : t) (lat lon : R) (pool : list RadarTarget.t)
    : option RadarTarget.t :=
  match pool with
  | [] => None
  | radar :: rest =>
      let '(r_lat, r_lon) := radar_geo s radar in
      let distance := _haversine_distance lat lon r_lat r_lon in
      if Rltb distance (association_distance s) then Some radar
      else scan_radar s lat lon rest
  end.

Definition _find_matching_radar (s : t) (lat lon : R) : option RadarTarget.t :=
  scan_radar s lat lon (values (radar_targets s)).

(** [_fuse_ais_only] *)
Definition _fuse_ais_only (now : datetime) (ais_target : AISTarget.t) (s : t) : t :=
  match _find_matching_radar s (AISTarget.lat ais_target) (AISTarget.lon ais_target) with
  | Some _ => s
  | None =>
      let fused_id := String.append "A" (AISTarget.mmsi ais_target) in
      let fused :=
        FusedTarget.new now fused_id None (Some ais_target) "ais"
          (AISTarget.lat ais_target) (AISTarget.lon ais_target)
          (AISTarget.speed_knots ais_target) (AISTarget.course_deg ais_target)
          (AISTarget.heading_deg ais_target) 0.8 in
      notify fused (with_fused_targets (setitem fused_id fused (fused_targets s)) s)
  end.

(** [_fuse_radar_target] *)
Definition _fuse_radar_target (now : datetime) (radar_target : RadarTarget.t)
    (s : t) : t :=
  let '(lat, lon) := radar_geo s radar_target in
  match _find_matching_ais s lat lon with
  | Some matched =>
      let s1 := with_matched_ais ({[ AISTarget.mmsi matched ]} ∪ matched_ais s) s in
      let fused_id := String.append "F" (AISTarget.mmsi matched) in
      let fused :=
        FusedTarget.new now fused_id (Some radar_target) (Some matched) "fused"
          lat lon
          (py_or (AISTarget.speed_knots matched) (RadarTarget.speed_knots radar_target))
          (py_or (AISTarget.course_deg matched) (RadarTarget.course_deg radar_target))
          0 0.9 in
      notify fused (with_fused_targets (setitem fused_id fused (fused_targets s1)) s1)
  | None =>
      let fused_id := String.append "R" (RadarTarget.target_id radar_target) in
      let fused :=
        FusedTarget.new now fused_id (Some radar_target) None "radar"
          lat lon (RadarTarget.speed_knots radar_target)
          (RadarTarget.course_deg radar_target) 0 0.7 in
      notify fused (with_fused_targets (setitem fused_id fused (fused_targets s)) s)
  end.

(** [add_radar_target] *)
Definition add_radar_target (now : datetime) (target : RadarTarget.t) (s : t) : t :=
  let s1 :=
    with_radar_targets
      (setitem (RadarTarget.target_id target) target (radar_targets s)) s in
  _fuse_radar_target now target s1.

(** [add_ais_target] *)
Definition add_ais_target (now : datetime) (target : AISTarget.t) (s : t) : t :=
  let s1 :=
    with_ais_targets (setitem (AISTarget.mmsi target) target (ais_targets s)) s in
  match _find_matching_radar s1 (AISTarget.lat target) (AISTarget.lon target) with
  | Some matched_radar =>
      let s2 := with_matched_ais ({[ AISTarget.mmsi target ]} ∪ matched_ais s1) s1 in
      let '(lat, lon) := radar_geo s2 matched_radar in
      let fused_id := String.append "F" (AISTarget.mmsi target) in
      let fused :=
        FusedTarget.new now fused_id (Some matched_radar) (Some target) "fused"
          lat lon
          (py_or (AISTarget.speed_knots target) (RadarTarget.speed_knots matched_radar))
          (py_or (AISTarget.course_deg target) (RadarTarget.course_deg matched_radar))
          0 0.9 in
      notify fused (with_fused_targets (setitem fused_id fused (fused_targets s2)) s2)
  | None => _fuse_ais_only now target s1
  end.

(** The test of the first loop of [get_fused_targets]. *)
Definition is_expired (now : datetime) (max_age : R) (target : FusedTarget.t) : bool :=
  Rgtb (total_seconds (now - FusedTarget.timestamp target)) max_age.

(** [get_fused_targets]: collect the expired identities, delete them one
    by one, return the remaining tracks. *)
Definition get_fused_targets (now : datetime) (s : t) : t * list FusedTarget.t :=
  let expired :=
    map fst (List.filter (fun kv => is_expired now (max_age s) (snd kv))
                    (items (fused_targets s))) in
  let remaining := fold_left (fun d fid => delitem fid d) expired (fused_targets s) in
  (with_fused_targets remaining s, values remaining).

Record stats : Type := {
  stat_radar_targets : nat;
  stat_ais_targets : nat;
  stat_fused_targets : nat;
  stat_radar_only : nat;
  stat_ais_only : nat;
  stat_fused_count : nat
}.

Definition count_source (src : string) (l : list FusedTarget.t) : nat :=
  length (List.filter (fun f => String.eqb (FusedTarget.source_type f) src) l).

(** [get_stats] *)
Definition get_stats (now : datetime) (s : t) : t * stats :=
  let '(s1, fused) := get_fused_targets now s in
  (s1, {| stat_radar_targets := length (radar_targets s1);
          stat_ais_targets := length (ais_targets s1);
          stat_fused_targets := length fused;
          stat_radar_only := count_source "radar" fused;
          stat_ais_only := count_source "ais" fused;
          stat_fused_count := count_source "fused" fused |}).

(** The public calls of the engine, and a run of them. *)
Inductive call : Type :=
| Set_radar_origin (lon lat : R)
| Add_radar_target (now : datetime) (target : RadarTarget.t)
| Add_ais_target (now : datetime) (target : AISTarget.t)
| Get_fused_targets (now : datetime)
| Get_stats (now : datetime).

Definition step (s : t) (c : call) : t :=
  match c with
  | Set_radar_origin lon lat => set_radar_origin lon lat s
  | Add_radar_target now target => add_radar_target now target s
  | Add_ais_target now target => add_ais_target now target s
  | Get_fused_targets now => fst (get_fused_targets now s)
  | Get_stats now => fst (get_stats now s)
  end.

Definition run (calls : list call) (s : t) : t := fold_left step calls s.

End TargetFusion.

(** ** numpy arrays of floats, as lists of rows

    numpy raises on an index out of range and on operands of different
    shapes; here an out-of-range write changes nothing and [add]/[sub] stop
    at the shorter operand.  The arrays of an estimator keep the shapes the
    constructor gives them (lemma [estimator_shaped] below), so neither
    case arises. *)

Module Matrix.

Definition matrix : Type := list (list R).

(** [np.zeros((r, c))] *)
Definition zeros (r c : nat) : matrix := repeat (repeat 0 c) r.

(** [np.eye(n)] *)
Definition eye (n : nat) : matrix :=
  map (fun i => map (fun j => if Nat.eqb i j then 1 else 0) (seq 0 n)) (seq 0 n).

(** [m * k] for a scalar [k] *)
Definition scale (m : matrix) (k : R) : matrix := map (map (fun x => x * k)) m.

Definition add (a b : matrix) : matrix := zip_with (zip_with Rplus) a b.
Definition sub (a b : matrix) : matrix := zip_with (zip_with Rminus) a b.

(** [m.T] *)
Definition transpose (m : matrix) : matrix :=
  match m with
  | [] => []
  | row :: _ => map (fun j => map (fun r => nth j r 0) m) (seq 0 (length row))
  end.

Definition dot (u v : list R) : R := fold_right Rplus 0 (zip_with Rmult u v).

(** [a @ b] *)
Definition mul (a b : matrix) : matrix :=
  map (fun row => map (fun col => dot row col) (transpose b)) a.

(** [m[i, j]] *)
Definition get (i j : nat) (m : matrix) : R := nth j (nth i m []) 0.

(** [m[i, j] = v] *)
Definition set (i j : nat) (v : R) (m : matrix) : matrix :=
  <[ i := <[ j := v ]> (nth i m []) ]> m.

(** [np.linalg.inv] at the one shape the code inverts, 2 x 2; a singular
    argument raises [LinAlgError]. *)
Definition inv (m : matrix) : outcome matrix :=
  match m with
  | [[a; b]; [c; d]] =>
      let det := a * d - b * c in
      if Reqb det 0 then Raises LinAlgError
      else Returns [[d / det; - b / det]; [- c / det; a / det]]
  | _ => Raises LinAlgError
  end.

End Matrix.

Infix "@" := Matrix.mul (at level 40, left associativity).

(** The snapshot returned by [get_state]. *)
Record state_dict : Type := {
  sd_x : R;
  sd_y : R;
  sd_vx : R;
  sd_vy : R;
  sd_speed : R;
  sd_P : option Matrix.matrix   (* absent from [KFTracker.get_state] *)
}.

(** ** [KalmanFilter] *)

Module KalmanFilter.

Record t : Type := mk {
  dt : R;
  process_noise : R;
  measurement_noise : R;
  state : Matrix.matrix;   (* 4 x 1: x, y, vx, vy *)
  P : Matrix.matrix;       (* 4 x 4 *)
  F : Matrix.matrix;       (* 4 x 4 *)
  H : Matrix.matrix;       (* 2 x 4 *)
  Q : Matrix.matrix;       (* 4 x 4 *)
  R_ : Matrix.matrix;      (* 2 x 2 *)
  initialized : bool
}.

Definition with_state_P (state' P' : Matrix.matrix) (init' : bool) (s : t) : t :=
  mk (dt s) (process_noise s) (measurement_noise s) state' P' (F s) (H s)
     (Q s) (R_ s) init'.

(** [KalmanFilter.__init__]: the arguments are stored as they come; no
    statement of the constructor raises. *)
Definition __init__ (dt process_noise measurement_noise : R) : outcome t :=
  Returns
    (mk dt process_noise measurement_noise
        (Matrix.zeros 4 1)
        (Matrix.scale (Matrix.eye 4) 100)
        [[1; 0; dt; 0]; [0; 1; 0; dt]; [0; 0; 1; 0]; [0; 0; 0; 1]]
        [[1; 0; 0; 0]; [0; 1; 0; 0]]
        (Matrix.scale (Matrix.eye 4) process_noise)
        (Matrix.scale (Matrix.eye 2) measurement_noise)
        false).

(** [initialize] *)
Definition initialize (x y : R) (s : t) : t :=
  let st := Matrix.set 3 0 0 (Matrix.set 2 0 0 (Matrix.set 1 0 y
              (Matrix.set 0 0 x (state s)))) in
  with_state_P st (Matrix.scale (Matrix.eye 4) 1) true s.

(** [predict] *)
Definition predict (s : t) : (R * R) * t :=
  let state' := F s @ state s in
  let P' := Matrix.add (F s @ P s @ Matrix.transpose (F s)) (Q s) in
  ((Matrix.get 0 0 state', Matrix.get 1 0 state'),
   with_state_P state' P' (initialized s) s).

(** [update] *)
Definition update (x y : R) (s : t) : outcome ((R * R) * t) :=
  if negb (initialized s) then
    Returns ((x, y), initialize x y s)
  else
    let z := [[x]; [y]] in
    let z_pred := H s @ state s in
    let y_res := Matrix.sub z z_pred in
    let S := Matrix.add (H s @ P s @ Matrix.transpose (H s)) (R_ s) in
    do S_inv <- Matrix.inv S;
    let K := P s @ Matrix.transpose (H s) @ S_inv in
    let state' := Matrix.add (state s) (K @ y_res) in
    let P' := Matrix.sub (Matrix.eye 4) (K @ H s) @ P s in
    Returns ((Matrix.get 0 0 state', Matrix.get 1 0 state'),
             with_state_P state' P' (initialized s) s).

(** [predict_update] *)
Definition predict_update (x y : R) (s : t) : outcome ((R * R) * t) :=
  update x y (snd (predict s)).

Definition get_velocity (s : t) : R * R :=
  (Matrix.get 2 0 (state s), Matrix.get 3 0 (state s)).

Definition get_state (s : t) : state_dict :=
  {| sd_x := Matrix.get 0 0 (state s);
     sd_y := Matrix.get 1 0 (state s);
     sd_vx := Matrix.get 2 0 (state s);
     sd_vy := Matrix.get 3 0 (state s);
     sd_speed := sqrt (Matrix.get 2 0 (state s) ^ 2 + Matrix.get 3 0 (state s) ^ 2);
     sd_P := Some (P s) |}.

End KalmanFilter.

(** ** [KFTracker] of [advanced_tracker.py] *)

Module KFTracker.

Record t : Type := mk {
  dt : R;
  F : Matrix.matrix;
  H : Matrix.matrix;
  Q : Matrix.matrix;
  R_ : Matrix.matrix;
  x : Matrix.matrix;
  P : Matrix.matrix;
  init : bool
}.

Definition with_x_P (x' P' : Matrix.matrix) (init' : bool) (s : t) : t :=
  mk (dt s) (F s) (H s) (Q s) (R_ s) x' P' init'.

Definition __init__ (dt q r : R) : outcome t :=
  Returns
    (mk dt
        [[1; 0; dt; 0]; [0; 1; 0; dt]; [0; 0; 1; 0]; [0; 0; 0; 1]]
        [[1; 0; 0; 0]; [0; 1; 0; 0]]
        (Matrix.scale (Matrix.eye 4) q)
        (Matrix.scale (Matrix.eye 2) r)
        (Matrix.zeros 4 1)
        (Matrix.scale (Matrix.eye 4) 100)
        false).

(** [process] *)
Definition process (mx my : R) (s : t) : outcome ((R * R) * t) :=
  if negb (init s) then
    Returns ((mx, my), with_x_P [[mx]; [my]; [0]; [0]] (Matrix.eye 4) true s)
  else
    (* predict *)
    let x1 := F s @ x s in
    let P1 := Matrix.add (F s @ P s @ Matrix.transpose (F s)) (Q s) in
    (* correct *)
    let z := [[mx]; [my]] in
    let y_res := Matrix.sub z (H s @ x1) in
    let S := Matrix.add (H s @ P1 @ Matrix.transpose (H s)) (R_ s) in
    do S_inv <- Matrix.inv S;
    let K := P1 @ Matrix.transpose (H s) @ S_inv in
    let x2 := Matrix.add x1 (K @ y_res) in
    let P2 := Matrix.sub (Matrix.eye 4) (K @ H s) @ P1 in
    Returns ((Matrix.get 0 0 x2, Matrix.get 1 0 x2), with_x_P x2 P2 (init s) s).

Definition get_state (s : t) : state_dict :=
  {| sd_x := Matrix.get 0 0 (x s);
     sd_y := Matrix.get 1 0 (x s);
     sd_vx := Matrix.get 2 0 (x s);
     sd_vy := Matrix.get 3 0 (x s);
     sd_speed := sqrt (Matrix.get 2 0 (x s) ^ 2 + Matrix.get 3 0 (x s) ^ 2);
     sd_P := None |}.

End KFTracker.

(** ** [MultiTargetKalmanFilter]: the registry of estimators *)

Module MultiTargetKalmanFilter.

Record t : Type := mk { filters : dict KalmanFilter.t }.

Definition __init__ : outcome t := Returns (mk empty).

(** [add_target]; [dt] takes its default 1.0. *)
Definition add_target (target_id : string) (x y process_noise measurement_noise : R)
    (s : t) : outcome t :=
  do kf <- KalmanFilter.__init__ 1 process_noise measurement_noise;
  let kf := KalmanFilter.initialize x y kf in
  Returns (mk (setitem target_id kf (filters s))).

(** [update_target] *)
Definition update_target (target_id : string) (x y : R) (s : t)
    : outcome (option state_dict * t) :=
  if negb (contains target_id (filters s)) then
    do s1 <- add_target target_id x y 0.1 1 s;
    Returns (option_map KalmanFilter.get_state (get target_id (filters s1)), s1)
  else
    match get target_id (filters s) with
    | Some kf =>
        do r <- KalmanFilter.predict_update x y kf;
        let kf' := snd r in
        Returns (Some (KalmanFilter.get_state kf'),
                 mk (setitem target_id kf' (filters s)))
    | None => Returns (None, s)   (* not reached: the key is present *)
    end.

(** [predict_target] *)
Definition predict_target (target_id : string) (s : t)
    : outcome (option (R * R) * t) :=
  if negb (contains target_id (filters s)) then Returns (None, s)
  else
    match get target_id (filters s) with
    | Some kf =>
        let '(pos, kf') := KalmanFilter.predict kf in
        Returns (Some pos, mk (setitem target_id kf' (filters s)))
    | None => Returns (None, s)   (* not reached: the key is present *)
    end.

(** [remove_target] *)
Definition remove_target (target_id : string) (s : t) : outcome t :=
  if contains target_id (filters s) then
    Returns (mk (delitem target_id (filters s)))
  else Returns s.

(** [get_all_states] *)
Definition get_all_states (s : t) : dict state_dict :=
  map (fun kv => (fst kv, KalmanFilter.get_state (snd kv))) (items (filters s)).

End MultiTargetKalmanFilter.

(** ** [ConfigValidator._validate_fusion] *)

Module ConfigValidator.

Record t : Type := mk {
  fusion : option fusion_config;   (* [config.get('fusion')] *)
  errors : list string;
  warnings : list string
}.

Definition known_trackers : list string := ["KF"; "EKF"; "UKF"; "PF"].

(** The only check made on the fusion section: an unknown tracker name is
    a warning.  The gating distance and the noise values are not read. *)
Definition _validate_fusion (s : t) : t :=
  let tracker :=
    match fusion s with
    | Some f => get_default (cfg_tracker f) "KF"
    | None => "KF"
    end in
  if negb (existsb (String.eqb tracker) known_trackers) then
    mk (fusion s) (errors s)
       (warnings s ++ [String.append "未知跟踪算法: " tracker])
  else s.

End ConfigValidator.

(** ** [FusionEngine]: the wrapper around [TargetFusion]

    A listener registered with [register_callback] is an opaque callable,
    named here by a number; [delivered] is the sequence of calls made to
    listeners.  [_on_fused] is the callback the engine hands to its
    [TargetFusion]: it runs once for every notification the core emits
    during an ingest call.  [get_all_targets] reads the clock twice (once
    in [get_stats], once in [get_fused_targets]); it is modelled up to the
    [to_dict] formatting of its result. *)

Module FusionEngine.

Record t : Type := mk {
  fusion : TargetFusion.t;
  callbacks : list nat;
  radar_targets : dict RadarTarget.t;
  ais_targets : dict AISTarget.t;
  fused_targets : dict FusedTarget.t;
  delivered : list (nat * FusedTarget.t)
}.

Definition __init__ (config : fusion_config) : outcome t :=
  do core <- TargetFusion.__init__ config true;
  Returns (mk core [] empty empty empty []).

(** [_on_fused] *)
Definition _on_fused (e : t) (target : FusedTarget.t) : t :=
  mk (fusion e) (callbacks e) (radar_targets e) (ais_targets e)
     (setitem (FusedTarget.fused_id target) target (fused_targets e))
     (delivered e ++ map (fun cb => (cb, target)) (callbacks e)).

(** The notifications the core emitted between two of its states. *)
Definition emitted (before after : TargetFusion.t) : list FusedTarget.t :=
  skipn (length (TargetFusion.notified before)) (TargetFusion.notified after).

(** [add_radar_target] *)
Definition add_radar_target (now : datetime) (target : RadarTarget.t) (e : t) : t :=
  let core := TargetFusion.add_radar_target now target (fusion e) in
  fold_left _on_fused (emitted (fusion e) core)
    (mk core (callbacks e)
        (setitem (RadarTarget.target_id target) target (radar_targets e))
        (ais_targets e) (fused_targets e) (delivered e)).

(** [add_ais_target] *)
Definition add_ais_target (now : datetime) (target : AISTarget.t) (e : t) : t :=
  let core := TargetFusion.add_ais_target now target (fusion e) in
  fold_left _on_fused (emitted (fusion e) core)
    (mk core (callbacks e) (radar_targets e)
        (setitem (AISTarget.mmsi target) target (ais_targets e))
        (fused_targets e) (delivered e)).

(** [register_callback] *)
Definition register_callback (cb : nat) (e : t) : t :=
  mk (fusion e) (callbacks e ++ [cb]) (radar_targets e) (ais_targets e)
     (fused_targets e) (delivered e).

Record all_targets : Type := {
  all_radar : list RadarTarget.t;
  all_ais : list AISTarget.t;
  all_fused : list FusedTarget.t;
  all_stats : TargetFusion.stats
}.

(** [get_all_targets] *)
Definition get_all_targets (now1 now2 : datetime) (e : t) : t * all_targets :=
  let '(core1, stats) := TargetFusion.get_stats now1 (fusion e) in
  let '(core2, fused) := TargetFusion.get_fused_targets now2 core1 in
  (mk core2 (callbacks e) (radar_targets e) (ais_targets e) (fused_targets e)
      (delivered e),
   {| all_radar := values (radar_targets e);
      all_ais := values (ais_targets e);
      all_fused := fused;
      all_stats := stats |}).

(** The calls made on an engine; the radar origin is set on its core, as
    the callers of the engine do. *)
Inductive call : Type :=
| Set_radar_origin (lon lat : R)
| Register_callback (cb : nat)
| Add_radar_target (now : datetime) (target : RadarTarget.t)
| Add_ais_target (now : datetime) (target : AISTarget.t)
| Get_all_targets (now1 now2 : datetime).

Definition step (e : t) (c : call) : t :=
  match c with
  | Set_radar_origin lon lat =>
      mk (TargetFusion.set_radar_origin lon lat (fusion e)) (callbacks e)
         (radar_targets e) (ais_targets e) (fused_targets e) (delivered e)
  | Register_callback cb => register_callback cb e
  | Add_radar_target now target => add_radar_target now target e
  | Add_ais_target now target => add_ais_target now target e
  | Get_all_targets now1 now2 => fst (get_all_targets now1 now2 e)
  end.

Definition run (calls : list call) (e : t) : t := fold_left step calls e.

(** The engine that [__init__] builds. *)
Definition fresh (config : fusion_config) : t :=
  mk (TargetFusion.fresh config true) [] empty empty empty [].

End FusionEngine.

(** ** The domain error of [math.sqrt]

    [_haversine_distance] calls [math.sqrt(a)] and [math.sqrt(1 - a)].
    Over the reals [a] is between 0 and 1; computed in floats it can
    leave that interval by rounding at near-antipodal points (at
    (8, 0) against (-8, 180) it is 1.0000000000000002), and [math.sqrt]
    then raises [ValueError].  [fusion.py] has no [try]: the error leaves
    the search and the ingest method that called it, after the contact was
    written to its pool and before any track is stored.

    Which arguments round that way depends on the floating-point unit
    and is the parameter [sqrt_raises] of this section.  The methods below
    are the ones of [TargetFusion] above, statement by statement, with
    that error; where a distance is computed it is the real one. *)

Module Checked.

(** The result of a float computation: a value, or [ValueError]. *)
Inductive value (A : Type) : Type :=
| Computed (a : A)
| ValueError.
Arguments Computed {A} a.
Arguments ValueError {A}.

(** The end of a method call on an object: the object after a normal
    return, or the object as it is when [ValueError] leaves the method. *)
Inductive call_result (S : Type) : Type :=
| Returned (s : S)
| Raised (s : S).
Arguments Returned {S} s.
Arguments Raised {S} s.

Definition state_after {S} (r : call_result S) : S :=
  match r with
  | Returned s => s
  | Raised s => s
  end.

Section Rounding.

(** [sqrt_raises lat1 lon1 lat2 lon2]: at these arguments one of the two
    [math.sqrt] calls of [_haversine_distance] gets a negative float. *)
Variable sqrt_raises : R -> R -> R -> R -> bool.

(** [TargetFusion._haversine_distance] *)
Definition _haversine_distance (lat1 lon1 lat2 lon2 : R) : value R :=
  if sqrt_raises lat1 lon1 lat2 lon2 then ValueError
  else Computed (_haversine_distance lat1 lon1 lat2 lon2).

(** The body of the loop of [_find_matching_ais]. *)
Fixpoint scan_ais (matched : gset string) (gate lat lon : R)
    (pool : list AISTarget.t) : value (option AISTarget.t) :=
  match pool with
  | [] => Computed None
  | ais :: rest =>
      if bool_decide (AISTarget.mmsi ais ∈ matched) then
        scan_ais matched gate lat lon rest
      else
        match _haversine_distance lat lon (AISTarget.lat ais) (AISTarget.lon ais) with
        | ValueError => ValueError
        | Computed distance =>
            if Rltb distance gate then Computed (Some ais)
            else scan_ais matched gate lat lon rest
        end
  end.

Definition _find_matching_ais (s : TargetFusion.t) (lat lon : R)
    : value (option AISTarget.t) :=
  scan_ais (TargetFusion.matched_ais s) (TargetFusion.association_distance s) lat lon
           (values (TargetFusion.ais_targets s)).

(** The body of the loop of [_find_matching_radar]. *)
Fixpoint scan_radar (s : TargetFusion.t) (lat lon : R) (pool : list RadarTarget.t)
    : value (option RadarTarget.t) :=
  match pool with
  | [] => Computed None
  | radar :: rest =>
      let '(r_lat, r_lon) := TargetFusion.radar_geo s radar in
      match _haversine_distance lat lon r_lat r_lon with
      | ValueError => ValueError
      | Computed distance =>
          if Rltb distance (TargetFusion.association_distance s) then Computed (Some radar)
          else scan_radar s lat lon rest
      end
  end.

Definition _find_matching_radar (s : TargetFusion.t) (lat lon : R)
    : value (option RadarTarget.t) :=
  scan_radar s lat lon (values (TargetFusion.radar_targets s)).

(** [_fuse_ais_only] *)
Definition _fuse_ais_only (now : datetime) (ais_target : AISTarget.t)
    (s : TargetFusion.t) : call_result TargetFusion.t :=
  match _find_matching_radar s (AISTarget.lat ais_target) (AISTarget.lon ais_target) with
  | ValueError => Raised s
  | Computed (Some _) => Returned s
  | Computed None =>
      let fused_id := String.append "A" (AISTarget.mmsi ais_target) in
      let fused :=
        FusedTarget.new now fused_id None (Some ais_target) "ais"
          (AISTarget.lat ais_target) (AISTarget.lon ais_target)
          (AISTarget.speed_knots ais_target) (AISTarget.course_deg ais_target)
          (AISTarget.heading_deg ais_target) 0.8 in
      Returned
        (TargetFusion.notify fused
           (TargetFusion.with_fused_targets
              (setitem fused_id fused (TargetFusion.fused_targets s)) s))
  end.

(** [_fuse_radar_target] *)
Definition _fuse_radar_target (now : datetime) (radar_target : RadarTarget.t)
    (s : TargetFusion.t) : call_result TargetFusion.t :=
  let '(lat, lon) := TargetFusion.radar_geo s radar_target in
  match _find_matching_ais s lat lon with
  | ValueError => Raised s
  | Computed (Some matched) =>
      let s1 :=
        TargetFusion.with_matched_ais
          ({[ AISTarget.mmsi matched ]} ∪ TargetFusion.matched_ais s) s in
      let fused_id := String.append "F" (AISTarget.mmsi matched) in
      let fused :=
        FusedTarget.new now fused_id (Some radar_target) (Some matched) "fused"
          lat lon
          (py_or (AISTarget.speed_knots matched) (RadarTarget.speed_knots radar_target))
          (py_or (AISTarget.course_deg matched) (RadarTarget.course_deg radar_target))
          0 0.9 in
      Returned
        (TargetFusion.notify fused
           (TargetFusion.with_fused_targets
              (setitem fused_id fused (TargetFusion.fused_targets s1)) s1))
  | Computed None =>
      let fused_id := String.append "R" (RadarTarget.target_id radar_target) in
      let fused :=
        FusedTarget.new now fused_id (Some radar_target) None "radar"
          lat lon (RadarTarget.speed_knots radar_target)
          (RadarTarget.course_deg radar_target) 0 0.7 in
      Returned
        (TargetFusion.notify fused
           (TargetFusion.with_fused_targets
              (setitem fused_id fused (TargetFusion.fused_targets s)) s))
  end.

(** [add_radar_target]: the pool is written before the search. *)
Definition add_radar_target (now : datetime) (target : RadarTarget.t)
    (s : TargetFusion.t) : call_result TargetFusion.t :=
  let s1 :=
    TargetFusion.with_radar_targets
      (setitem (RadarTarget.target_id target) target (TargetFusion.radar_targets s)) s in
  _fuse_radar_target now target s1.

(** [add_ais_target]: the pool is written before the search. *)
Definition add_ais_target (now : datetime) (target : AISTarget.t)
    (s : TargetFusion.t) : call_result TargetFusion.t :=
  let s1 :=
    TargetFusion.with_ais_targets
      (setitem (AISTarget.mmsi target) target (TargetFusion.ais_targets s)) s in
  match _find_matching_radar s1 (AISTarget.lat target) (AISTarget.lon target) with
  | ValueError => Raised s1
  | Computed (Some matched_radar) =>
      let s2 :=
        TargetFusion.with_matched_ais
          ({[ AISTarget.mmsi target ]} ∪ TargetFusion.matched_ais s1) s1 in
      let '(lat, lon) := TargetFusion.radar_geo s2 matched_radar in
      let fused_id := String.append "F" (AISTarget.mmsi target) in
      let fused :=
        FusedTarget.new now fused_id (Some matched_radar) (Some target) "fused"
          lat lon
          (py_or (AISTarget.speed_knots target) (RadarTarget.speed_knots matched_radar))
          (py_or (AISTarget.course_deg target) (RadarTarget.course_deg matched_radar))
          0 0.9 in
      Returned
        (TargetFusion.notify fused
           (TargetFusion.with_fused_targets
              (setitem fused_id fused (TargetFusion.fused_targets s2)) s2))
  | Computed None => _fuse_ais_only now target s1
  end.

End Rounding.

End Checked.

(** [FusionEngine.add_radar_target] and [add_ais_target] with the same
    error: the engine writes its own pool, then calls the core; when the
    core raises, [_on_fused] has not run.  A run of calls goes on from the
    engine a raising call leaves, as a caller that catches the error
    would. *)

Module CheckedEngine.

Section Rounding.

Variable sqrt_raises : R -> R -> R -> R -> bool.

(** [add_radar_target] *)
Definition add_radar_target (now : datetime) (target : RadarTarget.t)
    (e : FusionEngine.t) : Checked.call_result FusionEngine.t :=
  let pool :=
    setitem (RadarTarget.target_id target) target (FusionEngine.radar_targets e) in
  match Checked.add_radar_target sqrt_raises now target (FusionEngine.fusion e) with
  | Checked.Returned core =>
      Checked.Returned
        (fold_left FusionEngine._on_fused
           (FusionEngine.emitted (FusionEngine.fusion e) core)
           (FusionEngine.mk core (FusionEngine.callbacks e) pool
              (FusionEngine.ais_targets e) (FusionEngine.fused_targets e)
              (FusionEngine.delivered e)))
  | Checked.Raised core =>
      Checked.Raised
        (FusionEngine.mk core (FusionEngine.callbacks e) pool
           (FusionEngine.ais_targets e) (FusionEngine.fused_targets e)
           (FusionEngine.delivered e))
  end.

(** [add_ais_target] *)
Definition add_ais_target (now : datetime) (target : AISTarget.t)
    (e : FusionEngine.t) : Checked.call_result FusionEngine.t :=
  let pool :=
    setitem (AISTarget.mmsi target) target (FusionEngine.ais_targets e) in
  match Checked.add_ais_target sqrt_raises now target (FusionEngine.fusion e) with
  | Checked.Returned core =>
      Checked.Returned
        (fold_left FusionEngine._on_fused
           (FusionEngine.emitted (FusionEngine.fusion e) core)
           (FusionEngine.mk core (FusionEngine.callbacks e)
              (FusionEngine.radar_targets e) pool (FusionEngine.fused_targets e)
              (FusionEngine.delivered e)))
  | Checked.Raised core =>
      Checked.Raised
        (FusionEngine.mk core (FusionEngine.callbacks e)
           (FusionEngine.radar_targets e) pool (FusionEngine.fused_targets e)
           (FusionEngine.delivered e))
  end.

Definition step (e : FusionEngine.t) (c : FusionEngine.call) : FusionEngine.t :=
  match c with
  | FusionEngine.Add_radar_target now target =>
      Checked.state_after (add_radar_target now target e)
  | FusionEngine.Add_ais_target now target =>
      Checked.state_after (add_ais_target now target e)
  | _ => FusionEngine.step e c
  end.

Definition run (calls : list FusionEngine.call) (e : FusionEngine.t) : FusionEngine.t :=
  fold_left step calls e.

End Rounding.

End CheckedEngine.

(** ** The whole [ConfigValidator]

    The configuration dictionary at the keys the validator reads, with
    values of the types [Config.DEFAULT_CONFIG] gives them (the radar and
    HTTP ports are integers, the radar IP, the AIS serial port and the log
    directory are strings); an absent key is [None].  [_validate_paths]
    asks the file system whether the log directory exists and tries to
    create it; the file system is an argument. *)

Module ConfigFile.

Record radar_connection : Type := { ip : option string; port : option Z }.
Record radar_section : Type := { radar_conn : option radar_connection }.
Record ais_connection : Type := { serial_port : option string }.
Record ais_section : Type := { ais_conn : option ais_connection }.
Record http_section : Type := { http_port : option Z }.
Record output_section : Type := { http : option http_section }.
Record system_section : Type := { log_dir : option string }.

Record t : Type := {
  radar : option radar_section;
  ais : option ais_section;
  fusion : option fusion_config;
  output : option output_section;
  system : option system_section
}.

(** [section in config] *)
Definition has_section (config : t) (section : string) : bool :=
  if String.eqb section "radar" then bool_decide (is_Some (radar config))
  else if String.eqb section "ais" then bool_decide (is_Some (ais config))
  else if String.eqb section "fusion" then bool_decide (is_Some (fusion config))
  else if String.eqb section "output" then bool_decide (is_Some (output config))
  else if String.eqb section "system" then bool_decide (is_Some (system config))
  else false.

(** [field in config[section]], at the fields the validator asks for. *)
Definition has_field (config : t) (section field : string) : bool :=
  if String.eqb section "radar" && String.eqb field "connection" then
    match radar config with Some r => bool_decide (is_Some (radar_conn r)) | None => false end
  else if String.eqb section "ais" && String.eqb field "connection" then
    match ais config with Some a => bool_decide (is_Some (ais_conn a)) | None => false end
  else if String.eqb section "fusion" && String.eqb field "enabled" then
    match fusion config with Some f => bool_decide (is_Some (cfg_enabled f)) | None => false end
  else if String.eqb section "output" && String.eqb field "http" then
    match output config with Some o => bool_decide (is_Some (http o)) | None => false end
  else false.

End ConfigFile.

Record filesystem : Type := {
  fs_exists : string -> bool;      (* [os.path.exists] *)
  fs_creatable : string -> bool    (* does [os.makedirs] succeed? *)
}.

(** [os.makedirs(d, exist_ok=True)]: the new file system, or [None] when
    the call raises. *)
Definition makedirs (fs : filesystem) (d : string) : option filesystem :=
  if fs_creatable fs d then
    Some {| fs_exists := fun p => if String.eqb p d then true else fs_exists fs p;
            fs_creatable := fs_creatable fs |}
  else None.

Module Validator.

Record t : Type := mk {
  config : ConfigFile.t;
  errors : list string;
  warnings : list string
}.

Definition REQUIRED_FIELDS : list (string * list string) :=
  [("radar", ["connection"]); ("ais", ["connection"]);
   ("fusion", ["enabled"]); ("output", ["http"])]%string.

Definition add_error (msg : string) (s : t) : t :=
  mk (config s) (errors s ++ [msg]) (warnings s).

Definition add_warning (msg : string) (s : t) : t :=
  mk (config s) (errors s) (warnings s ++ [msg]).

(** [_check_required_fields] *)
Definition _check_required_fields (s : t) : t :=
  fold_left
    (fun s entry =>
       let '(section, fields) := entry in
       if negb (ConfigFile.has_section (config s) section) then
         add_error (String.append "缺少配置节: " section) s
       else
         fold_left
           (fun s field =>
              if negb (ConfigFile.has_field (config s) section field) then
                add_error (String.append "缺少配置项: "
                             (String.append section (String.append "." field))) s
              else s)
           fields s)
    REQUIRED_FIELDS s.

(** [port and (port < 1 or port > 65535)] *)
Definition bad_port (port : Z) : bool :=
  negb (port =? 0)%Z && ((port <? 1)%Z || (65535 <? port)%Z).

(** [_validate_radar] *)
Definition _validate_radar (s : t) : t :=
  let conn :=
    match ConfigFile.radar (config s) with
    | Some r => ConfigFile.radar_conn r
    | None => None
    end in
  let ip := match conn with Some c => get_default (ConfigFile.ip c) "" | None => "" end in
  let port := match conn with Some c => get_default (ConfigFile.port c) 0%Z | None => 0%Z end in
  let s1 :=
    if String.eqb ip "" then add_warning "雷达IP未配置，将使用模拟器模式" s else s in
  if bad_port port then add_error (String.append "雷达端口无效: " (pretty port)) s1
  else s1.

(** [_validate_ais] *)
Definition _validate_ais (s : t) : t :=
  let conn :=
    match ConfigFile.ais (config s) with
    | Some a => ConfigFile.ais_conn a
    | None => None
    end in
  let port :=
    match conn with Some c => get_default (ConfigFile.serial_port c) "" | None => "" end in
  if String.eqb port "" then add_warning "AIS串口未配置" s else s.

(** [_validate_fusion], through the definition above. *)
Definition _validate_fusion (s : t) : t :=
  let r := ConfigValidator._validate_fusion
             (ConfigValidator.mk (ConfigFile.fusion (config s)) (errors s) (warnings s)) in
  mk (config s) (ConfigValidator.errors r) (ConfigValidator.warnings r).

(** [_validate_network] *)
Definition _validate_network (s : t) : t :=
  let http :=
    match ConfigFile.output (config s) with
    | Some o => ConfigFile.http o
    | None => None
    end in
  let port :=
    match http with Some h => get_default (ConfigFile.http_port h) 8081%Z | None => 8081%Z end in
  if bad_port port then add_error (String.append "HTTP端口无效: " (pretty port)) s
  else s.

(** [_validate_paths] *)
Definition _validate_paths (fs : filesystem) (s : t) : filesystem * t :=
  let log_dir :=
    match ConfigFile.system (config s) with
    | Some y => get_default (ConfigFile.log_dir y) "logs"
    | None => "logs"
    end in
  if negb (fs_exists fs log_dir) then
    match makedirs fs log_dir with
    | Some fs' => (fs', add_warning (String.append "已创建日志目录: " log_dir) s)
    | None => (fs, add_error (String.append "无法创建日志目录: " log_dir) s)
    end
  else (fs, s).

(** [validate] *)
Definition validate (fs : filesystem) (s : t)
    : (bool * list string * list string) * (filesystem * t) :=
  let s0 := mk (config s) [] [] in
  let s1 := _check_required_fields s0 in
  let s2 := _validate_radar s1 in
  let s3 := _validate_ais s2 in
  let s4 := _validate_fusion s3 in
  let s5 := _validate_network s4 in
  let '(fs', s6) := _validate_paths fs s5 in
  let is_valid := (length (errors s6) =? 0)%nat in
  ((is_valid, errors s6, warnings s6), (fs', s6)).

(** [ConfigValidator(config)] and the module function [validate_config]. *)
Definition __init__ (config : ConfigFile.t) : t := mk config [] [].

Definition validate_config (fs : filesystem) (config : ConfigFile.t)
    : (bool * list string * list string) * filesystem :=
  let '(result, (fs', _)) := validate fs (__init__ config) in (result, fs').

End Validator.

(** ** [PFTracker] (constructor only) and [TrackerFactory]

    [PFTracker.process] draws random numbers and is not modelled; its
    constructor only stores its arguments.  Keyword arguments are a
    dictionary of numbers; a keyword the constructor does not have, or
    one that names a parameter already given by position, raises
    [TypeError]. *)

Inductive pyval : Type :=
| PyInt (z : Z)
| PyFloat (x : R).

Definition to_float (v : pyval) : R :=
  match v with PyInt z => IZR z | PyFloat x => x end.

Module PFTracker.

Record t : Type := mk {
  num_particles : pyval;
  Q : pyval;
  R_ : pyval;
  state : list R;     (* [np.zeros(4)] *)
  init : bool
}.

Definition __init__ (num_particles q r : pyval) : t :=
  mk num_particles q r [0; 0; 0; 0] false.

End PFTracker.

Module TrackerFactory.

Inductive error : Type :=
| ValueError (msg : string)
| TypeError (keyword : string)
| Other (e : exn).

(** The objects the factory builds; [EKFTracker] and [UKFTracker] are
    subclasses of [KFTracker] that add nothing. *)
Inductive tracker : Type :=
| KF (tr : KFTracker.t)
| EKF (tr : KFTracker.t)
| UKF (tr : KFTracker.t)
| PF (tr : PFTracker.t).

Inductive result : Type :=
| Created (tr : tracker)
| Failed (e : error).

(** The keys of [ALGORITHMS], in order. *)
Definition ALGORITHMS : list string := ["KF"; "EKF"; "UKF"; "PF"].

(** [list_algorithms] *)
Definition list_algorithms : list string := ALGORITHMS.

(** The first keyword that is not a parameter of the constructor. *)
Definition unexpected (parameters : list string) (kwargs : dict pyval) : option string :=
  List.find (fun k => negb (existsb (String.eqb k) parameters)) (keys kwargs).

(** [KFTracker] called with the keyword arguments *)
Definition new_kf (wrap : KFTracker.t -> tracker) (kwargs : dict pyval) : result :=
  match unexpected ["dt"; "q"; "r"] kwargs with
  | Some k => Failed (TypeError k)
  | None =>
      let dt := match get "dt" kwargs with Some v => to_float v | None => 1 end in
      let q := match get "q" kwargs with Some v => to_float v | None => 0.1 end in
      let r := match get "r" kwargs with Some v => to_float v | None => 1 end in
      match KFTracker.__init__ dt q r with
      | Returns tr => Created (wrap tr)
      | Raises e => Failed (Other e)
      end
  end.

(** [PFTracker] called with the keyword arguments *)
Definition new_pf (kwargs : dict pyval) : result :=
  match unexpected ["num_particles"; "q"; "r"] kwargs with
  | Some k => Failed (TypeError k)
  | None =>
      Created (PF (PFTracker.__init__
                     (get_default (get "num_particles" kwargs) (PyInt 500))
                     (get_default (get "q" kwargs) (PyFloat 1))
                     (get_default (get "r" kwargs) (PyFloat 5))))
  end.

(** [create], called as [TrackerFactory.create(algorithm, ...)] with the
    keyword arguments [kwargs].  A keyword named [algorithm] gives the
    parameter a second value: Python raises [TypeError] before the body
    runs. *)
Definition create (algorithm : string) (kwargs : dict pyval) : result :=
  if contains "algorithm" kwargs then Failed (TypeError "algorithm")
  else if negb (existsb (String.eqb algorithm) ALGORITHMS) then
    Failed (ValueError
              (String.append "不支持的算法: "
                 (String.append algorithm ". 支持: ['KF', 'EKF', 'UKF', 'PF']")))
  else if String.eqb algorithm "KF" then new_kf KF kwargs
  else if String.eqb algorithm "EKF" then new_kf EKF kwargs
  else if String.eqb algorithm "UKF" then new_kf UKF kwargs
  else new_pf kwargs.

End TrackerFactory.

(** ** Sample contacts

    The fusion section of [Config.DEFAULT_CONFIG] and a few contacts on
    the equator, seen from the default radar origin (0, 0). *)

Module Scenario.

Definition default_config : fusion_config :=
  {| cfg_enabled := Some true;
     cfg_association_distance_m := Some 100;
     cfg_max_age_seconds := Some 60;
     cfg_tracker := None |}.

Definition engine0 : TargetFusion.t := TargetFusion.fresh default_config false.

(** Radar contact "1": one nautical mile due east, 10 knots. *)
Definition radar1 : RadarTarget.t :=
  RadarTarget.mk "1" 1 90 10 0 "M" "" "A" 0 0%Z.

(** An AIS contact less than two metres from where [radar1] is seen. *)
Definition ais1 : AISTarget.t :=
  AISTarget.mk "200100001" "" 0 0.0167 8 0 0%Z "" "" "" "" "" 0%Z.

(** Two AIS contacts: about 56 m east of the origin, and at the origin. *)
Definition ais_far : AISTarget.t :=
  AISTarget.mk "200100001" "" 0 0.0005 0 0 0%Z "" "" "" "" "" 0%Z.

(** An AIS contact exactly 100 m east of the origin. *)
Definition ais_on_gate : AISTarget.t :=
  AISTarget.mk "200100003" "" 0 (18000 / (6371000 * PI)) 0 0 0%Z "" "" "" "" "" 0%Z.

(** A radar contact at the radar itself, and an AIS contact at (-8, 180),
    the antipode of (8, 0). *)
Definition radar_at_origin : RadarTarget.t :=
  RadarTarget.mk "2" 0 0 0 0 "M" "" "A" 0 0%Z.
Definition ais_antipode : AISTarget.t :=
  AISTarget.mk "200100004" "" (-8) 180 0 0 0%Z "" "" "" "" "" 0%Z.

(** A floating-point unit on which the distance between (8, 0) and
    (-8, 180) cannot be computed, in either direction, and every other
    distance can. *)
Definition sample_rounding (lat1 lon1 lat2 lon2 : R) : bool :=
  (Reqb lat1 8 && Reqb lon1 0 && Reqb lat2 (-8) && Reqb lon2 180) ||
  (Reqb lat1 (-8) && Reqb lon1 180 && Reqb lat2 8 && Reqb lon2 0).

(** A configuration with a negative gate. *)
Definition negative_gate_config : fusion_config :=
  {| cfg_enabled := Some true;
     cfg_association_distance_m := Some (-1);
     cfg_max_age_seconds := Some 60;
     cfg_tracker := None |}.

End Scenario.

(** ** Vocabulary of the statements *)

Import TargetFusion Scenario.

(** [x] is the first element of [pool] that satisfies [P]. *)
Definition first_such {A} (P : A -> Prop) (pool : list A) (x : A) : Prop :=
  exists before after,
    pool = before ++ x :: after /\ P x /\ Forall (fun y => ~ P y) before.

(** The AIS contacts not yet matched, in the order of [ais_targets]. *)
Definition unmatched_ais (s : TargetFusion.t) : list AISTarget.t :=
  List.filter (fun a => negb (bool_decide (AISTarget.mmsi a ∈ matched_ais s)))
              (values (ais_targets s)).

Definition ais_distance (lat lon : R) (a : AISTarget.t) : R :=
  _haversine_distance lat lon (AISTarget.lat a) (AISTarget.lon a).

Definition radar_distance (s : TargetFusion.t) (lat lon : R) (r : RadarTarget.t) : R :=
  _haversine_distance lat lon (fst (radar_geo s r)) (snd (radar_geo s r)).

(** The distance from the query position to a candidate can be computed:
    neither [math.sqrt] raises. *)
Definition ais_computable (sqrt_raises : R -> R -> R -> R -> bool) (lat lon : R)
    (a : AISTarget.t) : Prop :=
  sqrt_raises lat lon (AISTarget.lat a) (AISTarget.lon a) = false.

Definition radar_computable (sqrt_raises : R -> R -> R -> R -> bool)
    (s : TargetFusion.t) (lat lon : R) (r : RadarTarget.t) : Prop :=
  sqrt_raises lat lon (fst (radar_geo s r)) (snd (radar_geo s r)) = false.

(** What every entry of [fused_targets] looks like: the key is the track's
    own identity, and the identity, the two contact references, the
    classification and the confidence go together in one of three ways. *)
Definition track_ok (kv : string * FusedTarget.t) : Prop :=
  let k := fst kv in
  let f := snd kv in
  FusedTarget.fused_id f = k /\
  ((exists r a,
      FusedTarget.radar_target f = Some r /\ FusedTarget.ais_target f = Some a /\
      FusedTarget.source_type f = "fused"%string /\ FusedTarget.confidence f = 0.9 /\
      k = String.append "F" (AISTarget.mmsi a))
   \/ (exists r,
      FusedTarget.radar_target f = Some r /\ FusedTarget.ais_target f = None /\
      FusedTarget.source_type f = "radar"%string /\ FusedTarget.confidence f = 0.7 /\
      k = String.append "R" (RadarTarget.target_id r))
   \/ (exists a,
      FusedTarget.radar_target f = None /\ FusedTarget.ais_target f = Some a /\
      FusedTarget.source_type f = "ais"%string /\ FusedTarget.confidence f = 0.8 /\
      k = String.append "A" (AISTarget.mmsi a))).

Record inv (s : TargetFusion.t) : Prop := {
  inv_radar : wf (radar_targets s);
  inv_ais : wf (ais_targets s);
  inv_fused : wf (fused_targets s);
  inv_tracks : Forall track_ok (fused_targets s)
}.

(** The three kinds of track the engine stores. *)
Definition radar_track (s : TargetFusion.t) (now : datetime) (r : RadarTarget.t)
    : FusedTarget.t :=
  FusedTarget.new now (String.append "R" (RadarTarget.target_id r)) (Some r) None
    "radar" (fst (radar_geo s r)) (snd (radar_geo s r))
    (RadarTarget.speed_knots r) (RadarTarget.course_deg r) 0 0.7.

Definition ais_track (now : datetime) (a : AISTarget.t) : FusedTarget.t :=
  FusedTarget.new now (String.append "A" (AISTarget.mmsi a)) None (Some a) "ais"
    (AISTarget.lat a) (AISTarget.lon a) (AISTarget.speed_knots a)
    (AISTarget.course_deg a) (AISTarget.heading_deg a) 0.8.

Definition fused_track (s : TargetFusion.t) (now : datetime) (r : RadarTarget.t)
    (a : AISTarget.t) : FusedTarget.t :=
  FusedTarget.new now (String.append "F" (AISTarget.mmsi a)) (Some r) (Some a)
    "fused" (fst (radar_geo s r)) (snd (radar_geo s r))
    (py_or (AISTarget.speed_knots a) (RadarTarget.speed_knots r))
    (py_or (AISTarget.course_deg a) (RadarTarget.course_deg r)) 0 0.9.

(** A newly constructed engine whose radar origin has been set. *)
Definition blank (config : fusion_config) (cb : bool) (lon lat : R) : TargetFusion.t :=
  set_radar_origin lon lat (fresh config cb).

(** The classification rule of a track: [fused] exactly with both contact
    references, and the confidence that goes with each classification. *)
Definition classified (f : FusedTarget.t) : Prop :=
  (FusedTarget.source_type f = "fused"%string <->
   FusedTarget.radar_target f <> None /\ FusedTarget.ais_target f <> None) /\
  ((FusedTarget.source_type f = "fused"%string /\ FusedTarget.confidence f = 0.9) \/
   (FusedTarget.source_type f = "ais"%string /\ FusedTarget.confidence f = 0.8) \/
   (FusedTarget.source_type f = "radar"%string /\ FusedTarget.confidence f = 0.7)).

(** The calls that read the live track set. *)
Definition is_read (c : call) : bool :=
  match c with
  | Get_fused_targets _ | Get_stats _ => true
  | _ => false
  end.

(** Seconds since the last update of a track. *)
Definition age (now : datetime) (f : FusedTarget.t) : R :=
  total_seconds (now - FusedTarget.timestamp f).

(** The estimator objects a program can hold: built by the constructor and
    then driven through the methods. *)
Inductive estimator : KalmanFilter.t -> Prop :=
| est_new dt q r kf :
    KalmanFilter.__init__ dt q r = Returns kf -> estimator kf
| est_initialize x y kf :
    estimator kf -> estimator (KalmanFilter.initialize x y kf)
| est_predict kf :
    estimator kf -> estimator (snd (KalmanFilter.predict kf))
| est_update x y kf pos kf' :
    estimator kf -> KalmanFilter.update x y kf = Returns (pos, kf') -> estimator kf'.

(** A 4 x 1 array. *)
Definition col4 (m : Matrix.matrix) : Prop :=
  exists a b c d, m = [[a]; [b]; [c]; [d]].

(** The array shapes an estimator keeps. *)
Record shaped (kf : KalmanFilter.t) : Prop := {
  shaped_state : col4 (KalmanFilter.state kf);
  shaped_P : length (KalmanFilter.P kf) = 4%nat;
  shaped_F : length (KalmanFilter.F kf) = 4%nat;
  shaped_H : length (KalmanFilter.H kf) = 2%nat;
  shaped_Q : length (KalmanFilter.Q kf) = 4%nat
}.

(** The local [a] of [_haversine_distance]: the haversine of the central
    angle between the two points. *)
Definition haversine_a (lat1 lon1 lat2 lon2 : R) : R :=
  sin (radians (lat2 - lat1) / 2) ^ 2 +
  cos (radians lat1) * cos (radians lat2) * sin (radians (lon2 - lon1) / 2) ^ 2.

(** The contacts a stored track refers to are known to the engine: their
    identities are keys of the pools, and the MMSI of a track classified
    [fused] is in the matched set. *)
Definition track_refs (s : TargetFusion.t) (kv : string * FusedTarget.t) : Prop :=
  let f := snd kv in
  (forall r, FusedTarget.radar_target f = Some r ->
             RadarTarget.target_id r ∈ keys (radar_targets s)) /\
  (forall a, FusedTarget.ais_target f = Some a ->
             AISTarget.mmsi a ∈ keys (ais_targets s) /\
             (FusedTarget.source_type f = "fused"%string ->
              AISTarget.mmsi a ∈ matched_ais s)).

(** The bookkeeping of the engine: pool entries are filed under their own
    identity, matched identities are known AIS identities, and tracks
    refer to known contacts. *)
Record bookkeeping (s : TargetFusion.t) : Prop := {
  bk_radar_keys : forall k r, In (k, r) (radar_targets s) -> k = RadarTarget.target_id r;
  bk_ais_keys : forall k a, In (k, a) (ais_targets s) -> k = AISTarget.mmsi a;
  bk_matched : forall m, m ∈ matched_ais s -> m ∈ keys (ais_targets s);
  bk_tracks : Forall (track_refs s) (fused_targets s)
}.

(** A [KFTracker] and a [KalmanFilter] that hold the same arrays. *)
Record agree (tr : KFTracker.t) (kf : KalmanFilter.t) : Prop := {
  agree_F : KFTracker.F tr = KalmanFilter.F kf;
  agree_H : KFTracker.H tr = KalmanFilter.H kf;
  agree_Q : KFTracker.Q tr = KalmanFilter.Q kf;
  agree_R : KFTracker.R_ tr = KalmanFilter.R_ kf;
  agree_x : KFTracker.x tr = KalmanFilter.state kf;
  agree_P : KFTracker.P tr = KalmanFilter.P kf;
  agree_init : KFTracker.init tr = KalmanFilter.initialized kf
}.

(** The result of a step of the two estimators is the same. *)
Definition same_result (a : outcome ((R * R) * KFTracker.t))
    (b : outcome ((R * R) * KalmanFilter.t)) : Prop :=
  match a, b with
  | Returns (p, tr), Returns (p', kf) => p = p' /\ agree tr kf
  | Raises e, Raises e' => e = e'
  | _, _ => False
  end.

(** The matrices the [KalmanFilter] constructor builds from [dt]. *)
Definition transition (dt : R) : Matrix.matrix :=
  [[1; 0; dt; 0]; [0; 1; 0; dt]; [0; 0; 1; 0]; [0; 0; 0; 1]].
Definition observation : Matrix.matrix := [[1; 0; 0; 0]; [0; 1; 0; 0]].

(** The estimator and the tracker built with the default parameters, and
    the estimator after [initialize 3 4]. *)
Definition sample_filter : KalmanFilter.t :=
  KalmanFilter.mk 1 0.1 1 (Matrix.zeros 4 1) (Matrix.scale (Matrix.eye 4) 100)
    (transition 1) observation (Matrix.scale (Matrix.eye 4) 0.1)
    (Matrix.scale (Matrix.eye 2) 1) false.

Definition sample_tracker : KFTracker.t :=
  KFTracker.mk 1 (transition 1) observation (Matrix.scale (Matrix.eye 4) 0.1)
    (Matrix.scale (Matrix.eye 2) 1) (Matrix.zeros 4 1)
    (Matrix.scale (Matrix.eye 4) 100) false.

Definition sample_filter_at_3_4 : KalmanFilter.t :=
  KalmanFilter.initialize 3 4 sample_filter.

(** The calls of the registry, and a run of them that stops at the first
    call that raises. *)
Inductive registry_call : Type :=
| Add_target (target_id : string) (x y process_noise measurement_noise : R)
| Update_target (target_id : string) (x y : R)
| Predict_target (target_id : string)
| Remove_target (target_id : string).

Definition registry_step (reg : MultiTargetKalmanFilter.t) (c : registry_call)
    : outcome MultiTargetKalmanFilter.t :=
  match c with
  | Add_target id x y q r => MultiTargetKalmanFilter.add_target id x y q r reg
  | Update_target id x y =>
      do res <- MultiTargetKalmanFilter.update_target id x y reg; Returns (snd res)
  | Predict_target id =>
      do res <- MultiTargetKalmanFilter.predict_target id reg; Returns (snd res)
  | Remove_target id => MultiTargetKalmanFilter.remove_target id reg
  end.

Fixpoint registry_run (calls : list registry_call) (reg : MultiTargetKalmanFilter.t)
    : outcome MultiTargetKalmanFilter.t :=
  match calls with
  | [] => Returns reg
  | c :: rest => do reg' <- registry_step reg c; registry_run rest reg'
  end.

(** A registry in good order: unique identities, each with an initialized
    estimator. *)
Definition registry_ok (reg : MultiTargetKalmanFilter.t) : Prop :=
  wf (MultiTargetKalmanFilter.filters reg) /\
  Forall (fun kv => estimator (snd kv) /\ KalmanFilter.initialized (snd kv) = true)
         (MultiTargetKalmanFilter.filters reg).

(** What the validator looks at in a configuration. *)
Definition complete (config : ConfigFile.t) : Prop :=
  (exists r c, ConfigFile.radar config = Some r /\ ConfigFile.radar_conn r = Some c) /\
  (exists a c, ConfigFile.ais config = Some a /\ ConfigFile.ais_conn a = Some c) /\
  (exists f b, ConfigFile.fusion config = Some f /\ cfg_enabled f = Some b) /\
  (exists o h, ConfigFile.output config = Some o /\ ConfigFile.http o = Some h).

Definition radar_port_of (config : ConfigFile.t) : Z :=
  match ConfigFile.radar config with
  | Some r =>
      match ConfigFile.radar_conn r with
      | Some c => get_default (ConfigFile.port c) 0%Z
      | None => 0%Z
      end
  | None => 0%Z
  end.

Definition http_port_of (config : ConfigFile.t) : Z :=
  match ConfigFile.output config with
  | Some o =>
      match ConfigFile.http o with
      | Some h => get_default (ConfigFile.http_port h) 8081%Z
      | None => 8081%Z
      end
  | None => 8081%Z
  end.

Definition log_dir_of (config : ConfigFile.t) : string :=
  match ConfigFile.system config with
  | Some y => get_default (ConfigFile.log_dir y) "logs"
  | None => "logs"
  end.

Definition port_ok (port : Z) : Prop := port = 0%Z \/ (1 <= port <= 65535)%Z.

(** [len(self.errors) == 0] *)
Definition no_errors (s : Validator.t) : bool := (length (Validator.errors s) =? 0)%nat.

(** A required section is present with all its required fields. *)
Definition section_ok (config : ConfigFile.t) (entry : string * list string) : bool :=
  ConfigFile.has_section config (fst entry) &&
  forallb (ConfigFile.has_field config (fst entry)) (snd entry).

(** What the engine's mirror of the live set must satisfy. *)
Record mirrors (e : FusionEngine.t) : Prop := {
  mir_inv : inv (FusionEngine.fusion e);
  mir_callback : callback (FusionEngine.fusion e) = true;
  mir_radar : FusionEngine.radar_targets e = radar_targets (FusionEngine.fusion e);
  mir_ais : FusionEngine.ais_targets e = ais_targets (FusionEngine.fusion e);
  mir_live : forall k f,
      get k (fused_targets (FusionEngine.fusion e)) = Some f ->
      get k (FusionEngine.fused_targets e) = Some f
}.

(** * Properties *)

(** ** Float comparisons *)

Lemma Rltb_true x y : Rltb x y = true <-> x < y.
Proof. unfold Rltb. destruct (Rlt_dec x y); split; intros; try lra; congruence. Qed.

Lemma Rltb_false x y : Rltb x y = false <-> ~ x < y.
Proof. unfold Rltb. destruct (Rlt_dec x y); split; intros; try lra; congruence. Qed.

Lemma Reqb_true x y : Reqb x y = true <-> x = y.
Proof. unfold Reqb. destruct (Req_dec_T x y); split; intros; congruence. Qed.

(** ** Geometry *)

Lemma radians_0 : radians 0 = 0.
Proof. unfold radians. lra. Qed.

Lemma atan2_0_1 : atan2 0 1 = 0.
Proof.
  unfold atan2. destruct (Rlt_dec 0 1) as [_|n]; [|lra].
  replace (0 / 1) with 0 by lra. apply atan_0.
Qed.

(** A point is at distance zero from itself. *)
Lemma haversine_same lat lon : _haversine_distance lat lon lat lon = 0.
Proof.
  unfold _haversine_distance.
  replace (lat - lat) with 0 by lra. replace (lon - lon) with 0 by lra.
  rewrite radians_0. replace (0 / 2) with 0 by lra. rewrite sin_0.
  replace (0 ^ 2 + cos (radians lat) * cos (radians lat) * 0 ^ 2) with 0 by lra.
  rewrite sqrt_0, Rminus_0_r, sqrt_1, atan2_0_1. lra.
Qed.

(** The distance is symmetric. *)
Lemma haversine_sym lat1 lon1 lat2 lon2 :
  _haversine_distance lat1 lon1 lat2 lon2 = _haversine_distance lat2 lon2 lat1 lon1.
Proof.
  unfold _haversine_distance.
  assert (Hs : forall u v, sin (radians (u - v) / 2) ^ 2 = sin (radians (v - u) / 2) ^ 2).
  { intros u v. replace (radians (u - v) / 2) with (- (radians (v - u) / 2))
      by (unfold radians; lra).
    rewrite sin_neg. lra. }
  rewrite (Hs lat2 lat1), (Hs lon2 lon1).
  rewrite (Rmult_comm (cos (radians lat1)) (cos (radians lat2))). reflexivity.
Qed.

(** On the equator the distance is the arc of the longitude difference. *)
Lemma haversine_equator lon1 lon2 :
  0 <= lon2 - lon1 < 180 ->
  _haversine_distance 0 lon1 0 lon2 = 6371000 * radians (lon2 - lon1).
Proof.
  intros [Hlo Hhi]. unfold _haversine_distance.
  replace (0 - 0) with 0 by lra. rewrite radians_0.
  replace (0 / 2) with 0 by lra. rewrite sin_0, cos_0.
  set (x := radians (lon2 - lon1) / 2).
  assert (Hpi := PI_RGT_0).
  assert (Hx : 0 <= x < PI / 2) by (unfold x, radians; split; nra).
  assert (Hcos : 0 < cos x) by (apply cos_gt_0; lra).
  assert (Hsin : 0 <= sin x) by (apply sin_ge_0; lra).
  replace (0 ^ 2 + 1 * 1 * sin x ^ 2) with (sin x ^ 2) by lra.
  rewrite (sqrt_pow2 (sin x) Hsin).
  replace (1 - sin x ^ 2) with (cos x ^ 2)
    by (pose proof (sin2_cos2 x) as E; unfold Rsqr in E; lra).
  rewrite (sqrt_pow2 (cos x)) by lra.
  unfold atan2. destruct (Rlt_dec 0 (cos x)) as [_|n]; [|contradiction].
  change (sin x / cos x) with (tan x).
  rewrite atan_tan by lra. unfold x. lra.
Qed.

(** ** Dictionaries *)

Section DictFacts.
Context {V : Type}.
Implicit Types (d : dict V) (k : string) (v : V).

Lemma get_In k v d : get k d = Some v -> In (k, v) d.
Proof.
  induction d as [|[k' v'] d IH]; simpl; [discriminate|].
  destruct (String.eqb_spec k k'); intros E.
  - left. congruence.
  - right. auto.
Qed.

Lemma get_None_keys k d : get k d = None <-> k ∉ keys d.
Proof.
  induction d as [|[k' v'] d IH]; simpl.
  - split; [intros _; apply not_elem_of_nil | reflexivity].
  - rewrite not_elem_of_cons. destruct (String.eqb_spec k k'); split; intros E.
    + discriminate.
    + destruct E as [E _]. contradiction.
    + split; [assumption|]. apply IH, E.
    + apply IH, E.
Qed.

Lemma In_keys k v d : In (k, v) d -> k ∈ keys d.
Proof.
  intros Hin. apply list_elem_of_In. unfold keys.
  change k with (fst (k, v)). apply in_map, Hin.
Qed.

Lemma wf_get k v d : wf d -> In (k, v) d -> get k d = Some v.
Proof.
  unfold wf. induction d as [|[k' v'] d IH]; simpl; [contradiction|].
  rewrite NoDup_cons. intros [Hk Hd] [E|Hin].
  - inversion E; subst. rewrite String.eqb_refl. reflexivity.
  - destruct (String.eqb_spec k k') as [->|_]; [|auto].
    exfalso. apply Hk. eapply In_keys, Hin.
Qed.

Lemma get_setitem_eq k v d : get k (setitem k v d) = Some v.
Proof.
  induction d as [|[k' v'] d IH]; simpl.
  - rewrite String.eqb_refl. reflexivity.
  - destruct (String.eqb_spec k k') as [E|E]; simpl.
    + rewrite <- E, String.eqb_refl. reflexivity.
    + destruct (String.eqb_spec k k'); [contradiction|exact IH].
Qed.

Lemma get_setitem_ne k k' v d : k <> k' -> get k' (setitem k v d) = get k' d.
Proof.
  intros Hne. induction d as [|[k0 v0] d IH]; simpl.
  - destruct (String.eqb_spec k' k); [congruence|reflexivity].
  - destruct (String.eqb_spec k k0) as [E|E]; simpl.
    + destruct (String.eqb_spec k' k0); [congruence|reflexivity].
    + rewrite IH. reflexivity.
Qed.

Lemma keys_setitem k v d :
  keys (setitem k v d) = if contains k d then keys d else keys d ++ [k].
Proof.
  unfold contains. induction d as [|[k' v'] d IH]; simpl; [reflexivity|].
  destruct (String.eqb_spec k k'); simpl; [reflexivity|].
  rewrite IH. destruct (get k d); reflexivity.
Qed.

Lemma wf_empty : wf (@empty V).
Proof. apply NoDup_nil_2. Qed.

Lemma wf_setitem k v d : wf d -> wf (setitem k v d).
Proof.
  unfold wf. intros Hd. rewrite keys_setitem. unfold contains.
  destruct (get k d) eqn:E; [assumption|].
  apply NoDup_app. split; [assumption|]. split.
  - intros x Hx Hk. apply list_elem_of_singleton in Hk. subst x.
    apply get_None_keys in E. contradiction.
  - apply NoDup_singleton.
Qed.

Lemma keys_setitem_mono k k' v d : k' ∈ keys d -> k' ∈ keys (setitem k v d).
Proof.
  rewrite keys_setitem. destruct (contains k d); [auto|].
  intros H. apply elem_of_app. left. exact H.
Qed.

Lemma In_setitem k v k' v' d :
  In (k', v') (setitem k v d) -> (k' = k /\ v' = v) \/ In (k', v') d.
Proof.
  induction d as [|[k0 v0] d IH]; simpl.
  - intros [E|[]]. left. split; congruence.
  - destruct (String.eqb_spec k k0) as [E|E]; simpl.
    + intros [E'|Hin]; [left; split; congruence | right; right; exact Hin].
    + intros [E'|Hin]; [right; left; exact E'|].
      destruct (IH Hin) as [H|H]; [left; exact H | right; right; exact H].
Qed.

Lemma Forall_setitem (Q : string * V -> Prop) k v d :
  Forall Q d -> Q (k, v) -> Forall Q (setitem k v d).
Proof.
  intros Hd Hq. rewrite Forall_forall. intros [k' v'] Hin.
  apply list_elem_of_In in Hin.
  destruct (In_setitem _ _ _ _ _ Hin) as [[-> ->]|H]; [exact Hq|].
  rewrite Forall_forall in Hd. apply Hd, list_elem_of_In, H.
Qed.

(** Deleting a key of a well-formed dictionary removes exactly the
    entries under that key. *)
Lemma delitem_filter k d :
  wf d -> delitem k d = List.filter (fun kv => negb (String.eqb k (fst kv))) d.
Proof.
  unfold wf. induction d as [|[k' v'] d IH]; simpl; [reflexivity|].
  rewrite NoDup_cons. intros [Hk Hd].
  destruct (String.eqb_spec k k') as [->|Hne]; simpl.
  - clear IH. induction d as [|[k0 v0] d IHd]; simpl; [reflexivity|].
    simpl in Hk, Hd. rewrite not_elem_of_cons in Hk. destruct Hk as [Hne Hk].
    rewrite NoDup_cons in Hd. destruct Hd as [_ Hd].
    destruct (String.eqb_spec k' k0); [congruence|]. simpl.
    f_equal. apply IHd; assumption.
  - f_equal. apply IH, Hd.
Qed.

Lemma wf_filter (p : string * V -> bool) d : wf d -> wf (List.filter p d).
Proof.
  unfold wf. induction d as [|[k v] d IH]; simpl; [auto|].
  rewrite NoDup_cons. intros [Hk Hd]. destruct (p (k, v)); simpl; [|auto].
  apply NoDup_cons. split; [|auto].
  intros Hin. apply Hk. apply list_elem_of_In in Hin.
  apply list_elem_of_In. unfold keys in *.
  apply in_map_iff in Hin as [kv [E Hin]].
  apply in_map_iff. exists kv. split; [exact E|].
  apply filter_In in Hin. tauto.
Qed.

Lemma filter_filter (p q : string * V -> bool) d :
  List.filter p (List.filter q d) = List.filter (fun kv => q kv && p kv) d.
Proof.
  induction d as [|kv d IH]; simpl; [reflexivity|].
  destruct (q kv); simpl; [destruct (p kv)|]; rewrite IH; reflexivity.
Qed.

(** Deleting a list of keys one by one. *)
Lemma fold_delitem (ks : list string) d :
  wf d ->
  fold_left (fun d fid => delitem fid d) ks d =
  List.filter (fun kv => negb (existsb (fun k => String.eqb k (fst kv)) ks)) d.
Proof.
  revert d. induction ks as [|k ks IH]; intros d Hd; simpl.
  - symmetry. apply forallb_filter_id. apply forallb_forall. reflexivity.
  - rewrite delitem_filter by assumption.
    rewrite IH by (apply wf_filter; assumption).
    rewrite filter_filter. apply filter_ext. intros kv.
    rewrite negb_orb. reflexivity.
Qed.

(** The two loops of [get_fused_targets] keep the entries that fail the
    test, in order. *)
Lemma delete_selected (p : string * V -> bool) d :
  wf d ->
  fold_left (fun d fid => delitem fid d) (map fst (List.filter p d)) d =
  List.filter (fun kv => negb (p kv)) d.
Proof.
  intros Hd. rewrite fold_delitem by assumption.
  apply filter_ext_in. intros [k v] Hin. f_equal.
  destruct (p (k, v)) eqn:Hp.
  - apply existsb_exists. exists k. split; [|apply String.eqb_refl].
    change k with (fst (k, v)). apply in_map, filter_In. auto.
  - apply not_true_is_false. intros Hex.
    apply existsb_exists in Hex as [k' [Hk' E]].
    apply String.eqb_eq in E. simpl in E. subst k'.
    apply in_map_iff in Hk' as [[k0 v0] [E Hin0]]. simpl in E. subst k0.
    apply filter_In in Hin0 as [Hin0 Hp0].
    assert (v0 = v).
    { pose proof (wf_get _ _ _ Hd Hin) as E1.
      pose proof (wf_get _ _ _ Hd Hin0) as E2. congruence. }
    subst v0. congruence.
Qed.

End DictFacts.

(** ** The association search *)

Lemma scan_ais_cons matched gate lat lon a pool :
  scan_ais matched gate lat lon (a :: pool) =
  if bool_decide (AISTarget.mmsi a ∈ matched) then scan_ais matched gate lat lon pool
  else if Rltb (ais_distance lat lon a) gate then Some a
  else scan_ais matched gate lat lon pool.
Proof. reflexivity. Qed.

Lemma scan_ais_unmatched matched gate lat lon pool :
  scan_ais matched gate lat lon pool =
  scan_ais matched gate lat lon
    (List.filter (fun a => negb (bool_decide (AISTarget.mmsi a ∈ matched))) pool).
Proof.
  induction pool as [|a pool IH]; simpl; [reflexivity|].
  destruct (bool_decide (AISTarget.mmsi a ∈ matched)) eqn:E; simpl.
  - exact IH.
  - rewrite E. destruct (Rltb _ gate); [reflexivity|exact IH].
Qed.

Lemma scan_ais_first matched gate lat lon pool a :
  Forall (fun b => AISTarget.mmsi b ∉ matched) pool ->
  (scan_ais matched gate lat lon pool = Some a <->
   first_such (fun b => ais_distance lat lon b < gate) pool a).
Proof.
  unfold first_such, ais_distance.
  induction pool as [|b pool IH]; intros Hall; simpl.
  - split; [discriminate|]. intros (l1 & l2 & E & _). destruct l1; discriminate.
  - inversion Hall as [|? ? Hb Hrest]; subst.
    rewrite bool_decide_eq_false_2 by assumption.
    destruct (Rltb _ gate) eqn:Hd.
    + apply Rltb_true in Hd. split.
      * intros E. inversion E; subst. exists [], pool. auto.
      * intros (l1 & l2 & E & Ha & Hl1). destruct l1 as [|c l1]; simpl in E.
        -- congruence.
        -- inversion E; subst. inversion Hl1; subst. contradiction.
    + apply Rltb_false in Hd. rewrite (IH Hrest). split.
      * intros (l1 & l2 & E & Ha & Hl1). exists (b :: l1), l2. subst pool. auto.
      * intros (l1 & l2 & E & Ha & Hl1). destruct l1 as [|c l1]; simpl in E.
        -- inversion E; subst. contradiction.
        -- inversion E; subst. inversion Hl1; subst. exists l1, l2. auto.
Qed.

Lemma scan_ais_none matched gate lat lon pool :
  scan_ais matched gate lat lon pool = None <->
  Forall (fun b => AISTarget.mmsi b ∈ matched \/ ~ ais_distance lat lon b < gate) pool.
Proof.
  unfold ais_distance. induction pool as [|b pool IH]; simpl.
  - split; auto.
  - destruct (bool_decide (AISTarget.mmsi b ∈ matched)) eqn:Em.
    + apply bool_decide_eq_true in Em. rewrite IH. split.
      * intros H. constructor; auto.
      * intros H. inversion H; auto.
    + apply bool_decide_eq_false in Em. destruct (Rltb _ gate) eqn:Hd.
      * apply Rltb_true in Hd. split; [discriminate|].
        intros H. inversion H as [|? ? [Hb|Hb] _]; subst; contradiction.
      * apply Rltb_false in Hd. rewrite IH. split.
        -- intros H. constructor; auto.
        -- intros H. inversion H; auto.
Qed.

Lemma scan_ais_sound matched gate lat lon pool a :
  scan_ais matched gate lat lon pool = Some a ->
  In a pool /\ (AISTarget.mmsi a ∉ matched) /\ ais_distance lat lon a < gate.
Proof.
  unfold ais_distance. induction pool as [|b pool IH]; simpl; [discriminate|].
  destruct (bool_decide (AISTarget.mmsi b ∈ matched)) eqn:Em.
  - intros E. destruct (IH E) as (? & ? & ?). auto.
  - apply bool_decide_eq_false in Em. destruct (Rltb _ gate) eqn:Hd.
    + apply Rltb_true in Hd. intros E. inversion E; subst. auto.
    + intros E. destruct (IH E) as (? & ? & ?). auto.
Qed.

Lemma scan_radar_cons s lat lon q pool :
  scan_radar s lat lon (q :: pool) =
  if Rltb (radar_distance s lat lon q) (association_distance s) then Some q
  else scan_radar s lat lon pool.
Proof. unfold radar_distance. simpl. destruct (radar_geo s q). reflexivity. Qed.

Lemma scan_radar_first s lat lon pool r :
  scan_radar s lat lon pool = Some r <->
  first_such (fun q => radar_distance s lat lon q < association_distance s) pool r.
Proof.
  unfold first_such.
  induction pool as [|q pool IH].
  - simpl. split; [discriminate|]. intros (l1 & l2 & E & _). destruct l1; discriminate.
  - rewrite scan_radar_cons.
    destruct (Rltb _ (association_distance s)) eqn:Hd.
    + apply Rltb_true in Hd. split.
      * intros E. inversion E; subst. exists [], pool. auto.
      * intros (l1 & l2 & E & Ha & Hl1). destruct l1 as [|c l1]; simpl in E.
        -- congruence.
        -- inversion E; subst. inversion Hl1; subst. contradiction.
    + apply Rltb_false in Hd. rewrite IH. split.
      * intros (l1 & l2 & E & Ha & Hl1). exists (q :: l1), l2. subst pool. auto.
      * intros (l1 & l2 & E & Ha & Hl1). destruct l1 as [|c l1]; simpl in E.
        -- inversion E; subst. contradiction.
        -- inversion E; subst. inversion Hl1; subst. exists l1, l2. auto.
Qed.

Lemma scan_radar_none s lat lon pool :
  scan_radar s lat lon pool = None <->
  Forall (fun q => ~ radar_distance s lat lon q < association_distance s) pool.
Proof.
  induction pool as [|q pool IH].
  - simpl. split; auto.
  - rewrite scan_radar_cons.
    destruct (Rltb _ (association_distance s)) eqn:Hd.
    + apply Rltb_true in Hd. split; [discriminate|].
      intros H. inversion H; subst. contradiction.
    + apply Rltb_false in Hd. rewrite IH. split.
      * intros H. constructor; auto.
      * intros H. inversion H; auto.
Qed.

Lemma scan_radar_sound s lat lon pool r :
  scan_radar s lat lon pool = Some r ->
  In r pool /\ radar_distance s lat lon r < association_distance s.
Proof.
  intros H. apply scan_radar_first in H as (l1 & l2 & E & Hr & _).
  split; [|exact Hr]. subst pool. apply in_or_app. right. left. reflexivity.
Qed.

Lemma unmatched_ais_spec s :
  Forall (fun b => AISTarget.mmsi b ∉ matched_ais s) (unmatched_ais s).
Proof.
  unfold unmatched_ais. apply Forall_forall. intros b Hb.
  apply list_elem_of_In, filter_In in Hb as [_ Hb].
  apply negb_true_iff, bool_decide_eq_false in Hb. exact Hb.
Qed.

(** ** The engine's invariant *)

Lemma notify_radar_targets f s : radar_targets (notify f s) = radar_targets s.
Proof. unfold notify. destruct (callback s); reflexivity. Qed.

Lemma notify_ais_targets f s : ais_targets (notify f s) = ais_targets s.
Proof. unfold notify. destruct (callback s); reflexivity. Qed.

Lemma notify_fused_targets f s : fused_targets (notify f s) = fused_targets s.
Proof. unfold notify. destruct (callback s); reflexivity. Qed.

Lemma notify_matched_ais f s : matched_ais (notify f s) = matched_ais s.
Proof. unfold notify. destruct (callback s); reflexivity. Qed.

Lemma notify_association_distance f s :
  association_distance (notify f s) = association_distance s.
Proof. unfold notify. destruct (callback s); reflexivity. Qed.

Lemma notify_max_age f s : max_age (notify f s) = max_age s.
Proof. unfold notify. destruct (callback s); reflexivity. Qed.

Lemma notify_radar_origin f s : radar_origin (notify f s) = radar_origin s.
Proof. unfold notify. destruct (callback s); reflexivity. Qed.

Create Rewrite HintDb fusion.
#[local] Hint Rewrite notify_radar_targets notify_ais_targets notify_fused_targets
  notify_matched_ais notify_association_distance notify_max_age
  notify_radar_origin : fusion.

Lemma inv_fresh config cb : inv (fresh config cb).
Proof. split; simpl; try apply NoDup_nil_2. constructor. Qed.

(** Storing a fresh track under its own identity keeps the invariant. *)
Lemma inv_store s f :
  inv s -> track_ok (FusedTarget.fused_id f, f) ->
  inv (notify f (with_fused_targets
                   (setitem (FusedTarget.fused_id f) f (fused_targets s)) s)).
Proof.
  intros [Hr Ha Hf Ht] Hok. split; autorewrite with fusion; simpl; auto.
  - apply wf_setitem, Hf.
  - apply Forall_setitem; assumption.
Qed.

Lemma inv_with_matched_ais m s : inv s -> inv (with_matched_ais m s).
Proof. intros [Hr Ha Hf Ht]. split; assumption. Qed.

Lemma inv_fuse_ais_only now a s : inv s -> inv (_fuse_ais_only now a s).
Proof.
  intros Hs. unfold _fuse_ais_only.
  destruct (_find_matching_radar s _ _); [exact Hs|].
  apply (inv_store s (FusedTarget.new now _ _ _ _ _ _ _ _ _ _) Hs).
  split; [reflexivity|]. right. right. exists a. simpl. auto.
Qed.

Lemma inv_fuse_radar_target now r s : inv s -> inv (_fuse_radar_target now r s).
Proof.
  intros Hs. unfold _fuse_radar_target. destruct (radar_geo s r) as [lat lon].
  destruct (_find_matching_ais s lat lon) as [a|].
  - apply (inv_store _ (FusedTarget.new now _ _ _ _ _ _ _ _ _ _)).
    + apply inv_with_matched_ais, Hs.
    + split; [reflexivity|]. left. exists r, a. simpl. auto.
  - apply (inv_store s (FusedTarget.new now _ _ _ _ _ _ _ _ _ _) Hs).
    split; [reflexivity|]. right. left. exists r. simpl. auto.
Qed.

Lemma inv_add_radar_target now r s : inv s -> inv (add_radar_target now r s).
Proof.
  intros [Hr Ha Hf Ht]. apply inv_fuse_radar_target.
  split; simpl; auto. apply wf_setitem, Hr.
Qed.

Lemma inv_add_ais_target now a s : inv s -> inv (add_ais_target now a s).
Proof.
  intros [Hr Ha Hf Ht]. unfold add_ais_target.
  set (s1 := with_ais_targets _ s).
  assert (Hs1 : inv s1) by (split; simpl; auto; apply wf_setitem, Ha).
  destruct (_find_matching_radar s1 _ _) as [r|].
  - destruct (radar_geo _ r) as [lat lon].
    apply (inv_store _ (FusedTarget.new now _ _ _ _ _ _ _ _ _ _)).
    + apply inv_with_matched_ais, Hs1.
    + split; [reflexivity|]. left. exists r, a. simpl. auto.
  - apply inv_fuse_ais_only, Hs1.
Qed.

(** What [get_fused_targets] leaves and returns. *)
Lemma get_fused_targets_spec now s :
  wf (fused_targets s) ->
  get_fused_targets now s =
  (with_fused_targets
     (List.filter (fun kv => negb (is_expired now (max_age s) (snd kv)))
                  (fused_targets s)) s,
   values (List.filter (fun kv => negb (is_expired now (max_age s) (snd kv)))
                       (fused_targets s))).
Proof.
  intros Hwf. unfold get_fused_targets, items.
  rewrite (delete_selected (fun kv => is_expired now (max_age s) (snd kv))) by exact Hwf.
  reflexivity.
Qed.

Lemma inv_get_fused_targets now s : inv s -> inv (fst (get_fused_targets now s)).
Proof.
  intros [Hr Ha Hf Ht]. rewrite get_fused_targets_spec by exact Hf.
  split; simpl; auto.
  - apply wf_filter, Hf.
  - apply Forall_forall. intros kv Hin. rewrite Forall_forall in Ht. apply Ht.
    apply list_elem_of_In. apply list_elem_of_In, filter_In in Hin. tauto.
Qed.

Lemma get_stats_state now s : fst (get_stats now s) = fst (get_fused_targets now s).
Proof. unfold get_stats. destruct (get_fused_targets now s). reflexivity. Qed.

Lemma inv_step s c : inv s -> inv (step s c).
Proof.
  intros Hs. destruct c; cbn [step].
  - destruct Hs. split; assumption.
  - apply inv_add_radar_target, Hs.
  - apply inv_add_ais_target, Hs.
  - apply inv_get_fused_targets, Hs.
  - rewrite get_stats_state. apply inv_get_fused_targets, Hs.
Qed.

Lemma inv_run calls s : inv s -> inv (run calls s).
Proof.
  revert s. induction calls as [|c calls IH]; intros s Hs; simpl; [exact Hs|].
  apply IH, inv_step, Hs.
Qed.

(** ** Claims about the association search *)

Lemma find_matching_ais_first s lat lon a :
  _find_matching_ais s lat lon = Some a <->
  first_such (fun b => ais_distance lat lon b < association_distance s)
             (unmatched_ais s) a.
Proof.
  unfold _find_matching_ais. rewrite scan_ais_unmatched.
  apply scan_ais_first, unmatched_ais_spec.
Qed.

Lemma find_matching_ais_none s lat lon :
  _find_matching_ais s lat lon = None <->
  Forall (fun b => ~ ais_distance lat lon b < association_distance s)
         (unmatched_ais s).
Proof.
  unfold _find_matching_ais. rewrite scan_ais_unmatched, scan_ais_none.
  fold (unmatched_ais s). pose proof (unmatched_ais_spec s) as Hu.
  rewrite !Forall_forall in *. split; intros H b Hb.
  - destruct (H b Hb) as [Hm|Hd]; [|exact Hd]. exfalso. exact (Hu b Hb Hm).
  - right. exact (H b Hb).
Qed.

(** *** The search with the domain error of [math.sqrt] *)

Section DomainError.

Variable sqrt_raises : R -> R -> R -> R -> bool.

Lemma checked_scan_ais_cons matched gate lat lon a pool :
  Checked.scan_ais sqrt_raises matched gate lat lon (a :: pool) =
  if bool_decide (AISTarget.mmsi a ∈ matched) then
    Checked.scan_ais sqrt_raises matched gate lat lon pool
  else if sqrt_raises lat lon (AISTarget.lat a) (AISTarget.lon a) then Checked.ValueError
  else if Rltb (ais_distance lat lon a) gate then Checked.Computed (Some a)
  else Checked.scan_ais sqrt_raises matched gate lat lon pool.
Proof.
  cbn [Checked.scan_ais]. unfold Checked._haversine_distance.
  destruct (bool_decide _); [reflexivity|].
  destruct (sqrt_raises _ _ _ _); reflexivity.
Qed.

(** A search that returns gives what the search over the reals gives. *)
Lemma checked_scan_ais_returns matched gate lat lon pool o :
  Checked.scan_ais sqrt_raises matched gate lat lon pool = Checked.Computed o ->
  scan_ais matched gate lat lon pool = o.
Proof.
  induction pool as [|a pool IH]; [cbn; congruence|].
  rewrite checked_scan_ais_cons, scan_ais_cons.
  destruct (bool_decide _); [exact IH|].
  destruct (sqrt_raises _ _ _ _); [discriminate|].
  destruct (Rltb _ gate); [congruence|exact IH].
Qed.

(** The search returns when the distance to every unmatched candidate
    can be computed. *)
Lemma checked_scan_ais_computable matched gate lat lon pool :
  Forall (ais_computable sqrt_raises lat lon)
         (List.filter (fun a => negb (bool_decide (AISTarget.mmsi a ∈ matched))) pool) ->
  Checked.scan_ais sqrt_raises matched gate lat lon pool
  = Checked.Computed (scan_ais matched gate lat lon pool).
Proof.
  induction pool as [|a pool IH]; intros Hall; [reflexivity|].
  rewrite checked_scan_ais_cons, scan_ais_cons. cbn [List.filter] in Hall.
  destruct (bool_decide _); cbn [negb] in Hall; [exact (IH Hall)|].
  inversion Hall as [|? ? Ha Hrest]; subst. unfold ais_computable in Ha. rewrite Ha.
  destruct (Rltb _ gate); [reflexivity|exact (IH Hrest)].
Qed.

(** A search that raises met a candidate whose distance cannot be computed. *)
Lemma checked_scan_ais_raises matched gate lat lon pool :
  Checked.scan_ais sqrt_raises matched gate lat lon pool = Checked.ValueError ->
  exists a, In a pool /\ (AISTarget.mmsi a ∉ matched) /\
            sqrt_raises lat lon (AISTarget.lat a) (AISTarget.lon a) = true.
Proof.
  induction pool as [|a pool IH]; [discriminate|].
  rewrite checked_scan_ais_cons.
  destruct (bool_decide _) eqn:Em.
  - intros H. destruct (IH H) as (b & Hb & Hrest). exists b. split; [right; exact Hb|exact Hrest].
  - apply bool_decide_eq_false in Em.
    destruct (sqrt_raises _ _ _ _) eqn:Er.
    + intros _. exists a. split; [left; reflexivity|]. split; assumption.
    + destruct (Rltb _ gate); [discriminate|].
      intros H. destruct (IH H) as (b & Hb & Hrest). exists b.
      split; [right; exact Hb|exact Hrest].
Qed.

Lemma checked_scan_radar_cons s lat lon q pool :
  Checked.scan_radar sqrt_raises s lat lon (q :: pool) =
  if sqrt_raises lat lon (fst (radar_geo s q)) (snd (radar_geo s q)) then Checked.ValueError
  else if Rltb (radar_distance s lat lon q) (association_distance s) then
    Checked.Computed (Some q)
  else Checked.scan_radar sqrt_raises s lat lon pool.
Proof.
  unfold radar_distance. cbn [Checked.scan_radar]. unfold Checked._haversine_distance.
  destruct (radar_geo s q) as [r_lat r_lon]. cbn [fst snd].
  destruct (sqrt_raises _ _ _ _); reflexivity.
Qed.

Lemma checked_scan_radar_returns s lat lon pool o :
  Checked.scan_radar sqrt_raises s lat lon pool = Checked.Computed o ->
  scan_radar s lat lon pool = o.
Proof.
  induction pool as [|q pool IH]; [cbn; congruence|].
  rewrite checked_scan_radar_cons, scan_radar_cons.
  destruct (sqrt_raises _ _ _ _); [discriminate|].
  destruct (Rltb _ _); [congruence|exact IH].
Qed.

Lemma checked_scan_radar_computable s lat lon pool :
  Forall (radar_computable sqrt_raises s lat lon) pool ->
  Checked.scan_radar sqrt_raises s lat lon pool
  = Checked.Computed (scan_radar s lat lon pool).
Proof.
  induction pool as [|q pool IH]; intros Hall; [reflexivity|].
  rewrite checked_scan_radar_cons, scan_radar_cons.
  inversion Hall as [|? ? Hq Hrest]; subst. unfold radar_computable in Hq. rewrite Hq.
  destruct (Rltb _ _); [reflexivity|exact (IH Hrest)].
Qed.

Lemma checked_scan_radar_raises s lat lon pool :
  Checked.scan_radar sqrt_raises s lat lon pool = Checked.ValueError ->
  exists q, In q pool /\
            sqrt_raises lat lon (fst (radar_geo s q)) (snd (radar_geo s q)) = true.
Proof.
  induction pool as [|q pool IH]; [discriminate|].
  rewrite checked_scan_radar_cons.
  destruct (sqrt_raises _ _ _ _) eqn:Er.
  - intros _. exists q. split; [left; reflexivity|exact Er].
  - destruct (Rltb _ _); [discriminate|].
    intros H. destruct (IH H) as (b & Hb & Hrest). exists b.
    split; [right; exact Hb|exact Hrest].
Qed.

Lemma checked_scan_radar_ext s s' lat lon pool :
  radar_origin s' = radar_origin s ->
  association_distance s' = association_distance s ->
  Checked.scan_radar sqrt_raises s' lat lon pool
  = Checked.scan_radar sqrt_raises s lat lon pool.
Proof.
  intros Ho Hg. induction pool as [|q pool IH]; [reflexivity|].
  rewrite !checked_scan_radar_cons, IH, Hg. unfold radar_distance, radar_geo.
  rewrite Ho. reflexivity.
Qed.

Lemma checked_find_matching_ais_returns s lat lon o :
  Checked._find_matching_ais sqrt_raises s lat lon = Checked.Computed o ->
  _find_matching_ais s lat lon = o.
Proof. apply checked_scan_ais_returns. Qed.

Lemma checked_find_matching_ais_computable s lat lon :
  Forall (ais_computable sqrt_raises lat lon) (unmatched_ais s) ->
  Checked._find_matching_ais sqrt_raises s lat lon
  = Checked.Computed (_find_matching_ais s lat lon).
Proof. apply checked_scan_ais_computable. Qed.

Lemma checked_find_matching_radar_returns s lat lon o :
  Checked._find_matching_radar sqrt_raises s lat lon = Checked.Computed o ->
  _find_matching_radar s lat lon = o.
Proof. apply checked_scan_radar_returns. Qed.

Lemma checked_find_matching_radar_computable s lat lon :
  Forall (radar_computable sqrt_raises s lat lon) (values (radar_targets s)) ->
  Checked._find_matching_radar sqrt_raises s lat lon
  = Checked.Computed (_find_matching_radar s lat lon).
Proof. apply checked_scan_radar_computable. Qed.

End DomainError.


(** The distances of the sample oracle that can be computed. *)
Lemma sample_rounding_false lat1 lon1 lat2 lon2 :
  lat1 <> 8 -> lat1 <> -8 -> sample_rounding lat1 lon1 lat2 lon2 = false.
Proof.
  intros H8 Hm8. unfold sample_rounding, Reqb.
  destruct (Req_dec_T lat1 8); [contradiction|].
  destruct (Req_dec_T lat1 (-8)); [contradiction|]. reflexivity.
Qed.




Lemma ais_on_gate_distance : ais_distance 0 0 ais_on_gate = 100.
Proof.
  assert (Hpi := PI_RGT_0). assert (Hpi3 : 3 < PI).
  { pose proof PI2_3_2 as H. unfold PI2 in H. lra. }
  assert (Hpos : 0 < 18000 / (6371000 * PI)).
  { apply Rdiv_lt_0_compat; lra. }
  assert (Hlt : 18000 / (6371000 * PI) < 180).
  { apply (Rmult_lt_reg_r (6371000 * PI)); [lra|].
    unfold Rdiv. rewrite Rmult_assoc, Rinv_l by lra. nra. }
  unfold ais_distance, ais_on_gate. cbn [AISTarget.lat AISTarget.lon].
  rewrite haversine_equator by lra. unfold radians. field. lra.
Qed.

(** C6: a candidate whose distance to the query position equals the gate
    is never the result of the search; acceptance is by strict [<]. *)
Theorem gate_boundary_is_rejected (s : TargetFusion.t) (lat lon : R) :
  (forall a, In a (values (ais_targets s)) ->
             ais_distance lat lon a = association_distance s ->
             _find_matching_ais s lat lon <> Some a) /\
  (forall r, In r (values (radar_targets s)) ->
             radar_distance s lat lon r = association_distance s ->
             _find_matching_radar s lat lon <> Some r).
Proof.
  split.
  - intros a _ Heq Hfind. apply scan_ais_sound in Hfind as (_ & _ & Hlt). lra.
  - intros r _ Heq Hfind. apply scan_radar_sound in Hfind as (_ & Hlt). lra.
Qed.

(** C6 at a contact placed exactly 100 m from the query, with the default gate of 100 m. *)
Lemma gate_boundary_witness :
  let s := run [Add_ais_target 0%Z ais_on_gate] engine0 in
  In ais_on_gate (values (ais_targets s)) /\
  ais_distance 0 0 ais_on_gate = association_distance s /\
  _find_matching_ais s 0 0 <> Some ais_on_gate.
Proof.
  cbn zeta.
  assert (Hin : In ais_on_gate
                  (values (ais_targets (run [Add_ais_target 0%Z ais_on_gate] engine0))))
    by (left; reflexivity).
  assert (Hd : ais_distance 0 0 ais_on_gate =
               association_distance (run [Add_ais_target 0%Z ais_on_gate] engine0))
    by exact ais_on_gate_distance.
  split; [exact Hin|]. split; [exact Hd|].
  exact (proj1 (gate_boundary_is_rejected _ 0 0) ais_on_gate Hin Hd).
Defined.

(** ** The matched set *)

Lemma matched_fuse_ais_only now a s :
  matched_ais (_fuse_ais_only now a s) = matched_ais s.
Proof.
  unfold _fuse_ais_only. destruct (_find_matching_radar s _ _); [reflexivity|].
  autorewrite with fusion. reflexivity.
Qed.

Lemma matched_step s c : matched_ais s ⊆ matched_ais (step s c).
Proof.
  destruct c; cbn [step].
  - reflexivity.
  - unfold add_radar_target, _fuse_radar_target.
    destruct (radar_geo _ target) as [lat lon].
    destruct (_find_matching_ais _ lat lon); autorewrite with fusion; simpl;
      set_solver.
  - unfold add_ais_target.
    destruct (_find_matching_radar _ _ _) as [r|].
    + destruct (radar_geo _ r) as [lat lon]. autorewrite with fusion. simpl.
      set_solver.
    + rewrite matched_fuse_ais_only. reflexivity.
  - reflexivity.
  - rewrite get_stats_state. reflexivity.
Qed.

Lemma matched_run calls s : matched_ais s ⊆ matched_ais (run calls s).
Proof.
  revert s. induction calls as [|c calls IH]; intros s; simpl; [reflexivity|].
  etransitivity; [apply matched_step|apply IH].
Qed.

(** ** A radar contact and an AIS contact inside the gate, in both orders *)

Section TwoOrders.
Variables (config : fusion_config) (cb : bool) (lon lat : R).
Variables (t1 t2 : datetime) (r : RadarTarget.t) (a : AISTarget.t).

Let s0 := blank config cb lon lat.

Hypothesis within_gate :
  radar_distance s0 (AISTarget.lat a) (AISTarget.lon a) r < association_distance s0.

(** Radar first: the radar-only track is stored, then the fused one is
    added after it. *)
Lemma radar_then_ais :
  let s := run [Add_radar_target t1 r; Add_ais_target t2 a] s0 in
  fused_targets s =
    [(String.append "R" (RadarTarget.target_id r), radar_track s0 t1 r);
     (String.append "F" (AISTarget.mmsi a), fused_track s0 t2 r a)] /\
  matched_ais s = {[ AISTarget.mmsi a ]} ∪ ∅.
Proof.
  intros s. subst s. unfold run. cbn [fold_left step].
  pose proof within_gate as Hd. apply Rltb_true in Hd.
  unfold add_ais_target.
  set (s1 := with_ais_targets _ _).
  assert (Hfind : _find_matching_radar s1 (AISTarget.lat a) (AISTarget.lon a) = Some r).
  { unfold _find_matching_radar.
    replace (values (radar_targets s1)) with [r]
      by (subst s1 s0; destruct cb; reflexivity).
    rewrite scan_radar_cons.
    replace (radar_distance s1 (AISTarget.lat a) (AISTarget.lon a) r)
      with (radar_distance s0 (AISTarget.lat a) (AISTarget.lon a) r)
      by (subst s1 s0; destruct cb; reflexivity).
    replace (association_distance s1) with (association_distance s0)
      by (subst s1 s0; destruct cb; reflexivity).
    rewrite Hd. reflexivity. }
  rewrite Hfind. subst s1 s0. destruct cb; split; reflexivity.
Qed.

(** AIS first: the AIS-only track is stored, then the fused one is added
    after it. *)
Lemma ais_then_radar :
  let s := run [Add_ais_target t1 a; Add_radar_target t2 r] s0 in
  fused_targets s =
    [(String.append "A" (AISTarget.mmsi a), ais_track t1 a);
     (String.append "F" (AISTarget.mmsi a), fused_track s0 t2 r a)] /\
  matched_ais s = {[ AISTarget.mmsi a ]} ∪ ∅.
Proof.
  intros s. subst s. unfold run. cbn [fold_left step].
  pose proof within_gate as Hd. unfold radar_distance in Hd.
  rewrite haversine_sym in Hd. apply Rltb_true in Hd.
  unfold add_radar_target, _fuse_radar_target.
  set (s1 := with_radar_targets _ _).
  assert (Hgeo : radar_geo s1 r = radar_geo s0 r)
    by (subst s1 s0; destruct cb; reflexivity).
  rewrite Hgeo. destruct (radar_geo s0 r) as [rlat rlon] eqn:Eg.
  assert (Hfind : _find_matching_ais s1 rlat rlon = Some a).
  { unfold _find_matching_ais.
    replace (values (ais_targets s1)) with [a]
      by (subst s1 s0; destruct cb; reflexivity).
    replace (matched_ais s1) with (∅ : gset string)
      by (subst s1 s0; destruct cb; reflexivity).
    replace (association_distance s1) with (association_distance s0)
      by (subst s1 s0; destruct cb; reflexivity).
    rewrite scan_ais_cons, bool_decide_eq_false_2 by set_solver.
    unfold ais_distance. cbn [fst snd] in Hd. rewrite Hd. reflexivity. }
  rewrite Hfind. unfold fused_track. rewrite Eg.
  subst s1 s0. destruct cb; split; reflexivity.
Qed.

End TwoOrders.

Lemma radar1_seen : radar_geo engine0 radar1 = (0, 1852 / 111000).
Proof.
  unfold radar_geo, _radar_to_geo, radians, engine0, radar1.
  cbn [RadarTarget.distance_nm RadarTarget.bearing_deg radar_origin fresh fst snd].
  replace (90 * (PI / 180)) with (PI / 2) by lra.
  replace (0 * (PI / 180)) with 0 by lra.
  rewrite cos_PI2, sin_PI2, cos_0. f_equal; lra.
Qed.

Lemma radar1_ais1_within_gate :
  radar_distance engine0 (AISTarget.lat ais1) (AISTarget.lon ais1) radar1
  < association_distance engine0.
Proof.
  unfold radar_distance. rewrite radar1_seen. cbn [fst snd].
  change (association_distance engine0) with 100.
  change (AISTarget.lat ais1) with 0. change (AISTarget.lon ais1) with 0.0167.
  rewrite haversine_sym, haversine_equator by lra.
  assert (Hpi := PI_RGT_0). assert (Hpi4 := PI_4). unfold radians. lra.
Qed.

(** C2 (as amended): from a newly constructed engine, a radar contact and
    an AIS contact inside the gate of each other yield, in either order,
    a live track set that contains the fused track [F<mmsi>] holding both
    contacts.  The single-source track made for the first contact is not
    removed: [R<radar_id>] stays after radar-then-AIS, [A<mmsi>] stays
    after AIS-then-radar, where no [R<radar_id>] track exists. *)
Theorem fused_identity_in_either_order
    (config : fusion_config) (cb : bool) (lon lat : R) (t1 t2 : datetime)
    (r : RadarTarget.t) (a : AISTarget.t) :
  let s0 := blank config cb lon lat in
  radar_distance s0 (AISTarget.lat a) (AISTarget.lon a) r < association_distance s0 ->
  let s_ra := run [Add_radar_target t1 r; Add_ais_target t2 a] s0 in
  let s_ar := run [Add_ais_target t1 a; Add_radar_target t2 r] s0 in
  let F_id := String.append "F" (AISTarget.mmsi a) in
  let R_id := String.append "R" (RadarTarget.target_id r) in
  let A_id := String.append "A" (AISTarget.mmsi a) in
  get F_id (fused_targets s_ra) = Some (fused_track s0 t2 r a) /\
  get F_id (fused_targets s_ar) = Some (fused_track s0 t2 r a) /\
  get R_id (fused_targets s_ra) = Some (radar_track s0 t1 r) /\
  get A_id (fused_targets s_ar) = Some (ais_track t1 a) /\
  get R_id (fused_targets s_ar) = None.
Proof.
  intros s0 Hd s_ra s_ar F_id R_id A_id.
  destruct (radar_then_ais config cb lon lat t1 t2 r a Hd) as [Era _].
  destruct (ais_then_radar config cb lon lat t1 t2 r a Hd) as [Ear _].
  cbn zeta in Era, Ear. subst s_ra s_ar s0. rewrite Era, Ear.
  subst F_id R_id A_id. simpl. rewrite !String.eqb_refl. auto.
Qed.

(** C2 at radar contact "1" and AIS contact 200100001, less than two metres apart. *)
Lemma fused_identity_in_either_order_witness :
  let s_ra := run [Add_radar_target 0%Z radar1; Add_ais_target 1%Z ais1] engine0 in
  let s_ar := run [Add_ais_target 0%Z ais1; Add_radar_target 1%Z radar1] engine0 in
  radar_distance engine0 (AISTarget.lat ais1) (AISTarget.lon ais1) radar1
    < association_distance engine0 /\
  get "F200100001" (fused_targets s_ra) = Some (fused_track engine0 1%Z radar1 ais1) /\
  get "F200100001" (fused_targets s_ar) = Some (fused_track engine0 1%Z radar1 ais1).
Proof.
  cbn zeta. split; [exact radar1_ais1_within_gate|].
  pose proof (fused_identity_in_either_order default_config false 0 0 0%Z 1%Z
                radar1 ais1 radar1_ais1_within_gate) as H.
  cbn zeta in H. destruct H as (H1 & H2 & _). split; [exact H1|exact H2].
Defined.

(** C2, counterexample: after radar-then-AIS the track [R1] is still in
    the live set, and the two orders end in different live sets. *)
Lemma order_invariance_counterexample :
  let s_ra := run [Add_radar_target 0%Z radar1; Add_ais_target 1%Z ais1] engine0 in
  let s_ar := run [Add_ais_target 0%Z ais1; Add_radar_target 1%Z radar1] engine0 in
  radar_distance engine0 (AISTarget.lat ais1) (AISTarget.lon ais1) radar1
    < association_distance engine0 /\
  keys (fused_targets s_ra) = ["R1"; "F200100001"]%string /\
  keys (fused_targets s_ar) = ["A200100001"; "F200100001"]%string /\
  contains "R1" (fused_targets s_ra) = true.
Proof.
  cbn zeta. split; [exact radar1_ais1_within_gate|].
  destruct (radar_then_ais default_config false 0 0 0%Z 1%Z radar1 ais1
              radar1_ais1_within_gate) as [Era _].
  destruct (ais_then_radar default_config false 0 0 0%Z 1%Z radar1 ais1
              radar1_ais1_within_gate) as [Ear _].
  cbn zeta in Era, Ear. change (blank default_config false 0 0) with engine0 in *.
  rewrite Era, Ear. repeat split; reflexivity.
Qed.

(** ** Exclusivity of an MMSI *)

Lemma keys_lookup {V} (d : dict V) (i : nat) k v :
  d !! i = Some (k, v) -> keys d !! i = Some k.
Proof.
  revert i. induction d as [|kv d IH]; intros [|i]; simpl; try discriminate.
  - intros E. inversion E. reflexivity.
  - apply IH.
Qed.

Lemma lookup_In {A} (l : list A) (i : nat) x : l !! i = Some x -> In x l.
Proof. intros H. apply list_elem_of_In. eapply list_elem_of_lookup_2, H. Qed.

(** The key of a track that references an AIS contact is fixed by the
    classification and the MMSI. *)
Lemma track_ok_key k f a :
  track_ok (k, f) -> FusedTarget.ais_target f = Some a ->
  k = String.append (if String.eqb (FusedTarget.source_type f) "fused" then "F" else "A")
                    (AISTarget.mmsi a).
Proof.
  unfold track_ok. cbn [fst snd].
  intros [_ [(r & a' & _ & Ha & Hs & _ & Hk)|[(r & _ & Ha & _)|(a' & _ & Ha & Hs & _ & Hk)]]] E.
  - rewrite Hs. simpl. congruence.
  - congruence.
  - rewrite Hs. simpl. congruence.
Qed.

(** C3 (as amended): in every state the engine can reach, an MMSI is
    referenced by at most one live track of each classification, so by at
    most one track classified [fused]; an [A<mmsi>] track made before the
    radar match can stand next to [F<mmsi>]. *)
Theorem one_track_per_mmsi_and_classification
    (config : fusion_config) (cb : bool) (calls : list call)
    (i j : nat) (ki kj : string) (fi fj : FusedTarget.t) (ai aj : AISTarget.t) :
  let s := run calls (fresh config cb) in
  fused_targets s !! i = Some (ki, fi) ->
  fused_targets s !! j = Some (kj, fj) ->
  FusedTarget.ais_target fi = Some ai ->
  FusedTarget.ais_target fj = Some aj ->
  AISTarget.mmsi ai = AISTarget.mmsi aj ->
  FusedTarget.source_type fi = FusedTarget.source_type fj ->
  i = j.
Proof.
  intros s Hi Hj Hai Haj Hm Hsrc.
  destruct (inv_run calls _ (inv_fresh config cb)) as [_ _ Hwf Hok].
  fold s in Hwf, Hok. rewrite Forall_forall in Hok.
  pose proof (Hok _ (proj2 (list_elem_of_In _ _) (lookup_In _ _ _ Hi))) as Hoki.
  pose proof (Hok _ (proj2 (list_elem_of_In _ _) (lookup_In _ _ _ Hj))) as Hokj.
  pose proof (track_ok_key _ _ _ Hoki Hai) as Eki.
  pose proof (track_ok_key _ _ _ Hokj Haj) as Ekj.
  rewrite Hsrc, Hm in Eki.
  apply keys_lookup in Hi, Hj.
  eapply NoDup_lookup; [exact Hwf|exact Hi|]. rewrite Eki, <- Ekj. exact Hj.
Qed.

Lemma ais_then_radar_sample :
  fused_targets (run [Add_ais_target 0%Z ais1; Add_radar_target 1%Z radar1] engine0) =
  [("A200100001"%string, ais_track 0%Z ais1);
   ("F200100001"%string, fused_track engine0 1%Z radar1 ais1)].
Proof.
  destruct (ais_then_radar default_config false 0 0 0%Z 1%Z radar1 ais1
              radar1_ais1_within_gate) as [E _].
  exact E.
Qed.

(** C3 at the fused track of the AIS-then-radar run. *)
Lemma one_track_per_mmsi_and_classification_witness :
  let s := run [Add_ais_target 0%Z ais1; Add_radar_target 1%Z radar1]
               (fresh default_config false) in
  fused_targets s !! 1%nat = Some ("F200100001"%string, fused_track engine0 1%Z radar1 ais1) /\
  1%nat = 1%nat.
Proof.
  cbn zeta.
  assert (H : fused_targets (run [Add_ais_target 0%Z ais1; Add_radar_target 1%Z radar1]
                                 (fresh default_config false)) !! 1%nat
              = Some ("F200100001"%string, fused_track engine0 1%Z radar1 ais1)).
  { change (fresh default_config false) with engine0.
    rewrite ais_then_radar_sample. reflexivity. }
  split; [exact H|].
  exact (one_track_per_mmsi_and_classification default_config false
           [Add_ais_target 0%Z ais1; Add_radar_target 1%Z radar1] 1 1 _ _ _ _
           ais1 ais1 H H eq_refl eq_refl eq_refl eq_refl).
Defined.

(** C3, counterexample: after AIS-then-radar two live tracks, [A200100001]
    and [F200100001], both reference the AIS contact with that MMSI. *)
Lemma mmsi_exclusivity_counterexample :
  let s := run [Add_ais_target 0%Z ais1; Add_radar_target 1%Z radar1] engine0 in
  exists fA fF,
    fused_targets s !! 0%nat = Some ("A200100001"%string, fA) /\
    fused_targets s !! 1%nat = Some ("F200100001"%string, fF) /\
    FusedTarget.ais_target fA = Some ais1 /\
    FusedTarget.ais_target fF = Some ais1.
Proof.
  cbn zeta. rewrite ais_then_radar_sample.
  exists (ais_track 0%Z ais1), (fused_track engine0 1%Z radar1 ais1).
  repeat split; reflexivity.
Qed.

(** ** Persistence of the matched set *)

(** C10: the matched set only grows.  An MMSI that is in [matched_ais]
    stays there through every later call, and no later AIS-side search
    returns a contact with that MMSI. *)
Theorem matched_ais_only_grows (s : TargetFusion.t) (calls : list call) (m : string) :
  m ∈ matched_ais s ->
  m ∈ matched_ais (run calls s) /\
  (forall lat lon a,
      _find_matching_ais (run calls s) lat lon = Some a -> AISTarget.mmsi a <> m).
Proof.
  intros Hm. assert (Hm' : m ∈ matched_ais (run calls s)).
  { apply (matched_run calls s), Hm. }
  split; [exact Hm'|]. intros lat lon a Hfind E.
  apply scan_ais_sound in Hfind as (_ & Hnot & _). apply Hnot. rewrite E. exact Hm'.
Qed.

(** C10 at the MMSI matched by the radar-then-AIS run, followed by a read that evicts every track and by a new radar contact. *)
Lemma matched_ais_only_grows_witness :
  let s := run [Add_radar_target 0%Z radar1; Add_ais_target 1%Z ais1] engine0 in
  let later := [Get_fused_targets 61000001%Z; Add_radar_target 61000002%Z radar1] in
  "200100001"%string ∈ matched_ais s /\
  "200100001"%string ∈ matched_ais (run later s).
Proof.
  cbn zeta.
  assert (H : "200100001"%string ∈
              matched_ais (run [Add_radar_target 0%Z radar1; Add_ais_target 1%Z ais1] engine0)).
  { destruct (radar_then_ais default_config false 0 0 0%Z 1%Z radar1 ais1
                radar1_ais1_within_gate) as [_ E].
    cbn zeta in E. change (blank default_config false 0 0) with engine0 in E.
    rewrite E. apply elem_of_union_l, elem_of_singleton. reflexivity. }
  split; [exact H|].
  exact (proj1 (matched_ais_only_grows _
                  [Get_fused_targets 61000001%Z; Add_radar_target 61000002%Z radar1]
                  "200100001"%string H)).
Defined.

(** ** Classification and confidence *)

Lemma track_ok_classified kv : track_ok kv -> classified (snd kv).
Proof.
  destruct kv as [k f]. unfold track_ok, classified. cbn [fst snd].
  intros [_ [(r & a & Hr & Ha & Hs & Hc & _)|[(r & Hr & Ha & Hs & Hc & _)|(a & Hr & Ha & Hs & Hc & _)]]];
    rewrite Hr, Ha, Hs, Hc.
  - split; [|left; auto]. split; [intros _; split; discriminate|reflexivity].
  - split; [|right; right; auto].
    split; [discriminate|intros [_ H]; contradiction].
  - split; [|right; left; auto].
    split; [discriminate|intros [H _]; contradiction].
Qed.

Lemma update_classified now radar ais f : classified (FusedTarget.update now radar ais f).
Proof.
  unfold classified, FusedTarget.update.
  cbn [FusedTarget.source_type FusedTarget.radar_target FusedTarget.ais_target
       FusedTarget.confidence].
  destruct radar as [r|], ais as [a|];
    destruct (FusedTarget.radar_target f) as [r0|], (FusedTarget.ais_target f) as [a0|];
    cbn [andb];
    (split;
     [ split; [ try discriminate; intros _; split; discriminate
              | try reflexivity; intros [H1 H2]; contradiction ]
     | first [ left; split; reflexivity
             | right; left; split; reflexivity
             | right; right; split; reflexivity ] ]).
Qed.

(** C4: a track stored by the engine, and a track after
    [FusedTarget.update], is classified [fused] exactly when it holds both
    a radar and an AIS contact; its confidence is 0.9, 0.8 or 0.7 for
    [fused], [ais], [radar], so that fused > AIS-only > radar-only. *)
Theorem classification_and_confidence :
  (forall config cb calls f,
      In f (values (fused_targets (run calls (fresh config cb)))) -> classified f) /\
  (forall now radar ais f, classified (FusedTarget.update now radar ais f)) /\
  (forall f1 f2 f3,
      classified f1 -> classified f2 -> classified f3 ->
      FusedTarget.source_type f1 = "fused"%string ->
      FusedTarget.source_type f2 = "ais"%string ->
      FusedTarget.source_type f3 = "radar"%string ->
      FusedTarget.confidence f1 > FusedTarget.confidence f2 /\
      FusedTarget.confidence f2 > FusedTarget.confidence f3).
Proof.
  split; [|split].
  - intros config cb calls f Hin.
    destruct (inv_run calls _ (inv_fresh config cb)) as [_ _ _ Hok].
    rewrite Forall_forall in Hok.
    apply in_map_iff in Hin as [kv [E Hin]]. subst f.
    apply track_ok_classified, Hok, list_elem_of_In, Hin.
  - apply update_classified.
  - intros f1 f2 f3 [_ H1] [_ H2] [_ H3] E1 E2 E3.
    rewrite E1 in H1. rewrite E2 in H2. rewrite E3 in H3.
    destruct H1 as [[_ C1]|[[D _]|[D _]]]; try discriminate D.
    destruct H2 as [[D _]|[[_ C2]|[D _]]]; try discriminate D.
    destruct H3 as [[D _]|[[D _]|[_ C3]]]; try discriminate D.
    rewrite C1, C2, C3. lra.
Qed.

(** C4 at the fused track of the AIS-then-radar run. *)
Lemma classification_and_confidence_witness :
  let s := run [Add_ais_target 0%Z ais1; Add_radar_target 1%Z radar1]
               (fresh default_config false) in
  In (fused_track engine0 1%Z radar1 ais1) (values (fused_targets s)) /\
  classified (fused_track engine0 1%Z radar1 ais1).
Proof.
  cbn zeta.
  assert (H : In (fused_track engine0 1%Z radar1 ais1)
                (values (fused_targets
                   (run [Add_ais_target 0%Z ais1; Add_radar_target 1%Z radar1]
                        (fresh default_config false))))).
  { change (fresh default_config false) with engine0.
    rewrite ais_then_radar_sample. right. left. reflexivity. }
  split; [exact H|].
  exact (proj1 classification_and_confidence default_config false _ _ H).
Defined.

(** ** Eviction by age *)

Lemma is_expired_age now max_age f :
  is_expired now max_age f = true <-> age now f > max_age.
Proof. unfold is_expired, Rgtb, age. rewrite Rltb_true. reflexivity. Qed.

Lemma keys_fuse_ais_only now a s k :
  k ∈ keys (fused_targets s) -> k ∈ keys (fused_targets (_fuse_ais_only now a s)).
Proof.
  intros Hk. unfold _fuse_ais_only. destruct (_find_matching_radar s _ _); [exact Hk|].
  autorewrite with fusion. simpl. apply keys_setitem_mono, Hk.
Qed.

(** A call that is not a read removes no identity from the live set. *)
Lemma keys_step_mono s c k :
  is_read c = false ->
  k ∈ keys (fused_targets s) -> k ∈ keys (fused_targets (step s c)).
Proof.
  intros Hc Hk. destruct c; try discriminate Hc; cbn [step].
  - exact Hk.
  - unfold add_radar_target, _fuse_radar_target.
    destruct (radar_geo _ target) as [lat lon].
    destruct (_find_matching_ais _ lat lon); autorewrite with fusion; simpl;
      apply keys_setitem_mono, Hk.
  - unfold add_ais_target. destruct (_find_matching_radar _ _ _) as [r|].
    + destruct (radar_geo _ r) as [lat lon]. autorewrite with fusion. simpl.
      apply keys_setitem_mono, Hk.
    + apply keys_fuse_ais_only. exact Hk.
Qed.

(** C5: a read at time [now] removes a live track, and leaves it out of
    the returned list, exactly when its age is strictly above [max_age];
    a track of age at most [max_age] is kept and returned.  Calls other
    than reads remove no identity from the live set. *)
Theorem eviction_at_read_time
    (config : fusion_config) (cb : bool) (calls : list call) (now : datetime)
    (k : string) (f : FusedTarget.t) :
  let s := run calls (fresh config cb) in
  In (k, f) (items (fused_targets s)) ->
  let s' := fst (get_fused_targets now s) in
  let returned := snd (get_fused_targets now s) in
  (age now f > max_age s ->
   get k (fused_targets s') = None /\ ~ In f returned) /\
  (age now f <= max_age s ->
   get k (fused_targets s') = Some f /\ In f returned) /\
  (forall c, is_read c = false -> k ∈ keys (fused_targets (step s c))).
Proof.
  intros s Hin s' returned.
  destruct (inv_run calls _ (inv_fresh config cb)) as [_ _ Hwf _]. fold s in Hwf.
  subst s' returned. rewrite get_fused_targets_spec by exact Hwf. cbn [fst snd].
  set (keep := fun kv : string * FusedTarget.t => negb (is_expired now (max_age s) (snd kv))).
  change (fused_targets (with_fused_targets (List.filter keep (fused_targets s)) s))
    with (List.filter keep (fused_targets s)).
  unfold items in Hin.
  split; [|split].
  - intros Hage. apply is_expired_age in Hage. split.
    + destruct (get k (List.filter keep (fused_targets s))) as [f'|] eqn:E; [|reflexivity].
      apply get_In, filter_In in E as [Hin' Hkeep].
      assert (f' = f).
      { pose proof (wf_get _ _ _ Hwf Hin). pose proof (wf_get _ _ _ Hwf Hin'). congruence. }
      subst f'. unfold keep in Hkeep. cbn [snd] in Hkeep. rewrite Hage in Hkeep.
      discriminate.
    + intros Hret. apply in_map_iff in Hret as [[k' f'] [E Hin']]. cbn [snd] in E.
      subst f'. apply filter_In in Hin' as [_ Hkeep].
      unfold keep in Hkeep. cbn [snd] in Hkeep. rewrite Hage in Hkeep. discriminate.
  - intros Hage.
    assert (Hkeep : keep (k, f) = true).
    { unfold keep. cbn [snd]. apply negb_true_iff, not_true_is_false.
      intros E. apply is_expired_age in E. lra. }
    assert (Hin' : In (k, f) (List.filter keep (fused_targets s))).
    { apply filter_In. auto. }
    split.
    + apply wf_get; [apply wf_filter, Hwf|exact Hin'].
    + apply in_map_iff. exists (k, f). auto.
  - intros c Hc. apply keys_step_mono; [exact Hc|]. eapply In_keys, Hin.
Qed.

(** C5 at a track made at time 0 and read exactly [max_age] = 60 s later:
    it is kept. *)
Lemma eviction_at_read_time_witness :
  let s := run [Add_ais_target 0%Z ais_far] (fresh default_config false) in
  let s' := fst (get_fused_targets 60000000%Z s) in
  In ("A200100001"%string, ais_track 0%Z ais_far) (items (fused_targets s)) /\
  get "A200100001" (fused_targets s') = Some (ais_track 0%Z ais_far).
Proof.
  cbn zeta.
  assert (H : In ("A200100001"%string, ais_track 0%Z ais_far)
                (items (fused_targets
                   (run [Add_ais_target 0%Z ais_far] (fresh default_config false)))))
    by (left; reflexivity).
  split; [exact H|].
  destruct (eviction_at_read_time default_config false [Add_ais_target 0%Z ais_far]
              60000000%Z _ _ H) as (_ & Hkeep & _).
  apply Hkeep.
  change (IZR 60000000 / 1000000 <= 60). lra.
Defined.

(** ** The estimator *)

Lemma Returns_snd {A B} (a a' : A) (b b' : B) :
  Returns (a, b) = Returns (a', b') -> b' = b.
Proof. intros E. congruence. Qed.

Lemma mul_length a b : length (a @ b) = length a.
Proof. unfold Matrix.mul. apply length_map. Qed.

Lemma add_length a b : length (Matrix.add a b) = Nat.min (length a) (length b).
Proof. unfold Matrix.add. apply length_zip_with. Qed.

Lemma sub_length a b : length (Matrix.sub a b) = Nat.min (length a) (length b).
Proof. unfold Matrix.sub. apply length_zip_with. Qed.

Lemma mul_column m a b c d :
  m @ [[a]; [b]; [c]; [d]] = map (fun row => [Matrix.dot row [a; b; c; d]]) m.
Proof. reflexivity. Qed.

Lemma mul_col4 m v : length m = 4%nat -> col4 v -> col4 (m @ v).
Proof.
  intros Hm (a & b & c & d & ->). rewrite mul_column.
  destruct m as [|r1 [|r2 [|r3 [|r4 [|]]]]]; try discriminate Hm.
  simpl. repeat eexists.
Qed.

Lemma add_col4 u v : col4 u -> col4 v -> col4 (Matrix.add u v).
Proof.
  intros (a & b & c & d & ->) (a' & b' & c' & d' & ->). repeat eexists.
Qed.

Ltac kf_fields :=
  cbn [KalmanFilter.state KalmanFilter.P KalmanFilter.F KalmanFilter.H
       KalmanFilter.Q KalmanFilter.with_state_P KalmanFilter.predict
       KalmanFilter.initialize snd].

Lemma shaped_init dt q r kf : KalmanFilter.__init__ dt q r = Returns kf -> shaped kf.
Proof.
  intros E. inversion E; subst. split; try reflexivity. repeat eexists.
Qed.

Lemma initialize_state x y kf :
  col4 (KalmanFilter.state kf) ->
  KalmanFilter.state (KalmanFilter.initialize x y kf) = [[x]; [y]; [0]; [0]].
Proof. intros (a & b & c & d & Hs). kf_fields. rewrite Hs. reflexivity. Qed.

Lemma shaped_initialize x y kf : shaped kf -> shaped (KalmanFilter.initialize x y kf).
Proof.
  intros [Hs HP HF HH HQ]. split; auto.
  rewrite initialize_state by exact Hs. repeat eexists.
Qed.

Lemma shaped_predict kf : shaped kf -> shaped (snd (KalmanFilter.predict kf)).
Proof.
  intros [Hs HP HF HH HQ]. split; kf_fields; auto.
  - apply mul_col4; assumption.
  - rewrite add_length, !mul_length, HF, HQ. reflexivity.
Qed.

Lemma shaped_update x y kf pos kf' :
  shaped kf -> KalmanFilter.update x y kf = Returns (pos, kf') -> shaped kf'.
Proof.
  intros Hk. unfold KalmanFilter.update.
  destruct (KalmanFilter.initialized kf); cbn [negb].
  - destruct (Matrix.inv _) as [S_inv|e]; cbn [bind]; [|discriminate].
    intros E. apply Returns_snd in E. subst kf'.
    destruct Hk as [Hs HP HF HH HQ]. split; kf_fields; auto.
    + apply add_col4; [exact Hs|].
      destruct Hs as (a & b & c & d & Hs). rewrite Hs.
      destruct (KalmanFilter.H kf) as [|h1 [|h2 [|]]]; try discriminate HH.
      set (K := KalmanFilter.P kf @ _ @ S_inv).
      assert (HK : length K = 4%nat) by (unfold K; rewrite !mul_length; exact HP).
      destruct K as [|k1 [|k2 [|k3 [|k4 [|]]]]]; try discriminate HK.
      repeat eexists.
    + rewrite mul_length, sub_length, !mul_length, HP. reflexivity.
  - intros E. apply Returns_snd in E. subst kf'. apply shaped_initialize, Hk.
Qed.

(** Every estimator keeps its array shapes. *)
Lemma estimator_shaped kf : estimator kf -> shaped kf.
Proof.
  induction 1 as [dt q r kf E|x y kf _ IH|kf _ IH|x y kf pos kf' _ IH E].
  - eapply shaped_init, E.
  - apply shaped_initialize, IH.
  - apply shaped_predict, IH.
  - eapply shaped_update; [exact IH|exact E].
Qed.

(** C7: on an estimator that is not yet initialized, the first measurement
    [(x, y)] sets the state to position [(x, y)] with zero velocity and is
    returned unchanged, by [KalmanFilter.update] and by
    [KFTracker.process]. *)
Theorem first_measurement_returned_unchanged :
  (forall kf x y,
      estimator kf -> KalmanFilter.initialized kf = false ->
      exists kf',
        KalmanFilter.update x y kf = Returns ((x, y), kf') /\
        KalmanFilter.state kf' = [[x]; [y]; [0]; [0]] /\
        KalmanFilter.initialized kf' = true) /\
  (forall tr x y,
      KFTracker.init tr = false ->
      exists tr',
        KFTracker.process x y tr = Returns ((x, y), tr') /\
        KFTracker.x tr' = [[x]; [y]; [0]; [0]] /\
        KFTracker.init tr' = true).
Proof.
  split.
  - intros kf x y Hest Hinit. exists (KalmanFilter.initialize x y kf).
    unfold KalmanFilter.update. rewrite Hinit. cbn [negb].
    split; [reflexivity|]. split; [|reflexivity].
    apply initialize_state, estimator_shaped, Hest.
  - intros tr x y Hinit. unfold KFTracker.process. rewrite Hinit. cbn [negb].
    eexists. split; [reflexivity|]. split; reflexivity.
Qed.

(** C7 at a newly constructed estimator with the default parameters and the measurement (10, 20). *)
Lemma first_measurement_returned_unchanged_witness :
  let kf := KalmanFilter.mk 1 0.1 1 (Matrix.zeros 4 1)
              (Matrix.scale (Matrix.eye 4) 100)
              [[1; 0; 1; 0]; [0; 1; 0; 1]; [0; 0; 1; 0]; [0; 0; 0; 1]]
              [[1; 0; 0; 0]; [0; 1; 0; 0]]
              (Matrix.scale (Matrix.eye 4) 0.1)
              (Matrix.scale (Matrix.eye 2) 1) false in
  estimator kf /\ KalmanFilter.initialized kf = false /\
  exists kf', KalmanFilter.update 10 20 kf = Returns ((10, 20), kf').
Proof.
  cbn zeta.
  assert (Hest : estimator
                   (KalmanFilter.mk 1 0.1 1 (Matrix.zeros 4 1)
                      (Matrix.scale (Matrix.eye 4) 100)
                      [[1; 0; 1; 0]; [0; 1; 0; 1]; [0; 0; 1; 0]; [0; 0; 0; 1]]
                      [[1; 0; 0; 0]; [0; 1; 0; 0]]
                      (Matrix.scale (Matrix.eye 4) 0.1)
                      (Matrix.scale (Matrix.eye 2) 1) false))
    by (apply (est_new 1 0.1 1); reflexivity).
  split; [exact Hest|]. split; [reflexivity|].
  destruct (proj1 first_measurement_returned_unchanged _ 10 20 Hest eq_refl)
    as (kf' & E & _).
  exists kf'. exact E.
Defined.

(** ** The registry of estimators *)

(** C8: for an identity that is not in the registry, [predict_target]
    returns [None] and [remove_target] returns; neither raises and both
    leave the registry as it was, so no estimator is created. *)
Theorem absent_identity_is_harmless
    (reg : MultiTargetKalmanFilter.t) (target_id : string) :
  contains target_id (MultiTargetKalmanFilter.filters reg) = false ->
  MultiTargetKalmanFilter.predict_target target_id reg = Returns (None, reg) /\
  MultiTargetKalmanFilter.remove_target target_id reg = Returns reg.
Proof.
  intros Habs.
  unfold MultiTargetKalmanFilter.predict_target, MultiTargetKalmanFilter.remove_target.
  rewrite Habs. split; reflexivity.
Qed.

(** C8 at the empty registry. *)
Lemma absent_identity_is_harmless_witness :
  let reg := MultiTargetKalmanFilter.mk empty in
  contains "7" (MultiTargetKalmanFilter.filters reg) = false /\
  MultiTargetKalmanFilter.predict_target "7" reg = Returns (None, reg).
Proof.
  cbn zeta. split; [reflexivity|].
  exact (proj1 (absent_identity_is_harmless (MultiTargetKalmanFilter.mk empty) "7"
                  eq_refl)).
Defined.

(** ** Construction and configuration *)

(** C9 (as amended): construction never fails and never checks its
    arguments.  [KalmanFilter], [KFTracker] and [TargetFusion] are built
    with whatever measurement noise and gating distance they are given,
    and [_validate_fusion] records no error. *)
Theorem construction_accepts_any_configuration :
  (forall dt q r, exists kf,
      KalmanFilter.__init__ dt q r = Returns kf /\
      KalmanFilter.measurement_noise kf = r /\
      KalmanFilter.R_ kf = Matrix.scale (Matrix.eye 2) r) /\
  (forall dt q r, exists tr,
      KFTracker.__init__ dt q r = Returns tr /\
      KFTracker.R_ tr = Matrix.scale (Matrix.eye 2) r) /\
  (forall config cb, exists s,
      TargetFusion.__init__ config cb = Returns s /\
      association_distance s = get_default (cfg_association_distance_m config) 100) /\
  (forall v, ConfigValidator.errors (ConfigValidator._validate_fusion v)
             = ConfigValidator.errors v).
Proof.
  repeat split.
  - intros dt q r. eexists. repeat split; reflexivity.
  - intros dt q r. eexists. repeat split; reflexivity.
  - intros config cb. eexists. repeat split; reflexivity.
  - intros v. unfold ConfigValidator._validate_fusion.
    destruct (negb _); reflexivity.
Qed.

(** C9, counterexample: a measurement noise of 0 and a gate of -1 are
    accepted by the constructors, and the validator reports no error. *)
Lemma invalid_configuration_counterexample :
  (exists kf, KalmanFilter.__init__ 1 0.1 0 = Returns kf /\
              KalmanFilter.measurement_noise kf = 0) /\
  (exists s, TargetFusion.__init__ negative_gate_config false = Returns s /\
             association_distance s = -1) /\
  ConfigValidator.errors
    (ConfigValidator._validate_fusion
       (ConfigValidator.mk (Some negative_gate_config) [] [])) = [].
Proof.
  split; [|split].
  - eexists. split; reflexivity.
  - eexists. split; reflexivity.
  - reflexivity.
Qed.

(** What an accepted value can do later: built with measurement noise
    -2.1 (and the defaults [dt] = 1, process noise 0.1), an estimator
    initialized at the origin has the zero matrix as innovation covariance
    at its next measurement, and [predict_update] raises. *)
Lemma negative_noise_raises_later :
  exists kf,
    KalmanFilter.__init__ 1 0.1 (-2.1) = Returns kf /\
    KalmanFilter.predict_update 5 5 (KalmanFilter.initialize 0 0 kf)
    = Raises LinAlgError.
Proof.
  eexists. split; [reflexivity|].
  unfold KalmanFilter.predict_update, KalmanFilter.update.
  cbn -[IZR Rplus Rmult Rminus Rdiv Ropp Rinv Reqb].
  match goal with
  | |- context [Reqb ?d 0] => replace (Reqb d 0) with true
  end.
  - reflexivity.
  - symmetry. apply Reqb_true. lra.
Qed.

(** * Further properties of the code *)

(** ** The distance function *)


Lemma sin_half_sqr x : sin (x / 2) ^ 2 = (1 - cos x) / 2.
Proof.
  pose proof (cos_2a_sin (x / 2)) as H.
  replace (2 * (x / 2)) with x in H by lra. lra.
Qed.

(** The term under the square roots is the haversine of an angle. *)
Lemma haversine_a_range lat1 lon1 lat2 lon2 :
  0 <= haversine_a lat1 lon1 lat2 lon2 <= 1.
Proof.
  unfold haversine_a. rewrite !sin_half_sqr.
  replace (radians (lat2 - lat1)) with (radians lat2 - radians lat1)
    by (unfold radians; lra).
  rewrite cos_minus.
  set (c1 := cos (radians lat1)). set (s1 := sin (radians lat1)).
  set (c2 := cos (radians lat2)). set (s2 := sin (radians lat2)).
  set (t := cos (radians (lon2 - lon1))).
  assert (H1 : s1 * s1 + c1 * c1 = 1).
  { pose proof (sin2_cos2 (radians lat1)) as E. unfold Rsqr in E. exact E. }
  assert (H2 : s2 * s2 + c2 * c2 = 1).
  { pose proof (sin2_cos2 (radians lat2)) as E. unfold Rsqr in E. exact E. }
  assert (Ht : -1 <= t <= 1) by apply COS_bound.
  assert (Ht2 : 0 <= c2 * c2 * (1 - t * t)).
  { apply Rmult_le_pos; [apply Rle_0_sqr|nra]. }
  assert (Hm : 0 <= (s1 - s2) * (s1 - s2) + (c1 - c2 * t) * (c1 - c2 * t))
    by (pose proof (Rle_0_sqr (s1 - s2)); pose proof (Rle_0_sqr (c1 - c2 * t));
        unfold Rsqr in *; lra).
  assert (Hp : 0 <= (s1 + s2) * (s1 + s2) + (c1 + c2 * t) * (c1 + c2 * t))
    by (pose proof (Rle_0_sqr (s1 + s2)); pose proof (Rle_0_sqr (c1 + c2 * t));
        unfold Rsqr in *; lra).
  split; nra.
Qed.


(** X1: the distance is symmetric in its two points, and a point is at
    distance zero from itself. *)
Theorem haversine_symmetric_and_zero_on_same_point :
  (forall lat1 lon1 lat2 lon2,
      _haversine_distance lat1 lon1 lat2 lon2 = _haversine_distance lat2 lon2 lat1 lon1) /\
  (forall lat lon, _haversine_distance lat lon lat lon = 0).
Proof. split; [apply haversine_sym|apply haversine_same]. Qed.




Lemma radar_due_east distance_nm ref_lon :
  _radar_to_geo distance_nm 90 0 ref_lon = (0, ref_lon + distance_nm * 1852 / 111000).
Proof.
  unfold _radar_to_geo, radians.
  replace (90 * (PI / 180)) with (PI / 2) by lra.
  replace (0 * (PI / 180)) with 0 by lra.
  rewrite cos_PI2, sin_PI2, cos_0. f_equal; lra.
Qed.

(** X3: conversion and distance fit together on the equator.  A radar
    contact [d] nautical miles due east of an origin on the equator is
    placed at haversine distance 6371000 * radians (d * 1852 / 111000)
    from the origin: 1852 * d metres scaled by 6371000 * PI / (180 * 111000). *)
Theorem radar_due_east_distance (distance_nm ref_lon : R) :
  0 <= distance_nm -> distance_nm * 1852 / 111000 < 180 ->
  let '(lat, lon) := _radar_to_geo distance_nm 90 0 ref_lon in
  _haversine_distance 0 ref_lon lat lon =
  1852 * distance_nm * (6371000 * PI / (180 * 111000)).
Proof.
  intros Hd Hlt. rewrite radar_due_east.
  rewrite haversine_equator by lra. unfold radians. field.
Qed.

Lemma radar_due_east_distance_witness :
  0 <= 1 /\ 1 * 1852 / 111000 < 180 /\
  _haversine_distance 0 0 (fst (_radar_to_geo 1 90 0 0)) (snd (_radar_to_geo 1 90 0 0))
  = 1852 * 1 * (6371000 * PI / (180 * 111000)).
Proof.
  assert (H0 : 0 <= 1) by lra.
  assert (H1 : 1 * 1852 / 111000 < 180) by lra.
  split; [exact H0|]. split; [exact H1|].
  pose proof (radar_due_east_distance 1 0 H0 H1) as H.
  destruct (_radar_to_geo 1 90 0 0) as [lat lon]. exact H.
Defined.

(** ** [FusedTarget.update] *)

(** The history entry that [update] appends. *)
Lemma update_history now radar ais f :
  exists e,
    h_timestamp e = now /\
    h_lat e = FusedTarget.lat (FusedTarget.update now radar ais f) /\
    h_lon e = FusedTarget.lon (FusedTarget.update now radar ais f) /\
    h_speed e = FusedTarget.speed_knots (FusedTarget.update now radar ais f) /\
    FusedTarget.history (FusedTarget.update now radar ais f) =
      if (100 <? length (FusedTarget.history f ++ [e]))%nat
      then FusedTarget.last100 (FusedTarget.history f ++ [e])
      else FusedTarget.history f ++ [e].
Proof. eexists. repeat split; reflexivity. Qed.

(** X4: [update] appends one entry to the history, the newest last, and
    keeps at most the 100 most recent: the new length is
    min (old length + 1, 100), and what is dropped is a prefix. *)
Theorem update_history_is_capped
    (now : datetime) (radar : option RadarTarget.t) (ais : option AISTarget.t)
    (f : FusedTarget.t) :
  let f' := FusedTarget.update now radar ais f in
  exists e dropped,
    h_timestamp e = now /\
    h_lat e = FusedTarget.lat f' /\ h_lon e = FusedTarget.lon f' /\
    h_speed e = FusedTarget.speed_knots f' /\
    FusedTarget.history f ++ [e] = dropped ++ FusedTarget.history f' /\
    last (FusedTarget.history f') = Some e /\
    length (FusedTarget.history f') = Nat.min (S (length (FusedTarget.history f))) 100.
Proof.
  intros f'. subst f'.
  destruct (update_history now radar ais f) as (e & Ht & Hlat & Hlon & Hsp & Hh).
  set (h1 := FusedTarget.history f ++ [e]) in *.
  assert (Hlen : length h1 = S (length (FusedTarget.history f))).
  { unfold h1. rewrite length_app. simpl. lia. }
  exists e. destruct (100 <? length h1)%nat eqn:Hcap.
  - apply Nat.ltb_lt in Hcap. exists (firstn (length h1 - 100) h1).
    rewrite Hh. unfold FusedTarget.last100.
    repeat split; try assumption.
    + symmetry. apply firstn_skipn.
    + unfold h1 at 2. rewrite skipn_app.
      replace (length h1 - 100 - length (FusedTarget.history f))%nat with 0%nat by lia.
      simpl. apply last_snoc.
    + rewrite length_skipn. lia.
  - apply Nat.ltb_ge in Hcap. exists []. rewrite Hh.
    repeat split; try assumption.
    + unfold h1. apply last_snoc.
    + lia.
Qed.

(** X5: [update] never clears a contact reference and never changes the
    identity or the status of a track; a track that holds both contacts
    is classified [fused] with confidence 0.9 after every update, whatever
    arguments the update is given. *)
Theorem update_never_degrades
    (now : datetime) (radar : option RadarTarget.t) (ais : option AISTarget.t)
    (f : FusedTarget.t) :
  let f' := FusedTarget.update now radar ais f in
  (FusedTarget.radar_target f <> None -> FusedTarget.radar_target f' <> None) /\
  (FusedTarget.ais_target f <> None -> FusedTarget.ais_target f' <> None) /\
  (FusedTarget.radar_target f <> None -> FusedTarget.ais_target f <> None ->
   FusedTarget.source_type f' = "fused"%string /\ FusedTarget.confidence f' = 0.9) /\
  FusedTarget.fused_id f' = FusedTarget.fused_id f /\
  FusedTarget.status f' = FusedTarget.status f /\
  FusedTarget.timestamp f' = now.
Proof.
  cbn zeta. unfold FusedTarget.update.
  cbn [FusedTarget.radar_target FusedTarget.ais_target FusedTarget.source_type
       FusedTarget.confidence FusedTarget.fused_id FusedTarget.status
       FusedTarget.timestamp].
  destruct radar as [r|], ais as [a|];
    destruct (FusedTarget.radar_target f) as [r0|], (FusedTarget.ais_target f) as [a0|];
    cbn [andb]; repeat split; try discriminate; try reflexivity;
    intros; try contradiction; try discriminate.
Qed.

Lemma update_never_degrades_witness :
  let f := fused_track engine0 1%Z radar1 ais1 in
  FusedTarget.radar_target f <> None /\ FusedTarget.ais_target f <> None /\
  FusedTarget.source_type (FusedTarget.update 2%Z None None f) = "fused"%string.
Proof.
  cbn zeta.
  assert (H1 : FusedTarget.radar_target (fused_track engine0 1%Z radar1 ais1) <> None)
    by discriminate.
  assert (H2 : FusedTarget.ais_target (fused_track engine0 1%Z radar1 ais1) <> None)
    by discriminate.
  split; [exact H1|]. split; [exact H2|].
  destruct (update_never_degrades 2%Z None None (fused_track engine0 1%Z radar1 ais1))
    as (_ & _ & H & _).
  exact (proj1 (H H1 H2)).
Defined.

(** ** The contact pools *)

Lemma fuse_radar_target_radar_targets now r s :
  radar_targets (_fuse_radar_target now r s) = radar_targets s.
Proof.
  unfold _fuse_radar_target. destruct (radar_geo s r) as [lat lon].
  destruct (_find_matching_ais s lat lon); autorewrite with fusion; reflexivity.
Qed.

Lemma fuse_radar_target_ais_targets now r s :
  ais_targets (_fuse_radar_target now r s) = ais_targets s.
Proof.
  unfold _fuse_radar_target. destruct (radar_geo s r) as [lat lon].
  destruct (_find_matching_ais s lat lon); autorewrite with fusion; reflexivity.
Qed.

Lemma fuse_ais_only_radar_targets now a s :
  radar_targets (_fuse_ais_only now a s) = radar_targets s.
Proof.
  unfold _fuse_ais_only. destruct (_find_matching_radar s _ _); [reflexivity|].
  autorewrite with fusion. reflexivity.
Qed.

Lemma fuse_ais_only_ais_targets now a s :
  ais_targets (_fuse_ais_only now a s) = ais_targets s.
Proof.
  unfold _fuse_ais_only. destruct (_find_matching_radar s _ _); [reflexivity|].
  autorewrite with fusion. reflexivity.
Qed.

Lemma add_radar_target_radar_targets now r s :
  radar_targets (add_radar_target now r s) =
  setitem (RadarTarget.target_id r) r (radar_targets s).
Proof. unfold add_radar_target. rewrite fuse_radar_target_radar_targets. reflexivity. Qed.

Lemma add_radar_target_ais_targets now r s :
  ais_targets (add_radar_target now r s) = ais_targets s.
Proof. unfold add_radar_target. rewrite fuse_radar_target_ais_targets. reflexivity. Qed.

Lemma add_ais_target_radar_targets now a s :
  radar_targets (add_ais_target now a s) = radar_targets s.
Proof.
  unfold add_ais_target. destruct (_find_matching_radar _ _ _) as [r|].
  - destruct (radar_geo _ r) as [lat lon]. autorewrite with fusion. reflexivity.
  - rewrite fuse_ais_only_radar_targets. reflexivity.
Qed.

Lemma add_ais_target_ais_targets now a s :
  ais_targets (add_ais_target now a s) =
  setitem (AISTarget.mmsi a) a (ais_targets s).
Proof.
  unfold add_ais_target. destruct (_find_matching_radar _ _ _) as [r|].
  - destruct (radar_geo _ r) as [lat lon]. autorewrite with fusion. reflexivity.
  - rewrite fuse_ais_only_ais_targets. reflexivity.
Qed.

Lemma read_radar_targets now s :
  radar_targets (fst (get_fused_targets now s)) = radar_targets s.
Proof. reflexivity. Qed.

Lemma read_ais_targets now s :
  ais_targets (fst (get_fused_targets now s)) = ais_targets s.
Proof. reflexivity. Qed.

(** How one call changes the two pools. *)
Lemma step_radar_targets s c :
  radar_targets (step s c) =
  match c with
  | Add_radar_target _ r => setitem (RadarTarget.target_id r) r (radar_targets s)
  | _ => radar_targets s
  end.
Proof.
  destruct c; cbn [step].
  - reflexivity.
  - apply add_radar_target_radar_targets.
  - apply add_ais_target_radar_targets.
  - reflexivity.
  - rewrite get_stats_state. reflexivity.
Qed.

Lemma step_ais_targets s c :
  ais_targets (step s c) =
  match c with
  | Add_ais_target _ a => setitem (AISTarget.mmsi a) a (ais_targets s)
  | _ => ais_targets s
  end.
Proof.
  destruct c; cbn [step].
  - reflexivity.
  - apply add_radar_target_ais_targets.
  - apply add_ais_target_ais_targets.
  - reflexivity.
  - rewrite get_stats_state. reflexivity.
Qed.

(** X6: an ingested contact is stored under its own identity, replacing
    an older contact of that identity; no call ever removes an identity
    from either pool, reads and age eviction included. *)
Theorem pools_store_and_never_shrink :
  (forall now r s,
      get (RadarTarget.target_id r) (radar_targets (add_radar_target now r s)) = Some r) /\
  (forall now a s,
      get (AISTarget.mmsi a) (ais_targets (add_ais_target now a s)) = Some a) /\
  (forall calls s k,
      k ∈ keys (radar_targets s) -> k ∈ keys (radar_targets (run calls s))) /\
  (forall calls s k,
      k ∈ keys (ais_targets s) -> k ∈ keys (ais_targets (run calls s))).
Proof.
  split; [|split; [|split]].
  - intros now r s. rewrite add_radar_target_radar_targets. apply get_setitem_eq.
  - intros now a s. rewrite add_ais_target_ais_targets. apply get_setitem_eq.
  - intros calls. induction calls as [|c calls IH]; intros s k Hk; [exact Hk|].
    cbn [run fold_left]. apply IH. rewrite step_radar_targets.
    destruct c; try exact Hk. apply keys_setitem_mono, Hk.
  - intros calls. induction calls as [|c calls IH]; intros s k Hk; [exact Hk|].
    cbn [run fold_left]. apply IH. rewrite step_ais_targets.
    destruct c; try exact Hk. apply keys_setitem_mono, Hk.
Qed.

Lemma pools_store_and_never_shrink_witness :
  let s := run [Add_radar_target 0%Z radar1] engine0 in
  "1"%string ∈ keys (radar_targets s) /\
  "1"%string ∈ keys (radar_targets (run [Get_fused_targets 61000000%Z] s)).
Proof.
  cbn zeta.
  assert (H : "1"%string ∈ keys (radar_targets (run [Add_radar_target 0%Z radar1] engine0)))
    by (apply list_elem_of_In; left; reflexivity).
  split; [exact H|].
  destruct pools_store_and_never_shrink as (_ & _ & Hr & _).
  exact (Hr [Get_fused_targets 61000000%Z] _ _ H).
Defined.

(** ** Bookkeeping *)

Lemma keys_setitem_new {V} k (v : V) d : k ∈ keys (setitem k v d).
Proof.
  pose proof (get_setitem_eq k v d) as E.
  destruct (decide (k ∈ keys (setitem k v d))) as [H|H]; [exact H|].
  apply get_None_keys in H. congruence.
Qed.

Lemma values_keys {V} (key : V -> string) (d : dict V) v :
  (forall k v', In (k, v') d -> k = key v') -> In v (values d) -> key v ∈ keys d.
Proof.
  intros Hk Hin. apply in_map_iff in Hin as [[k v'] [E Hin]]. simpl in E. subst v'.
  rewrite <- (Hk _ _ Hin). eapply In_keys, Hin.
Qed.

Lemma track_refs_mono s s' kv :
  (forall k, k ∈ keys (radar_targets s) -> k ∈ keys (radar_targets s')) ->
  (forall k, k ∈ keys (ais_targets s) -> k ∈ keys (ais_targets s')) ->
  matched_ais s ⊆ matched_ais s' ->
  track_refs s kv -> track_refs s' kv.
Proof.
  intros Hr Ha Hm [H1 H2]. split.
  - intros r E. apply Hr, H1, E.
  - intros a E. destruct (H2 a E) as [H3 H4]. split; [apply Ha, H3|].
    intros Hs. apply Hm, H4, Hs.
Qed.

(** Storing a track that refers to known contacts keeps the bookkeeping. *)
Lemma bookkeeping_store s f :
  bookkeeping s -> track_refs s (FusedTarget.fused_id f, f) ->
  bookkeeping (notify f (with_fused_targets
                           (setitem (FusedTarget.fused_id f) f (fused_targets s)) s)).
Proof.
  intros [Hr Ha Hm Ht] Hf. split; autorewrite with fusion; cbn [radar_targets
    ais_targets matched_ais fused_targets with_fused_targets]; auto.
  apply Forall_setitem.
  - eapply Forall_impl; [exact Ht|]. intros kv Hkv.
    eapply track_refs_mono; [| | |exact Hkv]; autorewrite with fusion; auto.
  - eapply track_refs_mono; [| | |exact Hf]; autorewrite with fusion; auto.
Qed.

Lemma bookkeeping_fresh config cb : bookkeeping (fresh config cb).
Proof.
  split; cbn [fresh radar_targets ais_targets matched_ais fused_targets].
  - intros k r [].
  - intros k a [].
  - intros m Hm. set_solver.
  - constructor.
Qed.

Lemma bookkeeping_fuse_ais_only now a s :
  bookkeeping s -> In a (values (ais_targets s)) ->
  bookkeeping (_fuse_ais_only now a s).
Proof.
  intros Hs Hin. unfold _fuse_ais_only.
  destruct (_find_matching_radar s _ _); [exact Hs|].
  apply (bookkeeping_store s (FusedTarget.new now _ _ _ _ _ _ _ _ _ _) Hs).
  split; cbn [snd FusedTarget.new FusedTarget.radar_target FusedTarget.ais_target
              FusedTarget.source_type].
  - discriminate.
  - intros a' [= <-]. split; [|discriminate].
    apply (values_keys AISTarget.mmsi); [apply Hs|exact Hin].
Qed.

Lemma bookkeeping_with_matched a s :
  bookkeeping s -> In a (values (ais_targets s)) ->
  bookkeeping (with_matched_ais ({[ AISTarget.mmsi a ]} ∪ matched_ais s) s).
Proof.
  intros [Hr Ha Hm Ht] Hin. split; cbn [radar_targets ais_targets matched_ais
    fused_targets with_matched_ais]; auto.
  - intros m Hin'. apply elem_of_union in Hin' as [E|Hin']; [|auto].
    apply elem_of_singleton in E. subst m.
    apply (values_keys AISTarget.mmsi); assumption.
  - eapply Forall_impl; [exact Ht|]. intros kv Hkv.
    eapply track_refs_mono; [| | |exact Hkv]; cbn [radar_targets ais_targets
      matched_ais with_matched_ais]; auto. set_solver.
Qed.

Lemma bookkeeping_fuse_radar_target now r s :
  bookkeeping s -> In r (values (radar_targets s)) ->
  bookkeeping (_fuse_radar_target now r s).
Proof.
  intros Hs Hin. unfold _fuse_radar_target. destruct (radar_geo s r) as [lat lon].
  assert (Hrk : RadarTarget.target_id r ∈ keys (radar_targets s)).
  { apply (values_keys RadarTarget.target_id); [apply Hs|exact Hin]. }
  destruct (_find_matching_ais s lat lon) as [a|] eqn:Hfind.
  - apply scan_ais_sound in Hfind as (Hina & _ & _).
    apply (bookkeeping_store _ (FusedTarget.new now _ _ _ _ _ _ _ _ _ _)).
    + apply bookkeeping_with_matched; assumption.
    + split; cbn [snd FusedTarget.new FusedTarget.radar_target FusedTarget.ais_target
                  FusedTarget.source_type radar_targets ais_targets matched_ais
                  with_matched_ais].
      * intros r' E. injection E as <-. exact Hrk.
      * intros a' [= <-]. split; [|intros _; apply elem_of_union_l, elem_of_singleton; reflexivity].
        apply (values_keys AISTarget.mmsi); [apply Hs|exact Hina].
  - apply (bookkeeping_store s (FusedTarget.new now _ _ _ _ _ _ _ _ _ _) Hs).
    split; cbn [snd FusedTarget.new FusedTarget.radar_target FusedTarget.ais_target].
    + intros r' E. injection E as <-. exact Hrk.
    + discriminate.
Qed.

Lemma In_values_setitem {V} k (v : V) d : In v (values (setitem k v d)).
Proof.
  apply in_map_iff. exists (k, v). split; [reflexivity|].
  apply get_In, get_setitem_eq.
Qed.

Lemma bookkeeping_with_radar_targets r s :
  bookkeeping s ->
  bookkeeping (with_radar_targets
                 (setitem (RadarTarget.target_id r) r (radar_targets s)) s).
Proof.
  intros [Hr Ha Hm Ht]. split; cbn [radar_targets ais_targets matched_ais
    fused_targets with_radar_targets]; auto.
  - intros k r' Hin. apply In_setitem in Hin as [[-> ->]|Hin]; auto.
  - eapply Forall_impl; [exact Ht|]. intros kv Hkv.
    eapply track_refs_mono; [| | |exact Hkv]; cbn [radar_targets ais_targets
      matched_ais with_radar_targets]; auto.
    intros k. apply keys_setitem_mono.
Qed.

Lemma bookkeeping_with_ais_targets a s :
  bookkeeping s ->
  bookkeeping (with_ais_targets
                 (setitem (AISTarget.mmsi a) a (ais_targets s)) s).
Proof.
  intros [Hr Ha Hm Ht]. split; cbn [radar_targets ais_targets matched_ais
    fused_targets with_ais_targets]; auto.
  - intros k a' Hin. apply In_setitem in Hin as [[-> ->]|Hin]; auto.
  - intros m Hin. apply keys_setitem_mono, Hm, Hin.
  - eapply Forall_impl; [exact Ht|]. intros kv Hkv.
    eapply track_refs_mono; [| | |exact Hkv]; cbn [radar_targets ais_targets
      matched_ais with_ais_targets]; auto.
    intros k. apply keys_setitem_mono.
Qed.

Lemma bookkeeping_add_radar_target now r s :
  bookkeeping s -> bookkeeping (add_radar_target now r s).
Proof.
  intros Hs. unfold add_radar_target. apply bookkeeping_fuse_radar_target.
  - apply bookkeeping_with_radar_targets, Hs.
  - apply In_values_setitem.
Qed.

Lemma bookkeeping_add_ais_target now a s :
  bookkeeping s -> bookkeeping (add_ais_target now a s).
Proof.
  intros Hs. unfold add_ais_target.
  set (s1 := with_ais_targets _ s).
  assert (Hs1 : bookkeeping s1) by apply bookkeeping_with_ais_targets, Hs.
  assert (Hin : In a (values (ais_targets s1))) by apply In_values_setitem.
  destruct (_find_matching_radar s1 _ _) as [r|] eqn:Hfind.
  - apply scan_radar_sound in Hfind as [Hinr _].
    destruct (radar_geo _ r) as [lat lon].
    apply (bookkeeping_store _ (FusedTarget.new now _ _ _ _ _ _ _ _ _ _)).
    + apply bookkeeping_with_matched; assumption.
    + split; cbn [snd FusedTarget.new FusedTarget.radar_target FusedTarget.ais_target
                  FusedTarget.source_type radar_targets ais_targets matched_ais
                  with_matched_ais].
      * intros r' [= <-]. apply (values_keys RadarTarget.target_id); [apply Hs1|exact Hinr].
      * intros a' [= <-]. split; [|intros _; apply elem_of_union_l, elem_of_singleton; reflexivity].
        apply (values_keys AISTarget.mmsi); [apply Hs1|exact Hin].
  - apply bookkeeping_fuse_ais_only; assumption.
Qed.

Lemma In_delitem {V} k (d : dict V) kv : In kv (delitem k d) -> In kv d.
Proof.
  induction d as [|[k' v'] d IH]; simpl; [auto|].
  destruct (String.eqb k k'); simpl; [auto|]. intros [E|H]; auto.
Qed.

Lemma In_fold_delitem {V} ks (d : dict V) kv :
  In kv (fold_left (fun d fid => delitem fid d) ks d) -> In kv d.
Proof.
  revert d. induction ks as [|k ks IH]; intros d; simpl; [auto|].
  intros H. eapply In_delitem, IH, H.
Qed.

Lemma bookkeeping_read now s : bookkeeping s -> bookkeeping (fst (get_fused_targets now s)).
Proof.
  intros [Hr Ha Hm Ht]. unfold get_fused_targets. cbn [fst]. split;
    cbn [radar_targets ais_targets matched_ais fused_targets with_fused_targets]; auto.
  rewrite Forall_forall in *. intros kv Hin.
  apply list_elem_of_In, In_fold_delitem, list_elem_of_In in Hin.
  exact (Ht kv Hin).
Qed.

Lemma bookkeeping_step s c : bookkeeping s -> bookkeeping (step s c).
Proof.
  intros Hs. destruct c; cbn [step].
  - destruct Hs. split; assumption.
  - apply bookkeeping_add_radar_target, Hs.
  - apply bookkeeping_add_ais_target, Hs.
  - apply bookkeeping_read, Hs.
  - rewrite get_stats_state. apply bookkeeping_read, Hs.
Qed.

(** X7: in every state the engine can reach, the contacts in the pools are
    filed under their own identities, every matched MMSI is the identity
    of a known AIS contact, every contact a live track refers to has its
    identity in the pools, and the MMSI of every live track classified
    [fused] is in [matched_ais]. *)
Theorem engine_bookkeeping
    (config : fusion_config) (cb : bool) (calls : list call) :
  let s := run calls (fresh config cb) in
  (forall k r, In (k, r) (items (radar_targets s)) -> k = RadarTarget.target_id r) /\
  (forall k a, In (k, a) (items (ais_targets s)) -> k = AISTarget.mmsi a) /\
  (forall m, m ∈ matched_ais s -> m ∈ keys (ais_targets s)) /\
  (forall k f r, In (k, f) (items (fused_targets s)) ->
      FusedTarget.radar_target f = Some r ->
      RadarTarget.target_id r ∈ keys (radar_targets s)) /\
  (forall k f a, In (k, f) (items (fused_targets s)) ->
      FusedTarget.ais_target f = Some a ->
      AISTarget.mmsi a ∈ keys (ais_targets s) /\
      (FusedTarget.source_type f = "fused"%string -> AISTarget.mmsi a ∈ matched_ais s)).
Proof.
  intros s.
  assert (Hs : bookkeeping s).
  { subst s. generalize (bookkeeping_fresh config cb). generalize (fresh config cb).
    induction calls as [|c calls IH]; intros s0 H0; [exact H0|].
    apply IH, bookkeeping_step, H0. }
  destruct Hs as [Hr Ha Hm Ht]. rewrite Forall_forall in Ht.
  split; [exact Hr|]. split; [exact Ha|]. split; [exact Hm|]. split.
  - intros k f r Hin E.
    exact (proj1 (Ht (k, f) (proj2 (list_elem_of_In _ _) Hin)) r E).
  - intros k f a Hin E.
    exact (proj2 (Ht (k, f) (proj2 (list_elem_of_In _ _) Hin)) a E).
Qed.

(** C-style frame facts about [notify]. *)
Lemma notify_notified f s :
  notified (notify f s) = notified s ++ (if callback s then [f] else []).
Proof. unfold notify. destruct (callback s); [reflexivity|]. symmetry. apply app_nil_r. Qed.

Lemma scan_radar_ext s s' lat lon pool :
  radar_origin s' = radar_origin s ->
  association_distance s' = association_distance s ->
  scan_radar s' lat lon pool = scan_radar s lat lon pool.
Proof.
  intros Ho Hg. induction pool as [|q pool IH]; [reflexivity|].
  rewrite !scan_radar_cons, IH, Hg. unfold radar_distance, radar_geo. rewrite Ho.
  reflexivity.
Qed.

(** ** What one ingest call stores and reports *)

(** Where no distance raises, [add_ais_target] stores one track holding
    the contact, stamped with the current time, and reports exactly that
    track to the callback when one is registered.  The track is [F<mmsi>],
    fused with the first radar contact within the gate, when there is one,
    and then the MMSI joins [matched_ais]; otherwise it is [A<mmsi>].  No
    other track is touched. *)
Lemma add_ais_target_postcondition
    (now : datetime) (a : AISTarget.t) (s : TargetFusion.t) :
  let s' := add_ais_target now a s in
  let near := fun q => radar_distance s (AISTarget.lat a) (AISTarget.lon a) q
                       < association_distance s in
  exists f,
    FusedTarget.ais_target f = Some a /\
    FusedTarget.timestamp f = now /\
    get (FusedTarget.fused_id f) (fused_targets s') = Some f /\
    (forall k, k <> FusedTarget.fused_id f ->
               get k (fused_targets s') = get k (fused_targets s)) /\
    notified s' = notified s ++ (if callback s then [f] else []) /\
    ((exists r, first_such near (values (radar_targets s)) r /\
                f = fused_track s now r a /\
                matched_ais s' = {[ AISTarget.mmsi a ]} ∪ matched_ais s)
     \/ (Forall (fun q => ~ near q) (values (radar_targets s)) /\
         f = ais_track now a /\
         matched_ais s' = matched_ais s)).
Proof.
  intros s' near. subst s'. unfold add_ais_target.
  set (s1 := with_ais_targets _ s).
  assert (Hscan : forall lat lon,
             _find_matching_radar s1 lat lon = _find_matching_radar s lat lon).
  { intros lat lon. unfold _find_matching_radar. apply scan_radar_ext; reflexivity. }
  rewrite Hscan.
  destruct (_find_matching_radar s (AISTarget.lat a) (AISTarget.lon a)) as [r|] eqn:Hfind.
  - exists (fused_track s now r a). unfold fused_track.
    change (radar_geo (with_matched_ais _ s1) r) with (radar_geo s r).
    destruct (radar_geo s r) as [rlat rlon] eqn:Eg. cbn [fst snd].
    autorewrite with fusion. rewrite notify_notified.
    cbn [fused_targets with_fused_targets with_matched_ais with_ais_targets
         matched_ais notified callback FusedTarget.new FusedTarget.ais_target
         FusedTarget.timestamp FusedTarget.fused_id s1].
    split; [reflexivity|]. split; [reflexivity|].
    split; [apply get_setitem_eq|].
    split; [intros k Hk; apply get_setitem_ne; congruence|].
    split; [reflexivity|]. left. exists r.
    split; [apply scan_radar_first, Hfind|]. rewrite Eg. split; reflexivity.
  - exists (ais_track now a). unfold _fuse_ais_only. rewrite Hscan, Hfind.
    autorewrite with fusion. rewrite notify_notified.
    cbn [fused_targets with_fused_targets with_ais_targets matched_ais notified
         callback ais_track FusedTarget.new FusedTarget.ais_target
         FusedTarget.timestamp FusedTarget.fused_id s1].
    split; [reflexivity|]. split; [reflexivity|].
    split; [apply get_setitem_eq|].
    split; [intros k Hk; apply get_setitem_ne; congruence|].
    split; [reflexivity|]. right.
    split; [apply scan_radar_none, Hfind|]. split; reflexivity.
Qed.

(** Where no distance raises, [add_radar_target] stores one track
    holding the contact at its converted position, stamped with the
    current time, and reports exactly that track.  The track is [F<mmsi>]
    of the first unmatched AIS contact within the gate of that position,
    when there is one, and then the MMSI joins [matched_ais]; otherwise it
    is [R<target_id>].  No other track is touched. *)
Lemma add_radar_target_postcondition
    (now : datetime) (r : RadarTarget.t) (s : TargetFusion.t) :
  let s' := add_radar_target now r s in
  let near := fun b => ais_distance (fst (radar_geo s r)) (snd (radar_geo s r)) b
                       < association_distance s in
  exists f,
    FusedTarget.radar_target f = Some r /\
    FusedTarget.timestamp f = now /\
    (FusedTarget.lat f, FusedTarget.lon f) = radar_geo s r /\
    get (FusedTarget.fused_id f) (fused_targets s') = Some f /\
    (forall k, k <> FusedTarget.fused_id f ->
               get k (fused_targets s') = get k (fused_targets s)) /\
    notified s' = notified s ++ (if callback s then [f] else []) /\
    ((exists a, first_such near (unmatched_ais s) a /\
                f = fused_track s now r a /\
                matched_ais s' = {[ AISTarget.mmsi a ]} ∪ matched_ais s)
     \/ (Forall (fun b => ~ near b) (unmatched_ais s) /\
         f = radar_track s now r /\
         matched_ais s' = matched_ais s)).
Proof.
  intros s' near. subst s'. unfold add_radar_target, _fuse_radar_target.
  set (s1 := with_radar_targets _ s).
  replace (radar_geo s1 r) with (radar_geo s r) by reflexivity.
  subst near. destruct (radar_geo s r) as [rlat rlon] eqn:Eg. cbn [fst snd].
  replace (_find_matching_ais s1 rlat rlon) with (_find_matching_ais s rlat rlon)
    by reflexivity.
  destruct (_find_matching_ais s rlat rlon) as [a|] eqn:Hfind.
  - exists (fused_track s now r a). unfold fused_track. rewrite Eg. cbn [fst snd].
    autorewrite with fusion. rewrite notify_notified.
    cbn [fused_targets with_fused_targets with_matched_ais with_radar_targets
         matched_ais notified callback FusedTarget.new FusedTarget.radar_target
         FusedTarget.timestamp FusedTarget.fused_id FusedTarget.lat FusedTarget.lon s1].
    split; [reflexivity|]. split; [reflexivity|]. split; [reflexivity|].
    split; [apply get_setitem_eq|].
    split; [intros k Hk; apply get_setitem_ne; congruence|].
    split; [reflexivity|]. left. exists a.
    split; [apply find_matching_ais_first, Hfind|]. rewrite ?Eg. split; reflexivity.
  - exists (radar_track s now r). unfold radar_track. rewrite Eg. cbn [fst snd].
    autorewrite with fusion. rewrite notify_notified.
    cbn [fused_targets with_fused_targets with_radar_targets matched_ais notified
         callback FusedTarget.new FusedTarget.radar_target
         FusedTarget.timestamp FusedTarget.fused_id FusedTarget.lat FusedTarget.lon s1].
    split; [reflexivity|]. split; [reflexivity|]. split; [reflexivity|].
    split; [apply get_setitem_eq|].
    split; [intros k Hk; apply get_setitem_ne; congruence|].
    split; [reflexivity|]. right.
    split; [apply find_matching_ais_none, Hfind|]. split; reflexivity.
Qed.

(** *** The ingest calls with the domain error of [math.sqrt] *)

Section IngestWithDomainError.

Variable sqrt_raises : R -> R -> R -> R -> bool.

Lemma checked_fuse_ais_only_eq now a s :
  Checked._fuse_ais_only sqrt_raises now a s =
  match Checked._find_matching_radar sqrt_raises s (AISTarget.lat a) (AISTarget.lon a) with
  | Checked.ValueError => Checked.Raised s
  | Checked.Computed _ => Checked.Returned (_fuse_ais_only now a s)
  end.
Proof.
  unfold Checked._fuse_ais_only, _fuse_ais_only.
  destruct (Checked._find_matching_radar _ _ _ _) as [o|] eqn:E; [|reflexivity].
  rewrite (checked_find_matching_radar_returns _ _ _ _ _ E).
  destruct o; reflexivity.
Qed.

(** [add_ais_target] raises exactly when its search does, with the pool
    written; otherwise it ends as it does over the reals. *)
Lemma checked_add_ais_target_eq now a s :
  Checked.add_ais_target sqrt_raises now a s =
  match Checked._find_matching_radar sqrt_raises s (AISTarget.lat a) (AISTarget.lon a) with
  | Checked.ValueError =>
      Checked.Raised (with_ais_targets (setitem (AISTarget.mmsi a) a (ais_targets s)) s)
  | Checked.Computed _ => Checked.Returned (add_ais_target now a s)
  end.
Proof.
  unfold Checked.add_ais_target, add_ais_target.
  set (s1 := with_ais_targets _ s).
  assert (Hc : Checked._find_matching_radar sqrt_raises s1 (AISTarget.lat a) (AISTarget.lon a)
               = Checked._find_matching_radar sqrt_raises s (AISTarget.lat a) (AISTarget.lon a))
    by (apply checked_scan_radar_ext; reflexivity).
  assert (Hi : _find_matching_radar s1 (AISTarget.lat a) (AISTarget.lon a)
               = _find_matching_radar s (AISTarget.lat a) (AISTarget.lon a))
    by (apply scan_radar_ext; reflexivity).
  rewrite checked_fuse_ais_only_eq, Hc, Hi.
  destruct (Checked._find_matching_radar sqrt_raises s _ _) as [o|] eqn:E; [|reflexivity].
  rewrite (checked_find_matching_radar_returns _ _ _ _ _ E).
  destruct o; reflexivity.
Qed.

(** [add_radar_target] raises exactly when its search does, with the pool
    written; otherwise it ends as it does over the reals. *)
Lemma checked_add_radar_target_eq now r s :
  Checked.add_radar_target sqrt_raises now r s =
  match Checked._find_matching_ais sqrt_raises s
          (fst (radar_geo s r)) (snd (radar_geo s r)) with
  | Checked.ValueError =>
      Checked.Raised
        (with_radar_targets (setitem (RadarTarget.target_id r) r (radar_targets s)) s)
  | Checked.Computed _ => Checked.Returned (add_radar_target now r s)
  end.
Proof.
  unfold Checked.add_radar_target, Checked._fuse_radar_target,
    add_radar_target, _fuse_radar_target.
  set (s1 := with_radar_targets _ s).
  change (radar_geo s1 r) with (radar_geo s r).
  destruct (radar_geo s r) as [lat lon]. cbn [fst snd].
  change (Checked._find_matching_ais sqrt_raises s1 lat lon)
    with (Checked._find_matching_ais sqrt_raises s lat lon).
  change (_find_matching_ais s1 lat lon) with (_find_matching_ais s lat lon).
  destruct (Checked._find_matching_ais sqrt_raises s lat lon) as [o|] eqn:E; [|reflexivity].
  rewrite (checked_find_matching_ais_returns _ _ _ _ _ E).
  destruct o; reflexivity.
Qed.

End IngestWithDomainError.

(** X8: [add_ais_target] returns whenever the distance from the contact
    to every radar contact of the pool can be computed, and when it
    returns it has stored exactly one track: the track holds the contact,
    is stamped with the current time and is reported to the callback when
    one is registered; it is [F<mmsi>], fused with the first radar
    contact within the gate, when there is one, and then the MMSI joins
    [matched_ais]; otherwise it is [A<mmsi>]; no other track is touched.
    When [math.sqrt] raises instead, the contact is in the pool and
    nothing else has changed: no track is stored and none reported. *)
Theorem add_ais_target_stores_one_track
    (sqrt_raises : R -> R -> R -> R -> bool)
    (now : datetime) (a : AISTarget.t) (s : TargetFusion.t) :
  let near := fun q => radar_distance s (AISTarget.lat a) (AISTarget.lon a) q
                       < association_distance s in
  (Forall (radar_computable sqrt_raises s (AISTarget.lat a) (AISTarget.lon a))
          (values (radar_targets s)) ->
   exists s', Checked.add_ais_target sqrt_raises now a s = Checked.Returned s') /\
  (forall s', Checked.add_ais_target sqrt_raises now a s = Checked.Returned s' ->
   exists f,
     FusedTarget.ais_target f = Some a /\
     FusedTarget.timestamp f = now /\
     get (FusedTarget.fused_id f) (fused_targets s') = Some f /\
     (forall k, k <> FusedTarget.fused_id f ->
                get k (fused_targets s') = get k (fused_targets s)) /\
     notified s' = notified s ++ (if callback s then [f] else []) /\
     ((exists r, first_such near (values (radar_targets s)) r /\
                 f = fused_track s now r a /\
                 matched_ais s' = {[ AISTarget.mmsi a ]} ∪ matched_ais s)
      \/ (Forall (fun q => ~ near q) (values (radar_targets s)) /\
          f = ais_track now a /\
          matched_ais s' = matched_ais s))) /\
  (forall s', Checked.add_ais_target sqrt_raises now a s = Checked.Raised s' ->
   s' = with_ais_targets (setitem (AISTarget.mmsi a) a (ais_targets s)) s /\
   exists q, In q (values (radar_targets s)) /\
             ~ radar_computable sqrt_raises s (AISTarget.lat a) (AISTarget.lon a) q).
Proof.
  intros near. rewrite checked_add_ais_target_eq. split; [|split].
  - intros Hall. rewrite (checked_find_matching_radar_computable _ _ _ _ Hall).
    eexists. reflexivity.
  - intros s' Hret.
    destruct (Checked._find_matching_radar _ _ _ _); [|discriminate Hret].
    injection Hret as <-. exact (add_ais_target_postcondition now a s).
  - intros s' Hraise.
    destruct (Checked._find_matching_radar _ _ _ _) eqn:E; [discriminate Hraise|].
    injection Hraise as <-. split; [reflexivity|].
    destruct (checked_scan_radar_raises _ _ _ _ _ E) as (q & Hq & Hr).
    exists q. split; [exact Hq|]. unfold radar_computable. rewrite Hr. discriminate.
Qed.

(** X9: [add_radar_target] returns whenever the distance from the
    converted position of the contact to every unmatched AIS contact can
    be computed, and when it returns it has stored exactly one track: the
    track holds the contact at its converted position, is stamped with the
    current time and is reported to the callback when one is registered;
    it is [F<mmsi>] of the first unmatched AIS contact within the gate of
    that position, when there is one, and then the MMSI joins
    [matched_ais]; otherwise it is [R<target_id>]; no other track is
    touched.  When [math.sqrt] raises instead, the contact is in the pool
    and nothing else has changed: no track is stored and none reported. *)
Theorem add_radar_target_stores_one_track
    (sqrt_raises : R -> R -> R -> R -> bool)
    (now : datetime) (r : RadarTarget.t) (s : TargetFusion.t) :
  let lat := fst (radar_geo s r) in
  let lon := snd (radar_geo s r) in
  let near := fun b => ais_distance lat lon b < association_distance s in
  (Forall (ais_computable sqrt_raises lat lon) (unmatched_ais s) ->
   exists s', Checked.add_radar_target sqrt_raises now r s = Checked.Returned s') /\
  (forall s', Checked.add_radar_target sqrt_raises now r s = Checked.Returned s' ->
   exists f,
     FusedTarget.radar_target f = Some r /\
     FusedTarget.timestamp f = now /\
     (FusedTarget.lat f, FusedTarget.lon f) = radar_geo s r /\
     get (FusedTarget.fused_id f) (fused_targets s') = Some f /\
     (forall k, k <> FusedTarget.fused_id f ->
                get k (fused_targets s') = get k (fused_targets s)) /\
     notified s' = notified s ++ (if callback s then [f] else []) /\
     ((exists a, first_such near (unmatched_ais s) a /\
                 f = fused_track s now r a /\
                 matched_ais s' = {[ AISTarget.mmsi a ]} ∪ matched_ais s)
      \/ (Forall (fun b => ~ near b) (unmatched_ais s) /\
          f = radar_track s now r /\
          matched_ais s' = matched_ais s))) /\
  (forall s', Checked.add_radar_target sqrt_raises now r s = Checked.Raised s' ->
   s' = with_radar_targets (setitem (RadarTarget.target_id r) r (radar_targets s)) s /\
   exists b, In b (unmatched_ais s) /\ ~ ais_computable sqrt_raises lat lon b).
Proof.
  intros lat lon near. rewrite checked_add_radar_target_eq. fold lat lon.
  split; [|split].
  - intros Hall. rewrite (checked_find_matching_ais_computable _ _ _ _ Hall).
    eexists. reflexivity.
  - intros s' Hret.
    destruct (Checked._find_matching_ais _ _ _ _); [|discriminate Hret].
    injection Hret as <-. exact (add_radar_target_postcondition now r s).
  - intros s' Hraise.
    destruct (Checked._find_matching_ais _ _ _ _) eqn:E; [discriminate Hraise|].
    injection Hraise as <-. split; [reflexivity|].
    destruct (checked_scan_ais_raises _ _ _ _ _ _ E) as (b & Hb & Hm & Hr).
    exists b. split.
    + unfold unmatched_ais. apply filter_In. split; [exact Hb|].
      apply negb_true_iff, bool_decide_eq_false. exact Hm.
    + unfold ais_computable. rewrite Hr. discriminate.
Qed.

(** The radar contact at the radar itself is seen at the radar origin. *)
Lemma radar_at_origin_seen config cb lon lat s :
  s = blank config cb lon lat \/ radar_origin s = (lon, lat) ->
  radar_geo s radar_at_origin = (lat, lon).
Proof.
  intros Hs. assert (Ho : radar_origin s = (lon, lat)) by (destruct Hs as [->|]; auto).
  unfold radar_geo, _radar_to_geo. rewrite Ho.
  cbn [RadarTarget.distance_nm RadarTarget.bearing_deg radar_at_origin fst snd].
  f_equal; unfold Rdiv; ring.
Qed.

(** X8 on an engine at (8, 0) that holds the radar contact at the radar:
    the report of an AIS contact at (0, 0.0167) returns. *)
Lemma add_ais_target_stores_one_track_witness :
  let s := add_radar_target 0%Z radar_at_origin (blank default_config false 0 8) in
  Forall (radar_computable sample_rounding s (AISTarget.lat ais1) (AISTarget.lon ais1))
         (values (radar_targets s)) /\
  exists s', Checked.add_ais_target sample_rounding 0%Z ais1 s = Checked.Returned s'.
Proof.
  cbn zeta.
  set (s := add_radar_target 0%Z radar_at_origin (blank default_config false 0 8)).
  assert (Hall : Forall (radar_computable sample_rounding s
                           (AISTarget.lat ais1) (AISTarget.lon ais1))
                        (values (radar_targets s))).
  { change (values (radar_targets s)) with [radar_at_origin].
    repeat constructor. apply sample_rounding_false;
      cbn [AISTarget.lat ais1]; lra. }
  split; [exact Hall|].
  exact (proj1 (add_ais_target_stores_one_track sample_rounding 0%Z ais1 s) Hall).
Defined.

(** The error path: on the same engine the report of the AIS contact at
    the antipode of the radar raises; the contact is in the pool and no
    track has been stored. *)
Lemma antipodal_ais_report_raises :
  let s := add_radar_target 0%Z radar_at_origin (blank default_config false 0 8) in
  Checked.add_ais_target sample_rounding 0%Z ais_antipode s
  = Checked.Raised
      (with_ais_targets (setitem (AISTarget.mmsi ais_antipode) ais_antipode (ais_targets s)) s).
Proof.
  cbn zeta.
  set (s := add_radar_target 0%Z radar_at_origin (blank default_config false 0 8)).
  rewrite checked_add_ais_target_eq.
  assert (Hgeo : radar_geo s radar_at_origin = (8, 0))
    by (apply (radar_at_origin_seen default_config false 0 8); right; reflexivity).
  unfold Checked._find_matching_radar.
  change (values (radar_targets s)) with [radar_at_origin].
  rewrite checked_scan_radar_cons, Hgeo. cbn [fst snd AISTarget.lat AISTarget.lon ais_antipode].
  replace (sample_rounding (-8) 180 8 0) with true; [reflexivity|].
  unfold sample_rounding, Reqb.
  destruct (Req_dec_T (-8) 8); [lra|].
  destruct (Req_dec_T (-8) (-8)); [|contradiction].
  destruct (Req_dec_T 180 180); [|contradiction].
  destruct (Req_dec_T 8 8); [|contradiction].
  destruct (Req_dec_T 0 0); [|contradiction]. reflexivity.
Qed.

(** X9 on the default engine that holds the AIS contact [ais1]: the
    report of the radar contact one mile east returns. *)
Lemma add_radar_target_stores_one_track_witness :
  let s := add_ais_target 0%Z ais1 engine0 in
  Forall (ais_computable sample_rounding (fst (radar_geo s radar1)) (snd (radar_geo s radar1)))
         (unmatched_ais s) /\
  exists s', Checked.add_radar_target sample_rounding 0%Z radar1 s = Checked.Returned s'.
Proof.
  cbn zeta. set (s := add_ais_target 0%Z ais1 engine0).
  assert (Hgeo : radar_geo s radar1 = (0, 1852 / 111000)) by exact radar1_seen.
  assert (Hall : Forall (ais_computable sample_rounding
                           (fst (radar_geo s radar1)) (snd (radar_geo s radar1)))
                        (unmatched_ais s)).
  { rewrite Hgeo. cbn [fst snd]. change (unmatched_ais s) with [ais1].
    repeat constructor. apply sample_rounding_false; lra. }
  split; [exact Hall|].
  exact (proj1 (add_radar_target_stores_one_track sample_rounding 0%Z radar1 s) Hall).
Defined.

(** The error path: on an engine at (8, 0) that holds the AIS contact at
    the antipode, the report of the radar contact at the radar raises;
    the contact is in the pool and only the AIS-only track is live. *)
Lemma antipodal_radar_report_raises :
  let s := add_ais_target 0%Z ais_antipode (blank default_config false 0 8) in
  Checked.add_radar_target sample_rounding 0%Z radar_at_origin s
  = Checked.Raised
      (with_radar_targets
         (setitem (RadarTarget.target_id radar_at_origin) radar_at_origin (radar_targets s)) s).
Proof.
  cbn zeta. set (s := add_ais_target 0%Z ais_antipode (blank default_config false 0 8)).
  rewrite checked_add_radar_target_eq.
  assert (Hgeo : radar_geo s radar_at_origin = (8, 0))
    by (apply (radar_at_origin_seen default_config false 0 8); right; reflexivity).
  rewrite Hgeo. cbn [fst snd]. unfold Checked._find_matching_ais.
  change (values (ais_targets s)) with [ais_antipode].
  change (matched_ais s) with (∅ : gset string).
  rewrite checked_scan_ais_cons, bool_decide_eq_false_2 by set_solver.
  cbn [AISTarget.lat AISTarget.lon ais_antipode].
  replace (sample_rounding 8 0 (-8) 180) with true; [reflexivity|].
  unfold sample_rounding, Reqb.
  destruct (Req_dec_T 8 8); [|contradiction].
  destruct (Req_dec_T 0 0); [|contradiction].
  destruct (Req_dec_T (-8) (-8)); [|contradiction].
  destruct (Req_dec_T 180 180); [|contradiction]. reflexivity.
Qed.

(** ** Radar reports after a match *)

Lemma tagged_id_inj (tag : Ascii.ascii) (x y : string) :
  String.append (String tag "") x = String.append (String tag "") y -> x = y.
Proof. intros E. change (String tag x = String tag y) in E. congruence. Qed.

Lemma tagged_id_ne (tag tag' : Ascii.ascii) (x y : string) :
  tag <> tag' -> String.append (String tag "") x <> String.append (String tag' "") y.
Proof.
  intros Hne E. change (String tag x = String tag' y) in E. congruence.
Qed.

(** X10: once an MMSI is matched, no radar report writes its fused track
    again: [add_radar_target] leaves the entry [F<mmsi>] as it is, so only
    an AIS report can refresh the track's timestamp. *)
Theorem radar_never_rewrites_matched_track
    (now : datetime) (r : RadarTarget.t) (s : TargetFusion.t) (m : string) :
  m ∈ matched_ais s ->
  get (String.append "F" m) (fused_targets (add_radar_target now r s)) =
  get (String.append "F" m) (fused_targets s).
Proof.
  intros Hm. unfold add_radar_target, _fuse_radar_target.
  set (s1 := with_radar_targets _ s).
  destruct (radar_geo s1 r) as [rlat rlon].
  destruct (_find_matching_ais s1 rlat rlon) as [a|] eqn:Hfind.
  - apply scan_ais_sound in Hfind as (_ & Hnot & _).
    autorewrite with fusion.
    cbn [fused_targets with_fused_targets with_matched_ais with_radar_targets s1].
    apply get_setitem_ne. intros E. apply tagged_id_inj in E.
    apply Hnot. rewrite E. exact Hm.
  - autorewrite with fusion.
    cbn [fused_targets with_fused_targets with_radar_targets s1].
    apply get_setitem_ne, tagged_id_ne. discriminate.
Qed.

Lemma radar_never_rewrites_matched_track_witness :
  let s := run [Add_ais_target 0%Z ais1; Add_radar_target 1%Z radar1] engine0 in
  "200100001"%string ∈ matched_ais s /\
  get "F200100001" (fused_targets (add_radar_target 2%Z radar1 s)) =
  get "F200100001" (fused_targets s).
Proof.
  cbn zeta.
  assert (H : "200100001"%string ∈
              matched_ais (run [Add_ais_target 0%Z ais1; Add_radar_target 1%Z radar1] engine0)).
  { destruct (ais_then_radar default_config false 0 0 0%Z 1%Z radar1 ais1
                radar1_ais1_within_gate) as [_ E].
    cbn zeta in E. change (blank default_config false 0 0) with engine0 in E.
    rewrite E. apply elem_of_union_l, elem_of_singleton. reflexivity. }
  split; [exact H|].
  exact (radar_never_rewrites_matched_track 2%Z radar1 _ "200100001" H).
Defined.

(** The configuration of the engine is not touched by ingest or reads. *)
Lemma step_settings s c :
  association_distance (step s c) = association_distance s /\
  max_age (step s c) = max_age s /\
  radar_origin (step s c) =
    match c with Set_radar_origin lon lat => (lon, lat) | _ => radar_origin s end.
Proof.
  destruct c; cbn [step].
  - repeat split; reflexivity.
  - unfold add_radar_target, _fuse_radar_target.
    destruct (radar_geo _ target) as [rlat rlon].
    destruct (_find_matching_ais _ rlat rlon); autorewrite with fusion;
      repeat split; reflexivity.
  - unfold add_ais_target. destruct (_find_matching_radar _ _ _) as [r|].
    + destruct (radar_geo _ r) as [rlat rlon]. autorewrite with fusion.
      repeat split; reflexivity.
    + unfold _fuse_ais_only. destruct (_find_matching_radar _ _ _);
        autorewrite with fusion; repeat split; reflexivity.
  - repeat split; reflexivity.
  - rewrite get_stats_state. repeat split; reflexivity.
Qed.

Section RadarResent.
Variables (config : fusion_config) (cb : bool) (lon lat : R).
Variables (t1 t2 t3 : datetime) (r : RadarTarget.t) (a : AISTarget.t).

Let s0 := blank config cb lon lat.

Hypothesis within_gate :
  radar_distance s0 (AISTarget.lat a) (AISTarget.lon a) r < association_distance s0.

Lemma radar_resent_tracks :
  fused_targets
    (run [Add_ais_target t1 a; Add_radar_target t2 r; Add_radar_target t3 r] s0) =
  [(String.append "A" (AISTarget.mmsi a), ais_track t1 a);
   (String.append "F" (AISTarget.mmsi a), fused_track s0 t2 r a);
   (String.append "R" (RadarTarget.target_id r), radar_track s0 t3 r)].
Proof.
  change (run [Add_ais_target t1 a; Add_radar_target t2 r; Add_radar_target t3 r] s0)
    with (add_radar_target t3 r (run [Add_ais_target t1 a; Add_radar_target t2 r] s0)).
  destruct (ais_then_radar config cb lon lat t1 t2 r a within_gate) as [Ef Em].
  cbn zeta in Ef, Em. fold s0 in Ef, Em.
  set (s2 := run [Add_ais_target t1 a; Add_radar_target t2 r] s0) in *.
  assert (Ea : ais_targets s2 = [(AISTarget.mmsi a, a)]).
  { subst s2. unfold run. cbn [fold_left].
    rewrite step_ais_targets, step_ais_targets. reflexivity. }
  assert (Eo : radar_geo s2 r = radar_geo s0 r).
  { unfold radar_geo. replace (radar_origin s2) with (radar_origin s0); [reflexivity|].
    subst s2. unfold run. cbn [fold_left].
    rewrite (proj2 (proj2 (step_settings _ _))), (proj2 (proj2 (step_settings _ _))).
    reflexivity. }
  unfold add_radar_target, _fuse_radar_target.
  set (s3 := with_radar_targets _ s2).
  change (radar_geo s3 r) with (radar_geo s2 r). rewrite Eo.
  assert (Hnone : forall rlat rlon, _find_matching_ais s3 rlat rlon = None).
  { intros rlat rlon. unfold _find_matching_ais.
    change (ais_targets s3) with (ais_targets s2). change (matched_ais s3) with (matched_ais s2).
    rewrite Ea, Em. cbn [values map snd]. rewrite scan_ais_cons.
    rewrite bool_decide_eq_true_2; [reflexivity|].
    apply elem_of_union_l, elem_of_singleton. reflexivity. }
  unfold radar_track.
  destruct (radar_geo s0 r) as [rlat rlon] eqn:Eg. cbn [fst snd].
  rewrite Hnone. autorewrite with fusion.
  cbn [fused_targets with_fused_targets with_radar_targets s3]. rewrite Ef.
  reflexivity.
Qed.

End RadarResent.

(** X11: a radar contact that has been fused with an AIS contact is not
    fused again when it is reported once more.  After AIS, radar, radar
    on a new engine the live set holds three tracks for the one vessel:
    [A<mmsi>], [F<mmsi>] still stamped with the time of the first radar
    report, and a radar-only [R<target_id>] stamped with the second. *)
Theorem radar_resend_leaves_fused_track_stale
    (config : fusion_config) (cb : bool) (lon lat : R) (t1 t2 t3 : datetime)
    (r : RadarTarget.t) (a : AISTarget.t) :
  let s0 := blank config cb lon lat in
  radar_distance s0 (AISTarget.lat a) (AISTarget.lon a) r < association_distance s0 ->
  let s := run [Add_ais_target t1 a; Add_radar_target t2 r; Add_radar_target t3 r] s0 in
  keys (fused_targets s) =
    [String.append "A" (AISTarget.mmsi a); String.append "F" (AISTarget.mmsi a);
     String.append "R" (RadarTarget.target_id r)] /\
  get (String.append "F" (AISTarget.mmsi a)) (fused_targets s)
    = Some (fused_track s0 t2 r a) /\
  get (String.append "R" (RadarTarget.target_id r)) (fused_targets s)
    = Some (radar_track s0 t3 r) /\
  FusedTarget.timestamp (fused_track s0 t2 r a) = t2.
Proof.
  intros s0 Hd s. subst s s0.
  rewrite (radar_resent_tracks config cb lon lat t1 t2 t3 r a Hd).
  split; [reflexivity|]. split; [|split; [|reflexivity]].
  - simpl. rewrite String.eqb_refl. reflexivity.
  - simpl. rewrite String.eqb_refl. reflexivity.
Qed.

Lemma radar_resend_leaves_fused_track_stale_witness :
  let s := run [Add_ais_target 0%Z ais1; Add_radar_target 1%Z radar1;
                Add_radar_target 2%Z radar1] engine0 in
  radar_distance engine0 (AISTarget.lat ais1) (AISTarget.lon ais1) radar1
    < association_distance engine0 /\
  keys (fused_targets s) = ["A200100001"; "F200100001"; "R1"]%string.
Proof.
  cbn zeta. split; [exact radar1_ais1_within_gate|].
  exact (proj1 (radar_resend_leaves_fused_track_stale default_config false 0 0
                  0%Z 1%Z 2%Z radar1 ais1 radar1_ais1_within_gate)).
Defined.

(** ** Reads *)

Lemma age_mono now now' f : (now <= now')%Z -> age now f <= age now' f.
Proof.
  intros H. unfold age, total_seconds.
  apply Rmult_le_compat_r; [lra|]. apply IZR_le. lia.
Qed.

Lemma is_expired_mono now now' max_age f :
  (now <= now')%Z -> is_expired now max_age f = true -> is_expired now' max_age f = true.
Proof.
  intros H E. apply is_expired_age in E. apply is_expired_age.
  pose proof (age_mono now now' f H). lra.
Qed.

Lemma values_filter {V} (p : V -> bool) (d : dict V) :
  values (List.filter (fun kv => p (snd kv)) d) = List.filter p (values d).
Proof.
  unfold values. induction d as [|[k v] d IH]; [reflexivity|].
  cbn [List.filter map snd]. destruct (p v); cbn [map snd]; rewrite IH; reflexivity.
Qed.

(** X12: a read returns the live tracks that are not expired, in the
    order in which their identities entered the live set, and an earlier
    read does not change what a later read returns or leaves behind; in
    particular a second read at the same time returns the same list and
    changes nothing. *)
Theorem later_read_subsumes_earlier
    (config : fusion_config) (cb : bool) (calls : list call) (now now' : datetime) :
  (now <= now')%Z ->
  let s := run calls (fresh config cb) in
  snd (get_fused_targets now s) =
    List.filter (fun f => negb (is_expired now (max_age s) f)) (values (fused_targets s)) /\
  get_fused_targets now' (fst (get_fused_targets now s)) = get_fused_targets now' s.
Proof.
  intros Hle s.
  destruct (inv_run calls _ (inv_fresh config cb)) as [_ _ Hwf _]. fold s in Hwf.
  rewrite (get_fused_targets_spec now s Hwf). cbn [fst snd]. split.
  - apply (values_filter (fun f => negb (is_expired now (max_age s) f))).
  - set (keep := fun kv : string * FusedTarget.t =>
                   negb (is_expired now (max_age s) (snd kv))).
    set (keep' := fun kv : string * FusedTarget.t =>
                    negb (is_expired now' (max_age s) (snd kv))).
    rewrite (get_fused_targets_spec now' s Hwf).
    rewrite get_fused_targets_spec
      by (cbn [fused_targets with_fused_targets]; apply wf_filter, Hwf).
    cbn [fused_targets with_fused_targets max_age].
    fold keep keep'.
    assert (E : List.filter keep' (List.filter keep (fused_targets s)) =
                List.filter keep' (fused_targets s)).
    { rewrite filter_filter. apply filter_ext. intros kv. unfold keep, keep'.
      destruct (is_expired now (max_age s) (snd kv)) eqn:E1; [|reflexivity].
      rewrite (is_expired_mono now now' _ _ Hle E1). reflexivity. }
    rewrite E. reflexivity.
Qed.

Lemma later_read_subsumes_earlier_witness :
  (0 <= 0)%Z /\
  let s := run [Add_ais_target 0%Z ais_far] (fresh default_config false) in
  get_fused_targets 0%Z (fst (get_fused_targets 0%Z s)) = get_fused_targets 0%Z s.
Proof.
  assert (H : (0 <= 0)%Z) by lia.
  split; [exact H|].
  exact (proj2 (later_read_subsumes_earlier default_config false
                  [Add_ais_target 0%Z ais_far] 0%Z 0%Z H)).
Defined.

(** ** Statistics *)

Lemma count_source_partition (l : list FusedTarget.t) :
  Forall classified l ->
  length l = (count_source "radar" l + count_source "ais" l + count_source "fused" l)%nat.
Proof.
  unfold count_source. induction l as [|f l IH]; intros Hall; [reflexivity|].
  inversion Hall as [|? ? Hf Hrest]; subst. specialize (IH Hrest).
  destruct Hf as [_ [[E _]|[[E _]|[E _]]]]; simpl; rewrite E; simpl; lia.
Qed.

(** X13: the statistics add up.  In every reachable state [get_stats]
    reports the sizes of the two pools, the number of live tracks left by
    the read it performs, and a split of that number into radar-only,
    AIS-only and fused tracks with nothing left over. *)
Theorem stats_add_up
    (config : fusion_config) (cb : bool) (calls : list call) (now : datetime) :
  let s := run calls (fresh config cb) in
  let st := snd (get_stats now s) in
  fst (get_stats now s) = fst (get_fused_targets now s) /\
  stat_radar_targets st = length (radar_targets s) /\
  stat_ais_targets st = length (ais_targets s) /\
  stat_fused_targets st = length (snd (get_fused_targets now s)) /\
  stat_fused_targets st =
    (stat_radar_only st + stat_ais_only st + stat_fused_count st)%nat.
Proof.
  intros s st. subst st.
  destruct (inv_run calls _ (inv_fresh config cb)) as [_ _ Hwf Hok]. fold s in Hwf, Hok.
  unfold get_stats. rewrite (get_fused_targets_spec now s Hwf). cbn [fst snd].
  cbn [stat_radar_targets stat_ais_targets stat_fused_targets stat_radar_only
       stat_ais_only stat_fused_count radar_targets ais_targets with_fused_targets].
  repeat split. apply count_source_partition.
  apply Forall_forall. intros f Hin. apply list_elem_of_In in Hin.
  apply in_map_iff in Hin as [kv [E Hin]]. subst f.
  apply filter_In in Hin as [Hin _]. rewrite Forall_forall in Hok.
  apply track_ok_classified, Hok, list_elem_of_In, Hin.
Qed.

(** The bookkeeping at the AIS-then-radar run: the matched MMSI is a known AIS identity. *)
Lemma engine_bookkeeping_witness :
  let s := run [Add_ais_target 0%Z ais1; Add_radar_target 1%Z radar1]
               (fresh default_config false) in
  "200100001"%string ∈ matched_ais s /\ "200100001"%string ∈ keys (ais_targets s).
Proof.
  cbn zeta.
  assert (H : "200100001"%string ∈
              matched_ais (run [Add_ais_target 0%Z ais1; Add_radar_target 1%Z radar1]
                               (fresh default_config false))).
  { destruct (ais_then_radar default_config false 0 0 0%Z 1%Z radar1 ais1
                radar1_ais1_within_gate) as [_ E].
    cbn zeta in E. change (blank default_config false 0 0) with (fresh default_config false) in E.
    rewrite E. apply elem_of_union_l, elem_of_singleton. reflexivity. }
  split; [exact H|].
  destruct (engine_bookkeeping default_config false
              [Add_ais_target 0%Z ais1; Add_radar_target 1%Z radar1]) as (_ & _ & Hm & _).
  exact (Hm _ H).
Defined.

(** ** The linear estimator, step by step *)

(** The constant arrays of an estimator are those of its constructor. *)
Lemma estimator_constants kf :
  estimator kf ->
  KalmanFilter.F kf = transition (KalmanFilter.dt kf) /\
  KalmanFilter.H kf = observation.
Proof.
  induction 1 as [dt q r kf E|x y kf _ IH|kf _ IH|x y kf pos kf' _ IH E].
  - injection E as <-. split; reflexivity.
  - exact IH.
  - exact IH.
  - revert E. unfold KalmanFilter.update.
    destruct (KalmanFilter.initialized kf); cbn [negb].
    + destruct (Matrix.inv _) as [S_inv|e]; cbn [bind]; [|discriminate].
      intros E. apply Returns_snd in E. subst kf'. exact IH.
    + intros E. apply Returns_snd in E. subst kf'. exact IH.
Qed.

Ltac real_units :=
  repeat first [rewrite Rmult_1_l | rewrite Rmult_0_l | rewrite Rmult_1_r
               | rewrite Rmult_0_r | rewrite Rplus_0_l | rewrite Rplus_0_r].

Lemma transition_column dt x y vx vy :
  transition dt @ [[x]; [y]; [vx]; [vy]] = [[x + dt * vx]; [y + dt * vy]; [vx]; [vy]].
Proof.
  rewrite mul_column. unfold transition, Matrix.dot.
  cbn [map zip_with fold_right]. real_units. reflexivity.
Qed.

Lemma observation_column x y vx vy :
  observation @ [[x]; [y]; [vx]; [vy]] = [[x]; [y]].
Proof.
  rewrite mul_column. unfold observation, Matrix.dot.
  cbn [map zip_with fold_right]. real_units. reflexivity.
Qed.

(** X14: [predict] is one constant-velocity step.  On an estimator whose
    state is (x, y, vx, vy) it moves the position by [dt] times the
    velocity, keeps the velocity, returns the new position, and does not
    change whether the estimator is initialized. *)
Theorem predict_is_constant_velocity_step
    (kf : KalmanFilter.t) (x y vx vy : R) :
  estimator kf ->
  KalmanFilter.state kf = [[x]; [y]; [vx]; [vy]] ->
  let dt := KalmanFilter.dt kf in
  fst (KalmanFilter.predict kf) = (x + dt * vx, y + dt * vy) /\
  KalmanFilter.state (snd (KalmanFilter.predict kf))
    = [[x + dt * vx]; [y + dt * vy]; [vx]; [vy]] /\
  KalmanFilter.get_velocity (snd (KalmanFilter.predict kf)) = (vx, vy) /\
  KalmanFilter.initialized (snd (KalmanFilter.predict kf)) = KalmanFilter.initialized kf.
Proof.
  intros Hest Hst dt. destruct (estimator_constants kf Hest) as [HF _].
  unfold KalmanFilter.predict, KalmanFilter.get_velocity.
  cbn [fst snd KalmanFilter.state KalmanFilter.initialized KalmanFilter.with_state_P].
  rewrite HF, Hst, transition_column. repeat split; reflexivity.
Qed.

Lemma dot_zero row : Matrix.dot row [0; 0] = 0.
Proof.
  unfold Matrix.dot. destruct row as [|a [|b [|c row]]]; cbn [zip_with fold_right];
    real_units; reflexivity.
Qed.

Lemma mul_zero_column K :
  K @ [[0]; [0]] = map (fun _ => [0]) K.
Proof.
  unfold Matrix.mul. cbn [Matrix.transpose length seq map nth].
  apply map_ext. intros row. cbn [map]. rewrite dot_zero. reflexivity.
Qed.

(** X15: a measurement that agrees with the current position estimate is a
    fixed point of the correction.  On an initialized estimator with state
    (x, y, vx, vy), [update x y] either raises (singular innovation
    covariance) or returns (x, y) and leaves the state vector as it was. *)
Theorem update_at_estimate_keeps_state
    (kf : KalmanFilter.t) (x y vx vy : R) :
  estimator kf ->
  KalmanFilter.initialized kf = true ->
  KalmanFilter.state kf = [[x]; [y]; [vx]; [vy]] ->
  KalmanFilter.update x y kf = Raises LinAlgError \/
  exists kf',
    KalmanFilter.update x y kf = Returns ((x, y), kf') /\
    KalmanFilter.state kf' = [[x]; [y]; [vx]; [vy]].
Proof.
  intros Hest Hinit Hst.
  destruct (estimator_constants kf Hest) as [_ HH].
  pose proof (estimator_shaped kf Hest) as [_ HP _ _ _].
  unfold KalmanFilter.update. rewrite Hinit. cbn [negb].
  destruct (Matrix.inv _) as [S_inv|e]; cbn [bind]; [|left; destruct e; reflexivity].
  right.
  set (K := KalmanFilter.P kf @ Matrix.transpose (KalmanFilter.H kf) @ S_inv).
  set (y_res := Matrix.sub [[x]; [y]] (KalmanFilter.H kf @ KalmanFilter.state kf)).
  assert (Hres : y_res = [[0]; [0]]).
  { unfold y_res. rewrite HH, Hst, observation_column.
    unfold Matrix.sub. cbn [zip_with]. rewrite !Rminus_diag. reflexivity. }
  assert (HK : length K = 4%nat) by (unfold K; rewrite !mul_length; exact HP).
  assert (Hstate : Matrix.add (KalmanFilter.state kf) (K @ y_res) = [[x]; [y]; [vx]; [vy]]).
  { rewrite Hres, mul_zero_column, Hst.
    destruct K as [|k1 [|k2 [|k3 [|k4 [|]]]]]; try discriminate HK.
    unfold Matrix.add. cbn [map zip_with]. rewrite !Rplus_0_r. reflexivity. }
  eexists. split.
  - rewrite Hstate. reflexivity.
  - cbn [KalmanFilter.state KalmanFilter.with_state_P]. reflexivity.
Qed.

Lemma sample_filter_built : KalmanFilter.__init__ 1 0.1 1 = Returns sample_filter.
Proof. reflexivity. Qed.

Lemma sample_filter_estimator : estimator sample_filter_at_3_4.
Proof. apply est_initialize, (est_new 1 0.1 1), sample_filter_built. Qed.

Lemma predict_is_constant_velocity_step_witness :
  estimator sample_filter_at_3_4 /\
  KalmanFilter.state sample_filter_at_3_4 = [[3]; [4]; [0]; [0]] /\
  fst (KalmanFilter.predict sample_filter_at_3_4) = (3 + 1 * 0, 4 + 1 * 0).
Proof.
  assert (Hst : KalmanFilter.state sample_filter_at_3_4 = [[3]; [4]; [0]; [0]])
    by reflexivity.
  split; [exact sample_filter_estimator|]. split; [exact Hst|].
  exact (proj1 (predict_is_constant_velocity_step _ 3 4 0 0
                  sample_filter_estimator Hst)).
Defined.

Lemma update_at_estimate_keeps_state_witness :
  estimator sample_filter_at_3_4 /\
  KalmanFilter.initialized sample_filter_at_3_4 = true /\
  KalmanFilter.state sample_filter_at_3_4 = [[3]; [4]; [0]; [0]] /\
  (KalmanFilter.update 3 4 sample_filter_at_3_4 = Raises LinAlgError \/
   exists kf', KalmanFilter.update 3 4 sample_filter_at_3_4 = Returns ((3, 4), kf') /\
               KalmanFilter.state kf' = [[3]; [4]; [0]; [0]]).
Proof.
  assert (Hst : KalmanFilter.state sample_filter_at_3_4 = [[3]; [4]; [0]; [0]])
    by reflexivity.
  assert (Hinit : KalmanFilter.initialized sample_filter_at_3_4 = true) by reflexivity.
  split; [exact sample_filter_estimator|]. split; [exact Hinit|]. split; [exact Hst|].
  exact (update_at_estimate_keeps_state _ 3 4 0 0 sample_filter_estimator Hinit Hst).
Defined.

(** ** The two linear estimators agree *)

Lemma scale_eye4_1 : Matrix.scale (Matrix.eye 4) 1 = Matrix.eye 4.
Proof.
  unfold Matrix.scale, Matrix.eye. cbn [seq map Nat.eqb]. real_units. reflexivity.
Qed.

Lemma agree_new dt q r :
  exists tr kf,
    KFTracker.__init__ dt q r = Returns tr /\
    KalmanFilter.__init__ dt q r = Returns kf /\
    agree tr kf.
Proof. eexists. eexists. split; [reflexivity|]. split; [reflexivity|]. split; reflexivity. Qed.

(** X16: [KFTracker.process] and [KalmanFilter.predict_update] are the same
    filter.  Built with the same parameters the two objects hold the same
    arrays, and from objects that hold the same arrays one step on the
    same measurement returns the same position (or raises the same error)
    and leaves objects that again hold the same arrays. *)
Theorem kftracker_agrees_with_kalmanfilter :
  (forall dt q r, exists tr kf,
      KFTracker.__init__ dt q r = Returns tr /\
      KalmanFilter.__init__ dt q r = Returns kf /\
      agree tr kf) /\
  (forall tr kf mx my,
      estimator kf -> agree tr kf ->
      same_result (KFTracker.process mx my tr) (KalmanFilter.predict_update mx my kf)).
Proof.
  split; [exact agree_new|].
  intros tr kf mx my Hest [HF HH HQ HR Hx HP Hinit].
  pose proof (estimator_shaped kf Hest) as Hshape.
  unfold KFTracker.process, KalmanFilter.predict_update, KalmanFilter.update,
    KalmanFilter.predict.
  cbn [snd KalmanFilter.initialized KalmanFilter.with_state_P KalmanFilter.state
       KalmanFilter.P KalmanFilter.H KalmanFilter.R_ KalmanFilter.F KalmanFilter.Q].
  rewrite Hinit, HF, HH, HQ, HR, Hx, HP.
  destruct (KalmanFilter.initialized kf) eqn:Ei; cbn [negb].
  - destruct (Matrix.inv _) as [S_inv|e]; cbn [bind same_result]; [|reflexivity].
    split; [reflexivity|].
    split; cbn [KFTracker.with_x_P KalmanFilter.with_state_P KFTracker.F KFTracker.H
                KFTracker.Q KFTracker.R_ KFTracker.x KFTracker.P KFTracker.init
                KalmanFilter.F KalmanFilter.H KalmanFilter.Q KalmanFilter.R_
                KalmanFilter.state KalmanFilter.P KalmanFilter.initialized];
      auto.
  - cbn [same_result]. split; [reflexivity|].
    assert (Hcol : col4 (KalmanFilter.F kf @ KalmanFilter.state kf)).
    { apply mul_col4; [apply Hshape|apply Hshape]. }
    destruct Hcol as (a & b & c & d & Hcol).
    split; cbn [KFTracker.with_x_P KalmanFilter.with_state_P KalmanFilter.initialize
                KFTracker.F KFTracker.H KFTracker.Q KFTracker.R_ KFTracker.x
                KFTracker.P KFTracker.init KalmanFilter.F KalmanFilter.H
                KalmanFilter.Q KalmanFilter.R_ KalmanFilter.state KalmanFilter.P
                KalmanFilter.initialized]; auto.
    + rewrite Hcol. reflexivity.
    + symmetry. apply scale_eye4_1.
Qed.

Lemma kftracker_agrees_with_kalmanfilter_witness :
  estimator sample_filter /\ agree sample_tracker sample_filter /\
  same_result (KFTracker.process 10 20 sample_tracker)
              (KalmanFilter.predict_update 10 20 sample_filter).
Proof.
  assert (Hest : estimator sample_filter)
    by (apply (est_new 1 0.1 1), sample_filter_built).
  assert (Hag : agree sample_tracker sample_filter) by (split; reflexivity).
  split; [exact Hest|]. split; [exact Hag|].
  exact (proj2 kftracker_agrees_with_kalmanfilter sample_tracker sample_filter
           10 20 Hest Hag).
Defined.

(** ** The registry *)

Lemma contains_false {V} k (d : dict V) : contains k d = false <-> get k d = None.
Proof. unfold contains. destruct (get k d); split; congruence. Qed.

Lemma get_delitem_ne {V} k k' (d : dict V) : k <> k' -> get k' (delitem k d) = get k' d.
Proof.
  intros Hne. induction d as [|[k0 v0] d IH]; simpl; [reflexivity|].
  destruct (String.eqb_spec k k0) as [E|E]; simpl.
  - destruct (String.eqb_spec k' k0); [congruence|reflexivity].
  - rewrite IH. reflexivity.
Qed.

Lemma get_delitem_eq {V} k (d : dict V) : wf d -> get k (delitem k d) = None.
Proof.
  intros Hwf. rewrite delitem_filter by exact Hwf.
  destruct (get k (List.filter _ d)) as [v|] eqn:E; [|reflexivity].
  apply get_In, filter_In in E as [_ E]. simpl in E.
  rewrite String.eqb_refl in E. discriminate.
Qed.

Lemma wf_delitem {V} k (d : dict V) : wf d -> wf (delitem k d).
Proof. intros Hwf. rewrite delitem_filter by exact Hwf. apply wf_filter, Hwf. Qed.

Lemma Forall_delitem {V} (Q : string * V -> Prop) k (d : dict V) :
  Forall Q d -> Forall Q (delitem k d).
Proof.
  rewrite !Forall_forall. intros H kv Hin. apply H.
  apply list_elem_of_In. apply list_elem_of_In, In_delitem in Hin. exact Hin.
Qed.

Lemma sqrt_zero_speed : sqrt (0 ^ 2 + 0 ^ 2) = 0.
Proof. replace (0 ^ 2 + 0 ^ 2) with 0 by ring. apply sqrt_0. Qed.

(** The estimator that [add_target] files. *)
Lemma add_target_spec target_id x y q r reg :
  exists kf0,
    KalmanFilter.__init__ 1 q r = Returns kf0 /\
    MultiTargetKalmanFilter.add_target target_id x y q r reg =
    Returns (MultiTargetKalmanFilter.mk
               (setitem target_id (KalmanFilter.initialize x y kf0)
                        (MultiTargetKalmanFilter.filters reg))) /\
    estimator (KalmanFilter.initialize x y kf0) /\
    KalmanFilter.initialized (KalmanFilter.initialize x y kf0) = true /\
    KalmanFilter.state (KalmanFilter.initialize x y kf0) = [[x]; [y]; [0]; [0]] /\
    KalmanFilter.F (KalmanFilter.initialize x y kf0) = transition 1.
Proof.
  eexists. split; [reflexivity|]. split; [reflexivity|]. split.
  - apply est_initialize, (est_new 1 q r). reflexivity.
  - repeat split; reflexivity.
Qed.

(** X17: the first report of an identity creates its estimator and cannot
    raise.  [update_target] on an identity that is not in the registry
    files an initialized estimator at (x, y) with zero velocity under that
    identity, returns its snapshot (speed 0), leaves every other identity
    as it was, and a [predict_target] right after returns (x, y). *)
Theorem first_report_creates_estimator
    (reg : MultiTargetKalmanFilter.t) (target_id : string) (x y : R) :
  contains target_id (MultiTargetKalmanFilter.filters reg) = false ->
  exists snapshot reg' kf,
    MultiTargetKalmanFilter.update_target target_id x y reg
      = Returns (Some snapshot, reg') /\
    (sd_x snapshot, sd_y snapshot, sd_vx snapshot, sd_vy snapshot, sd_speed snapshot)
      = (x, y, 0, 0, 0) /\
    get target_id (MultiTargetKalmanFilter.filters reg') = Some kf /\
    KalmanFilter.initialized kf = true /\
    KalmanFilter.state kf = [[x]; [y]; [0]; [0]] /\
    (forall other, other <> target_id ->
       get other (MultiTargetKalmanFilter.filters reg')
       = get other (MultiTargetKalmanFilter.filters reg)) /\
    exists reg'',
      MultiTargetKalmanFilter.predict_target target_id reg' = Returns (Some (x, y), reg'').
Proof.
  intros Habs.
  destruct (add_target_spec target_id x y 0.1 1 reg) as (kf0 & _ & Eadd & _ & Hi & Hst & HF).
  set (kf := KalmanFilter.initialize x y kf0) in *.
  set (reg' := MultiTargetKalmanFilter.mk
                 (setitem target_id kf (MultiTargetKalmanFilter.filters reg))).
  assert (Hget : get target_id (MultiTargetKalmanFilter.filters reg') = Some kf)
    by apply get_setitem_eq.
  exists (KalmanFilter.get_state kf), reg', kf.
  split.
  { unfold MultiTargetKalmanFilter.update_target. rewrite Habs. cbn [negb].
    rewrite Eadd. cbn [bind]. fold reg'. rewrite Hget. reflexivity. }
  split.
  { unfold KalmanFilter.get_state. cbn [sd_x sd_y sd_vx sd_vy sd_speed].
    rewrite Hst. unfold Matrix.get. cbn [nth]. rewrite sqrt_zero_speed. reflexivity. }
  split; [exact Hget|]. split; [exact Hi|]. split; [exact Hst|]. split.
  { intros other Hne. apply get_setitem_ne. congruence. }
  unfold MultiTargetKalmanFilter.predict_target, contains. rewrite Hget. cbn [negb].
  unfold KalmanFilter.predict. rewrite HF, Hst, transition_column.
  unfold Matrix.get. cbn [nth]. real_units. eexists. reflexivity.
Qed.

Lemma first_report_creates_estimator_witness :
  let reg := MultiTargetKalmanFilter.mk empty in
  contains "7" (MultiTargetKalmanFilter.filters reg) = false /\
  exists snapshot reg',
    MultiTargetKalmanFilter.update_target "7" 3 4 reg = Returns (Some snapshot, reg').
Proof.
  cbn zeta. split; [reflexivity|].
  destruct (first_report_creates_estimator (MultiTargetKalmanFilter.mk empty) "7" 3 4
              eq_refl) as (snapshot & reg' & _ & E & _).
  exists snapshot, reg'. exact E.
Defined.

Lemma predict_update_initialized x y kf pos kf' :
  KalmanFilter.initialized kf = true ->
  KalmanFilter.predict_update x y kf = Returns (pos, kf') ->
  KalmanFilter.initialized kf' = true.
Proof.
  intros Hi. unfold KalmanFilter.predict_update, KalmanFilter.update, KalmanFilter.predict.
  cbn [snd KalmanFilter.initialized KalmanFilter.with_state_P]. rewrite Hi. cbn [negb].
  destruct (Matrix.inv _) as [S_inv|e]; cbn [bind]; [|discriminate].
  intros E. apply Returns_snd in E. subst kf'. reflexivity.
Qed.

Lemma registry_ok_setitem id kf reg :
  registry_ok reg -> estimator kf -> KalmanFilter.initialized kf = true ->
  registry_ok (MultiTargetKalmanFilter.mk
                 (setitem id kf (MultiTargetKalmanFilter.filters reg))).
Proof.
  intros [Hwf Hall] He Hi. split; cbn [MultiTargetKalmanFilter.filters].
  - apply wf_setitem, Hwf.
  - apply Forall_setitem; [exact Hall|]. split; assumption.
Qed.

Lemma registry_ok_get id kf reg :
  registry_ok reg -> get id (MultiTargetKalmanFilter.filters reg) = Some kf ->
  estimator kf /\ KalmanFilter.initialized kf = true.
Proof.
  intros [_ Hall] Hget. rewrite Forall_forall in Hall.
  apply (Hall (id, kf)), list_elem_of_In, get_In, Hget.
Qed.

Lemma registry_ok_step reg c reg' :
  registry_ok reg -> registry_step reg c = Returns reg' -> registry_ok reg'.
Proof.
  intros Hok. destruct c as [id x y q r|id x y|id|id]; cbn [registry_step].
  - destruct (add_target_spec id x y q r reg) as (kf0 & _ & Eadd & He & Hi & _).
    rewrite Eadd. intros [= <-]. apply registry_ok_setitem; assumption.
  - unfold MultiTargetKalmanFilter.update_target.
    destruct (contains id (MultiTargetKalmanFilter.filters reg)) eqn:Hc; cbn [negb].
    + unfold contains in Hc.
      destruct (get id (MultiTargetKalmanFilter.filters reg)) as [kf|] eqn:Hget;
        [|discriminate].
      destruct (registry_ok_get _ _ _ Hok Hget) as [He Hi].
      destruct (KalmanFilter.predict_update x y kf) as [[pos kf']|e] eqn:Epu;
        cbn [bind snd]; [|discriminate].
      intros [= <-]. apply registry_ok_setitem; [exact Hok| |].
      * eapply est_update; [apply est_predict, He|exact Epu].
      * eapply predict_update_initialized; eassumption.
    + destruct (add_target_spec id x y 0.1 1 reg) as (kf0 & _ & Eadd & He & Hi & _).
      rewrite Eadd. cbn [bind snd]. intros [= <-].
      apply registry_ok_setitem; assumption.
  - unfold MultiTargetKalmanFilter.predict_target.
    destruct (contains id (MultiTargetKalmanFilter.filters reg)) eqn:Hc; cbn [negb bind snd].
    + unfold contains in Hc.
      destruct (get id (MultiTargetKalmanFilter.filters reg)) as [kf|] eqn:Hget;
        [|discriminate].
      destruct (registry_ok_get _ _ _ Hok Hget) as [He Hi].
      destruct (KalmanFilter.predict kf) as [pos kf'] eqn:Ep. cbn [bind snd].
      intros [= <-]. apply registry_ok_setitem; [exact Hok| |].
      * replace kf' with (snd (KalmanFilter.predict kf)) by (rewrite Ep; reflexivity).
        apply est_predict, He.
      * replace kf' with (snd (KalmanFilter.predict kf)) by (rewrite Ep; reflexivity).
        exact Hi.
    + intros [= <-]. exact Hok.
  - unfold MultiTargetKalmanFilter.remove_target.
    destruct (contains id (MultiTargetKalmanFilter.filters reg)); intros [= <-];
      [|exact Hok].
    destruct Hok as [Hwf Hall]. split; cbn [MultiTargetKalmanFilter.filters].
    + apply wf_delitem, Hwf.
    + apply Forall_delitem, Hall.
Qed.

Lemma registry_ok_run calls reg reg' :
  registry_ok reg -> registry_run calls reg = Returns reg' -> registry_ok reg'.
Proof.
  revert reg. induction calls as [|c calls IH]; intros reg Hok; cbn [registry_run].
  - intros [= <-]. exact Hok.
  - destruct (registry_step reg c) as [reg1|e] eqn:E; cbn [bind]; [|discriminate].
    apply IH. eapply registry_ok_step; eassumption.
Qed.

Lemma registry_ok_empty : registry_ok (MultiTargetKalmanFilter.mk empty).
Proof. split; [apply NoDup_nil_2|constructor]. Qed.

(** X18: whatever calls a registry has answered, it files each identity
    once, and every estimator in it is initialized (so [update_target] on
    a known identity always runs the predict-and-correct branch, never the
    first-measurement branch). *)
Theorem registry_holds_initialized_estimators
    (calls : list registry_call) (reg : MultiTargetKalmanFilter.t) :
  registry_run calls (MultiTargetKalmanFilter.mk empty) = Returns reg ->
  NoDup (keys (MultiTargetKalmanFilter.filters reg)) /\
  (forall target_id kf,
      get target_id (MultiTargetKalmanFilter.filters reg) = Some kf ->
      estimator kf /\ KalmanFilter.initialized kf = true).
Proof.
  intros Hrun.
  pose proof (registry_ok_run calls _ reg registry_ok_empty Hrun) as Hok.
  split; [apply Hok|]. intros id kf Hget. eapply registry_ok_get; eassumption.
Qed.

Lemma registry_holds_initialized_estimators_witness :
  exists reg,
    registry_run [Update_target "7" 3 4; Predict_target "7"]
                 (MultiTargetKalmanFilter.mk empty) = Returns reg /\
    NoDup (keys (MultiTargetKalmanFilter.filters reg)).
Proof.
  eexists. 
  assert (H : registry_run [Update_target "7" 3 4; Predict_target "7"]
                (MultiTargetKalmanFilter.mk empty)
              = Returns (MultiTargetKalmanFilter.mk
                   [("7"%string,
                     snd (KalmanFilter.predict (KalmanFilter.initialize 3 4
                       (KalmanFilter.mk 1 0.1 1 (Matrix.zeros 4 1)
                          (Matrix.scale (Matrix.eye 4) 100) (transition 1) observation
                          (Matrix.scale (Matrix.eye 4) 0.1)
                          (Matrix.scale (Matrix.eye 2) 1) false))))]))
    by reflexivity.
  split; [exact H|].
  exact (proj1 (registry_holds_initialized_estimators _ _ H)).
Defined.

(** X19: removing an identity from a registry makes it absent and touches
    nothing else: after [remove_target] the identity is not in the
    registry, [predict_target] on it returns [None], and every other
    identity keeps its estimator. *)
Theorem remove_target_forgets_only_that_identity
    (calls : list registry_call) (reg : MultiTargetKalmanFilter.t) (target_id : string) :
  registry_run calls (MultiTargetKalmanFilter.mk empty) = Returns reg ->
  exists reg',
    MultiTargetKalmanFilter.remove_target target_id reg = Returns reg' /\
    contains target_id (MultiTargetKalmanFilter.filters reg') = false /\
    MultiTargetKalmanFilter.predict_target target_id reg' = Returns (None, reg') /\
    (forall other, other <> target_id ->
       get other (MultiTargetKalmanFilter.filters reg')
       = get other (MultiTargetKalmanFilter.filters reg)).
Proof.
  intros Hrun.
  pose proof (registry_ok_run calls _ reg registry_ok_empty Hrun) as [Hwf _].
  unfold MultiTargetKalmanFilter.remove_target.
  destruct (contains target_id (MultiTargetKalmanFilter.filters reg)) eqn:Hc.
  - eexists. split; [reflexivity|]. cbn [MultiTargetKalmanFilter.filters].
    assert (Habs : contains target_id
                     (delitem target_id (MultiTargetKalmanFilter.filters reg)) = false).
    { apply contains_false, get_delitem_eq, Hwf. }
    split; [exact Habs|]. split.
    + unfold MultiTargetKalmanFilter.predict_target.
      cbn [MultiTargetKalmanFilter.filters]. rewrite Habs. reflexivity.
    + intros other Hne. apply get_delitem_ne. congruence.
  - exists reg. split; [reflexivity|]. split; [exact Hc|]. split.
    + unfold MultiTargetKalmanFilter.predict_target. rewrite Hc. reflexivity.
    + reflexivity.
Qed.

Lemma remove_target_forgets_only_that_identity_witness :
  exists reg reg',
    registry_run [Add_target "7" 3 4 0.1 1] (MultiTargetKalmanFilter.mk empty)
      = Returns reg /\
    MultiTargetKalmanFilter.remove_target "7" reg = Returns reg' /\
    contains "7" (MultiTargetKalmanFilter.filters reg') = false.
Proof.
  eexists.
  assert (H : registry_run [Add_target "7" 3 4 0.1 1] (MultiTargetKalmanFilter.mk empty)
              = Returns (MultiTargetKalmanFilter.mk
                   [("7"%string, KalmanFilter.initialize 3 4
                       (KalmanFilter.mk 1 0.1 1 (Matrix.zeros 4 1)
                          (Matrix.scale (Matrix.eye 4) 100) (transition 1) observation
                          (Matrix.scale (Matrix.eye 4) 0.1)
                          (Matrix.scale (Matrix.eye 2) 1) false))]))
    by reflexivity.
  destruct (remove_target_forgets_only_that_identity _ _ "7" H) as (reg' & E & Habs & _).
  exists reg'. split; [exact H|]. split; [exact E|exact Habs].
Defined.

(** ** The engine wrapper *)

Lemma notify_callback f s : callback (notify f s) = callback s.
Proof. unfold notify. destruct (callback s) eqn:E; [reflexivity|exact E]. Qed.

(** One ingest call stores one track and emits one notification. *)
Lemma add_radar_target_shape now r s :
  exists f,
    fused_targets (add_radar_target now r s)
      = setitem (FusedTarget.fused_id f) f (fused_targets s) /\
    notified (add_radar_target now r s) = notified s ++ (if callback s then [f] else []) /\
    callback (add_radar_target now r s) = callback s.
Proof.
  unfold add_radar_target, _fuse_radar_target.
  destruct (radar_geo _ r) as [rlat rlon].
  destruct (_find_matching_ais _ rlat rlon) as [a|];
    eexists (FusedTarget.new now _ _ _ _ _ _ _ _ _ _);
    rewrite notify_fused_targets, notify_notified, notify_callback;
    cbn [FusedTarget.fused_id FusedTarget.new];
    (split; [reflexivity|]); split; reflexivity.
Qed.

Lemma add_ais_target_shape now a s :
  exists f,
    fused_targets (add_ais_target now a s)
      = setitem (FusedTarget.fused_id f) f (fused_targets s) /\
    notified (add_ais_target now a s) = notified s ++ (if callback s then [f] else []) /\
    callback (add_ais_target now a s) = callback s.
Proof.
  unfold add_ais_target.
  destruct (_find_matching_radar _ _ _) as [r|] eqn:Hfind.
  - destruct (radar_geo _ r) as [rlat rlon].
    eexists (FusedTarget.new now _ _ _ _ _ _ _ _ _ _).
    rewrite notify_fused_targets, notify_notified, notify_callback.
    cbn [FusedTarget.fused_id FusedTarget.new].
    (split; [reflexivity|]); split; reflexivity.
  - unfold _fuse_ais_only. rewrite Hfind.
    eexists (FusedTarget.new now _ _ _ _ _ _ _ _ _ _).
    rewrite notify_fused_targets, notify_notified, notify_callback.
    cbn [FusedTarget.fused_id FusedTarget.new].
    (split; [reflexivity|]); split; reflexivity.
Qed.

Lemma skipn_length_app {A} (l l' : list A) : skipn (length l) (l ++ l') = l'.
Proof. induction l as [|x l IH]; [reflexivity|exact IH]. Qed.

Lemma mirrors_fresh config : mirrors (FusionEngine.fresh config).
Proof.
  split; cbn [FusionEngine.fresh FusionEngine.fusion FusionEngine.radar_targets
              FusionEngine.ais_targets FusionEngine.fused_targets]; try reflexivity.
  - apply inv_fresh.
  - intros k f E. discriminate E.
Qed.

Lemma mirrors_live_setitem (core mirror : dict FusedTarget.t) f :
  (forall k g, get k core = Some g -> get k mirror = Some g) ->
  forall k g, get k (setitem (FusedTarget.fused_id f) f core) = Some g ->
              get k (setitem (FusedTarget.fused_id f) f mirror) = Some g.
Proof.
  intros H k g. destruct (String.eqb_spec (FusedTarget.fused_id f) k) as [<-|Hne].
  - rewrite !get_setitem_eq. auto.
  - rewrite !get_setitem_ne by exact Hne. apply H.
Qed.

Lemma mirrors_add_radar now r e : mirrors e -> mirrors (FusionEngine.add_radar_target now r e).
Proof.
  intros [Hinv Hcb Hr Ha Hlive]. unfold FusionEngine.add_radar_target, FusionEngine.emitted.
  destruct (add_radar_target_shape now r (FusionEngine.fusion e)) as (f & Ef & En & Ec).
  rewrite En, Hcb, skipn_length_app. cbn [fold_left].
  split; cbn [FusionEngine.fusion FusionEngine.radar_targets FusionEngine.ais_targets
              FusionEngine.fused_targets FusionEngine._on_fused].
  - apply inv_add_radar_target, Hinv.
  - rewrite Ec. exact Hcb.
  - rewrite add_radar_target_radar_targets, Hr. reflexivity.
  - rewrite add_radar_target_ais_targets. exact Ha.
  - rewrite Ef. apply mirrors_live_setitem, Hlive.
Qed.

Lemma mirrors_add_ais now a e : mirrors e -> mirrors (FusionEngine.add_ais_target now a e).
Proof.
  intros [Hinv Hcb Hr Ha Hlive]. unfold FusionEngine.add_ais_target, FusionEngine.emitted.
  destruct (add_ais_target_shape now a (FusionEngine.fusion e)) as (f & Ef & En & Ec).
  rewrite En, Hcb, skipn_length_app. cbn [fold_left].
  split; cbn [FusionEngine.fusion FusionEngine.radar_targets FusionEngine.ais_targets
              FusionEngine.fused_targets FusionEngine._on_fused].
  - apply inv_add_ais_target, Hinv.
  - rewrite Ec. exact Hcb.
  - rewrite add_ais_target_radar_targets. exact Hr.
  - rewrite add_ais_target_ais_targets, Ha. reflexivity.
  - rewrite Ef. apply mirrors_live_setitem, Hlive.
Qed.

(** A read only removes entries of the live set. *)
Lemma read_live now s k f :
  wf (fused_targets s) ->
  get k (fused_targets (fst (get_fused_targets now s))) = Some f ->
  get k (fused_targets s) = Some f.
Proof.
  intros Hwf. rewrite get_fused_targets_spec by exact Hwf.
  cbn [fst fused_targets with_fused_targets]. intros E.
  apply get_In, filter_In in E as [Hin _]. apply wf_get; assumption.
Qed.

Lemma mirrors_get_all now1 now2 e :
  mirrors e -> mirrors (fst (FusionEngine.get_all_targets now1 now2 e)).
Proof.
  intros [Hinv Hcb Hr Ha Hlive]. unfold FusionEngine.get_all_targets.
  pose proof (get_stats_state now1 (FusionEngine.fusion e)) as Es.
  destruct (get_stats now1 (FusionEngine.fusion e)) as [core1 stats]. cbn [fst] in Es.
  destruct (get_fused_targets now2 core1) as [core2 fused] eqn:E2. cbn [fst].
  assert (Ec2 : core2 = fst (get_fused_targets now2 core1)) by (rewrite E2; reflexivity).
  assert (Hinv1 : inv core1) by (rewrite Es; apply inv_get_fused_targets, Hinv).
  split; cbn [FusionEngine.fusion FusionEngine.radar_targets FusionEngine.ais_targets
              FusionEngine.fused_targets].
  - rewrite Ec2. apply inv_get_fused_targets, Hinv1.
  - rewrite Ec2, Es. exact Hcb.
  - rewrite Ec2, Es. exact Hr.
  - rewrite Ec2, Es. exact Ha.
  - intros k f E. apply Hlive. rewrite Ec2 in E.
    apply read_live in E; [|apply Hinv1]. rewrite Es in E.
    apply read_live in E; [exact E|apply Hinv].
Qed.

Lemma mirrors_step e c : mirrors e -> mirrors (FusionEngine.step e c).
Proof.
  intros He. destruct c; cbn [FusionEngine.step].
  - destruct He as [[H1 H2 H3 H4] Hcb Hr Ha Hlive]. split; try assumption.
    split; assumption.
  - destruct He. split; assumption.
  - apply mirrors_add_radar, He.
  - apply mirrors_add_ais, He.
  - apply mirrors_get_all, He.
Qed.

Lemma mirrors_run calls e : mirrors e -> mirrors (FusionEngine.run calls e).
Proof.
  revert e. induction calls as [|c calls IH]; intros e He; [exact He|].
  apply IH, mirrors_step, He.
Qed.

Lemma mirror_keys_on_fused e f k :
  k ∈ keys (FusionEngine.fused_targets e) ->
  k ∈ keys (FusionEngine.fused_targets (FusionEngine._on_fused e f)).
Proof. cbn [FusionEngine._on_fused FusionEngine.fused_targets]. apply keys_setitem_mono. Qed.

Lemma mirror_keys_fold l e k :
  k ∈ keys (FusionEngine.fused_targets e) ->
  k ∈ keys (FusionEngine.fused_targets (fold_left FusionEngine._on_fused l e)).
Proof.
  revert e. induction l as [|f l IH]; intros e Hk; [exact Hk|].
  cbn [fold_left]. apply IH, mirror_keys_on_fused, Hk.
Qed.

Lemma mirror_keys_step e c k :
  k ∈ keys (FusionEngine.fused_targets e) ->
  k ∈ keys (FusionEngine.fused_targets (FusionEngine.step e c)).
Proof.
  intros Hk. destruct c; cbn [FusionEngine.step]; try exact Hk.
  - apply mirror_keys_fold. exact Hk.
  - apply mirror_keys_fold. exact Hk.
Qed.

(** X20: the engine's own dictionaries against its core.  After any calls
    on a new [FusionEngine] its [radar_targets] and [ais_targets] equal
    those of the core, every live track of the core is in the engine's
    [fused_targets] with the same value, and the engine's [fused_targets]
    never loses an identity: tracks the core evicts by age stay in it. *)
Theorem engine_mirrors_core (config : fusion_config) (calls : list FusionEngine.call) :
  let e := FusionEngine.run calls (FusionEngine.fresh config) in
  FusionEngine.__init__ config = Returns (FusionEngine.fresh config) /\
  FusionEngine.radar_targets e = radar_targets (FusionEngine.fusion e) /\
  FusionEngine.ais_targets e = ais_targets (FusionEngine.fusion e) /\
  (forall k f, get k (fused_targets (FusionEngine.fusion e)) = Some f ->
               get k (FusionEngine.fused_targets e) = Some f) /\
  (forall more k, k ∈ keys (FusionEngine.fused_targets e) ->
                  k ∈ keys (FusionEngine.fused_targets (FusionEngine.run more e))).
Proof.
  intros e. destruct (mirrors_run calls _ (mirrors_fresh config)) as [_ _ Hr Ha Hlive].
  fold e in Hr, Ha, Hlive.
  split; [reflexivity|]. split; [exact Hr|]. split; [exact Ha|]. split; [exact Hlive|].
  intros more. generalize e. induction more as [|c more IH]; intros e0 k Hk; [exact Hk|].
  cbn [FusionEngine.run fold_left]. apply IH, mirror_keys_step, Hk.
Qed.

(** ** The configuration validator *)

Lemma no_errors_add_error msg s : no_errors (Validator.add_error msg s) = false.
Proof.
  unfold no_errors, Validator.add_error. cbn [Validator.errors].
  rewrite length_app. cbn [length]. apply Nat.eqb_neq. lia.
Qed.

Lemma no_errors_add_warning msg s :
  no_errors (Validator.add_warning msg s) = no_errors s.
Proof. reflexivity. Qed.

Lemma bad_port_false port : Validator.bad_port port = false <-> port_ok port.
Proof.
  unfold Validator.bad_port, port_ok.
  destruct (Z.eqb_spec port 0), (Z.ltb_spec port 1), (Z.ltb_spec 65535 port);
    cbn; split; intros; try discriminate; try reflexivity; try lia; auto.
Qed.

(** The required-field check, section by section. *)
Lemma check_fields_fold section fields s :
  let s' :=
    fold_left
      (fun s field =>
         if negb (ConfigFile.has_field (Validator.config s) section field) then
           Validator.add_error
             (String.append "缺少配置项: "
                (String.append section (String.append "." field))) s
         else s)
      fields s in
  Validator.config s' = Validator.config s /\
  no_errors s' =
    no_errors s && forallb (ConfigFile.has_field (Validator.config s) section) fields.
Proof.
  revert s. induction fields as [|field fields IH]; intros s; cbn [fold_left forallb].
  - split; [reflexivity|]. rewrite andb_true_r. reflexivity.
  - destruct (ConfigFile.has_field (Validator.config s) section field) eqn:E; cbn [negb].
    + exact (IH s).
    + destruct (IH (Validator.add_error
                      (String.append "缺少配置项: "
                         (String.append section (String.append "." field))) s))
        as [Hc Hn].
      split; [exact Hc|]. cbn zeta in Hn. rewrite Hn, no_errors_add_error.
      rewrite andb_false_r. reflexivity.
Qed.

Lemma check_sections_fold entries s :
  let s' :=
    fold_left
      (fun s entry =>
         let '(section, fields) := entry in
         if negb (ConfigFile.has_section (Validator.config s) section) then
           Validator.add_error (String.append "缺少配置节: " section) s
         else
           fold_left
             (fun s field =>
                if negb (ConfigFile.has_field (Validator.config s) section field) then
                  Validator.add_error
                    (String.append "缺少配置项: "
                       (String.append section (String.append "." field))) s
                else s)
             fields s)
      entries s in
  Validator.config s' = Validator.config s /\
  no_errors s' = no_errors s && forallb (section_ok (Validator.config s)) entries.
Proof.
  revert s. induction entries as [|[section fields] entries IH]; intros s;
    cbn [fold_left forallb].
  - split; [reflexivity|]. rewrite andb_true_r. reflexivity.
  - unfold section_ok at 1. cbn [fst snd].
    destruct (ConfigFile.has_section (Validator.config s) section) eqn:E; cbn [negb andb].
    + destruct (check_fields_fold section fields s) as [Hc Hn]. cbn zeta in Hc, Hn.
      match goal with |- context [fold_left _ entries ?s1] => destruct (IH s1) as [Hc1 Hn1] end.
      cbn zeta in Hc1, Hn1. split; [congruence|].
      rewrite Hn1, Hn, Hc, andb_assoc. reflexivity.
    + match goal with |- context [fold_left _ entries ?s1] => destruct (IH s1) as [Hc1 Hn1] end.
      cbn zeta in Hc1, Hn1. split; [exact Hc1|].
      rewrite Hn1, no_errors_add_error, andb_false_r. reflexivity.
Qed.

Lemma is_Some_bool {A} (o : option A) :
  bool_decide (is_Some o) = match o with Some _ => true | None => false end.
Proof.
  destruct o; [apply bool_decide_eq_true_2; eauto|].
  apply bool_decide_eq_false_2. intros [x E]. discriminate E.
Qed.

Lemma nested_present {A B} (o : option A) (g : A -> option B) :
  match o with Some _ => true | None => false end &&
  (match o with Some a => bool_decide (is_Some (g a)) | None => false end && true) = true
  <-> exists a b, o = Some a /\ g a = Some b.
Proof.
  destruct o as [a|]; cbn [andb].
  - rewrite andb_true_r, is_Some_bool. destruct (g a) as [b|] eqn:E; split.
    + intros _. exists a, b. split; [reflexivity|exact E].
    + reflexivity.
    + discriminate.
    + intros (a' & b & Ea & Eb). injection Ea as <-. congruence.
  - split; [discriminate|]. intros (a & b & E & _). discriminate E.
Qed.

Lemma sections_ok_complete config :
  forallb (section_ok config) Validator.REQUIRED_FIELDS = true <-> complete config.
Proof.
  unfold Validator.REQUIRED_FIELDS, section_ok, complete.
  cbn [forallb fst snd]. unfold ConfigFile.has_section, ConfigFile.has_field.
  cbn [String.eqb Ascii.eqb Bool.eqb andb]. rewrite !is_Some_bool.
  rewrite (andb_true_iff (_ && (_ && true))), (andb_true_iff (_ && (_ && true))),
    (andb_true_iff (_ && (_ && true))), (andb_true_iff (_ && (_ && true))).
  rewrite (nested_present (ConfigFile.radar config) ConfigFile.radar_conn),
    (nested_present (ConfigFile.ais config) ConfigFile.ais_conn),
    (nested_present (ConfigFile.fusion config) cfg_enabled),
    (nested_present (ConfigFile.output config) ConfigFile.http).
  tauto.
Qed.

Lemma check_required_fields_spec s :
  Validator.config (Validator._check_required_fields s) = Validator.config s /\
  (no_errors (Validator._check_required_fields s) = true <->
   no_errors s = true /\ complete (Validator.config s)).
Proof.
  destruct (check_sections_fold Validator.REQUIRED_FIELDS s) as [Hc Hn].
  cbn zeta in Hc, Hn. fold (Validator._check_required_fields s) in Hc, Hn.
  split; [exact Hc|]. rewrite Hn, andb_true_iff, sections_ok_complete. reflexivity.
Qed.

Lemma validate_radar_spec s :
  Validator.config (Validator._validate_radar s) = Validator.config s /\
  (no_errors (Validator._validate_radar s) = true <->
   no_errors s = true /\ port_ok (radar_port_of (Validator.config s))).
Proof.
  unfold Validator._validate_radar.
  set (conn := match ConfigFile.radar (Validator.config s) with
               | Some r => ConfigFile.radar_conn r | None => None end).
  replace (match conn with
           | Some c => get_default (ConfigFile.port c) 0%Z | None => 0%Z end)
    with (radar_port_of (Validator.config s))
    by (unfold radar_port_of, conn;
        destruct (ConfigFile.radar (Validator.config s)); reflexivity).
  set (s1 := if String.eqb _ "" then _ else s).
  assert (H1 : Validator.config s1 = Validator.config s /\ no_errors s1 = no_errors s).
  { unfold s1. destruct (String.eqb _ ""); split; reflexivity. }
  destruct H1 as [Hc Hn].
  destruct (Validator.bad_port (radar_port_of (Validator.config s))) eqn:Eb.
  - split; [exact Hc|]. rewrite no_errors_add_error. split; [discriminate|].
    intros [_ Hok]. apply bad_port_false in Hok. congruence.
  - split; [exact Hc|]. rewrite Hn. apply bad_port_false in Eb. tauto.
Qed.

Lemma validate_ais_spec s :
  Validator.config (Validator._validate_ais s) = Validator.config s /\
  no_errors (Validator._validate_ais s) = no_errors s.
Proof.
  unfold Validator._validate_ais. destruct (String.eqb _ ""); split; reflexivity.
Qed.

Lemma validate_fusion_spec s :
  Validator.config (Validator._validate_fusion s) = Validator.config s /\
  no_errors (Validator._validate_fusion s) = no_errors s.
Proof.
  unfold Validator._validate_fusion, ConfigValidator._validate_fusion, no_errors.
  cbn [Validator.config Validator.errors ConfigValidator.fusion ConfigValidator.errors
       ConfigValidator.warnings].
  destruct (negb _); split; reflexivity.
Qed.

Lemma validate_network_spec s :
  Validator.config (Validator._validate_network s) = Validator.config s /\
  (no_errors (Validator._validate_network s) = true <->
   no_errors s = true /\ port_ok (http_port_of (Validator.config s))).
Proof.
  unfold Validator._validate_network.
  replace (match match ConfigFile.output (Validator.config s) with
                 | Some o => ConfigFile.http o | None => None end with
           | Some h => get_default (ConfigFile.http_port h) 8081%Z | None => 8081%Z end)
    with (http_port_of (Validator.config s))
    by (unfold http_port_of; destruct (ConfigFile.output (Validator.config s));
        reflexivity).
  destruct (Validator.bad_port (http_port_of (Validator.config s))) eqn:Eb.
  - split; [reflexivity|]. rewrite no_errors_add_error. split; [discriminate|].
    intros [_ Hok]. apply bad_port_false in Hok. congruence.
  - split; [reflexivity|]. apply bad_port_false in Eb. tauto.
Qed.

Lemma validate_paths_spec fs s :
  Validator.config (snd (Validator._validate_paths fs s)) = Validator.config s /\
  (no_errors (snd (Validator._validate_paths fs s)) = true <->
   no_errors s = true /\
   (fs_exists fs (log_dir_of (Validator.config s)) = true \/
    fs_creatable fs (log_dir_of (Validator.config s)) = true)).
Proof.
  unfold Validator._validate_paths. fold (log_dir_of (Validator.config s)).
  unfold makedirs.
  destruct (fs_exists fs (log_dir_of (Validator.config s))) eqn:Ee; cbn [negb snd].
  - split; [reflexivity|]. tauto.
  - destruct (fs_creatable fs (log_dir_of (Validator.config s))) eqn:Ec; cbn [snd].
    + split; [reflexivity|]. rewrite no_errors_add_warning. tauto.
    + split; [reflexivity|]. rewrite no_errors_add_error.
      split; [discriminate|]. intros [_ [H|H]]; discriminate H.
Qed.

(** X21: exactly which configurations [validate] accepts.  Whatever errors
    and warnings an earlier run left in the validator, [validate] starts
    from empty lists, and its verdict is true exactly when the four
    required sections are present with their required fields, the radar
    port and the HTTP port are 0 (or absent) or within 1..65535, and the
    log directory exists or can be created.  Nothing else, neither the
    tracker name nor the gating distance nor the noise values nor a
    missing IP or serial port, makes a configuration invalid. *)
Theorem validate_accepts_exactly
    (fs : filesystem) (config : ConfigFile.t) (old_errors old_warnings : list string) :
  let result := fst (Validator.validate fs (Validator.mk config old_errors old_warnings)) in
  let is_valid := fst (fst result) in
  let errors := snd (fst result) in
  (is_valid = true <-> errors = []) /\
  (is_valid = true <->
   complete config /\
   port_ok (radar_port_of config) /\
   port_ok (http_port_of config) /\
   (fs_exists fs (log_dir_of config) = true \/
    fs_creatable fs (log_dir_of config) = true)) /\
  result = fst (Validator.validate fs (Validator.__init__ config)).
Proof.
  cbn zeta. unfold Validator.validate. cbn [Validator.config Validator.__init__].
  set (s0 := Validator.mk config [] []).
  set (s1 := Validator._check_required_fields s0).
  set (s2 := Validator._validate_radar s1).
  set (s3 := Validator._validate_ais s2).
  set (s4 := Validator._validate_fusion s3).
  set (s5 := Validator._validate_network s4).
  pose proof (validate_paths_spec fs s5) as [C6 N6].
  destruct (Validator._validate_paths fs s5) as [fs' s6]. cbn [fst snd] in *.
  destruct (check_required_fields_spec s0) as [C1 N1]. fold s1 in C1, N1.
  destruct (validate_radar_spec s1) as [C2 N2]. fold s2 in C2, N2.
  destruct (validate_ais_spec s2) as [C3 N3]. fold s3 in C3, N3.
  destruct (validate_fusion_spec s3) as [C4 N4]. fold s4 in C4, N4.
  destruct (validate_network_spec s4) as [C5 N5]. fold s5 in C5, N5.
  assert (E0 : Validator.config s0 = config) by reflexivity.
  assert (E5 : Validator.config s5 = config) by congruence.
  assert (E4 : Validator.config s4 = config) by congruence.
  assert (E1 : Validator.config s1 = config) by congruence.
  rewrite E5 in N6. rewrite E4 in N5. rewrite E1 in N2.
  change (Validator.config s0) with config in N1.
  fold (no_errors s6). split; [|split; [|reflexivity]].
  - unfold no_errors. rewrite Nat.eqb_eq. destruct (Validator.errors s6); split;
      intros H; try reflexivity; discriminate H.
  - rewrite N6, N5, N4, N3, N2, N1. change (no_errors s0) with true. tauto.
Qed.

(** ** The tracker factory *)

Lemma existsb_eqb_In name l : existsb (String.eqb name) l = true <-> In name l.
Proof.
  rewrite existsb_exists. split.
  - intros (x & Hin & E). apply String.eqb_eq in E. subst x. exact Hin.
  - intros Hin. exists name. split; [exact Hin|apply String.eqb_refl].
Qed.

Lemma app_singleton_neq {A} (l : list A) x : l ++ [x] <> l.
Proof.
  intros E. apply (f_equal (@length A)) in E. rewrite length_app in E.
  cbn [length] in E. lia.
Qed.

Lemma contains_keys {V} k (d : dict V) : contains k d = true -> In k (keys d).
Proof.
  unfold contains. induction d as [|[k' v] d IH]; cbn [get keys map fst]; [discriminate|].
  destruct (String.eqb k k') eqn:E.
  - intros _. left. symmetry. apply String.eqb_eq, E.
  - intros H. right. exact (IH H).
Qed.

(** X22: the factory and the validator know the same tracker names.
    In a call [TrackerFactory.create(name, ...)] whose keyword arguments
    do not name [algorithm] a second time, the factory raises
    [ValueError] exactly for a name outside KF, EKF, UKF, PF, and for a
    configuration that names a tracker [_validate_fusion] adds a warning
    exactly for those names; for the other names the factory builds a
    tracker or raises [TypeError] for a keyword the constructor does not
    have.  A keyword named [algorithm] is a [TypeError] for every name. *)
Theorem factory_and_validator_know_the_same_trackers
    (name : string) (kwargs : dict pyval) (v : ConfigValidator.t) (f : fusion_config) :
  ConfigValidator.fusion v = Some f -> cfg_tracker f = Some name ->
  TrackerFactory.list_algorithms = ConfigValidator.known_trackers /\
  ((exists msg, TrackerFactory.create name kwargs
                = TrackerFactory.Failed (TrackerFactory.ValueError msg))
   <-> ~ In name TrackerFactory.list_algorithms /\ contains "algorithm" kwargs = false) /\
  (contains "algorithm" kwargs = true ->
   TrackerFactory.create name kwargs
   = TrackerFactory.Failed (TrackerFactory.TypeError "algorithm")) /\
  (ConfigValidator.warnings (ConfigValidator._validate_fusion v)
     <> ConfigValidator.warnings v
   <-> ~ In name TrackerFactory.list_algorithms) /\
  (In name TrackerFactory.list_algorithms ->
   (exists tr, TrackerFactory.create name kwargs = TrackerFactory.Created tr) \/
   (exists k, TrackerFactory.create name kwargs
              = TrackerFactory.Failed (TrackerFactory.TypeError k) /\
              In k (keys kwargs))).
Proof.
  intros Hf Ht. split; [reflexivity|].
  unfold TrackerFactory.list_algorithms.
  pose proof (existsb_eqb_In name TrackerFactory.ALGORITHMS) as Hin.
  split; [|split; [|split]].
  - unfold TrackerFactory.create.
    destruct (contains "algorithm" kwargs) eqn:Ea.
    { split; [intros [msg Hmsg]; discriminate Hmsg|intros [_ H]; discriminate H]. }
    destruct (existsb (String.eqb name) TrackerFactory.ALGORITHMS) eqn:E; cbn [negb].
    + split; [|intros [H _]; exfalso; apply H, Hin; reflexivity].
      intros [msg Hmsg]. exfalso.
      unfold TrackerFactory.new_kf, TrackerFactory.new_pf in Hmsg.
      repeat match type of Hmsg with
             | context [if ?b then _ else _] => destruct b
             | context [match ?x with _ => _ end] => destruct x
             end; discriminate Hmsg.
    + split; [|intros _; eexists; reflexivity].
      intros _. split; [|reflexivity]. intros H. apply Hin in H. discriminate H.
  - intros Ea. unfold TrackerFactory.create. rewrite Ea. reflexivity.
  - unfold ConfigValidator._validate_fusion. rewrite Hf, Ht. cbn [get_default].
    change ConfigValidator.known_trackers with TrackerFactory.ALGORITHMS.
    destruct (existsb (String.eqb name) TrackerFactory.ALGORITHMS) eqn:E; cbn [negb].
    + split; [intros H; exfalso; apply H; reflexivity|].
      intros H. exfalso. apply H, Hin. reflexivity.
    + cbn [ConfigValidator.warnings]. split.
      * intros _ H. apply Hin in H. discriminate H.
      * intros _. apply app_singleton_neq.
  - intros H. apply Hin in H. unfold TrackerFactory.create. rewrite H. cbn [negb].
    destruct (contains "algorithm" kwargs) eqn:Ea.
    { right. exists "algorithm"%string. split; [reflexivity|]. apply contains_keys, Ea. }
    assert (Hkf : forall wrap,
               (exists tr, TrackerFactory.new_kf wrap kwargs = TrackerFactory.Created tr) \/
               (exists k, TrackerFactory.new_kf wrap kwargs
                          = TrackerFactory.Failed (TrackerFactory.TypeError k) /\
                          In k (keys kwargs))).
    { intros wrap. unfold TrackerFactory.new_kf, TrackerFactory.unexpected.
      destruct (List.find _ (keys kwargs)) as [k|] eqn:Ek.
      - right. exists k. split; [reflexivity|]. apply find_some in Ek. tauto.
      - left. eexists. reflexivity. }
    destruct (String.eqb name "KF"); [apply Hkf|].
    destruct (String.eqb name "EKF"); [apply Hkf|].
    destruct (String.eqb name "UKF"); [apply Hkf|].
    unfold TrackerFactory.new_pf, TrackerFactory.unexpected.
    destruct (List.find _ (keys kwargs)) as [k|] eqn:Ek.
    + right. exists k. split; [reflexivity|]. apply find_some in Ek. tauto.
    + left. eexists. reflexivity.
Qed.

(** X22 at the unlisted name IMM: [ValueError] without keyword arguments,
    [TypeError] when [algorithm] is also passed as a keyword. *)
Lemma factory_and_validator_know_the_same_trackers_witness :
  let f := {| cfg_enabled := Some true; cfg_association_distance_m := None;
              cfg_max_age_seconds := None; cfg_tracker := Some "IMM"%string |} in
  let v := ConfigValidator.mk (Some f) [] [] in
  ConfigValidator.fusion v = Some f /\ cfg_tracker f = Some "IMM"%string /\
  (exists msg, TrackerFactory.create "IMM" []
               = TrackerFactory.Failed (TrackerFactory.ValueError msg)) /\
  TrackerFactory.create "IMM" [("algorithm"%string, PyInt 1)]
  = TrackerFactory.Failed (TrackerFactory.TypeError "algorithm").
Proof.
  cbn zeta.
  set (f := {| cfg_enabled := Some true; cfg_association_distance_m := None;
               cfg_max_age_seconds := None; cfg_tracker := Some "IMM"%string |}).
  assert (H1 : ConfigValidator.fusion (ConfigValidator.mk (Some f) [] []) = Some f)
    by reflexivity.
  assert (H2 : cfg_tracker f = Some "IMM"%string) by reflexivity.
  split; [exact H1|]. split; [exact H2|]. split.
  - destruct (factory_and_validator_know_the_same_trackers "IMM" [] _ f H1 H2)
      as (_ & Hv & _).
    apply Hv. split; [|reflexivity]. cbn. intros [H|[H|[H|[H|[]]]]]; discriminate H.
  - destruct (factory_and_validator_know_the_same_trackers
                "IMM" [("algorithm"%string, PyInt 1)] _ f H1 H2) as (_ & _ & Ht & _).
    apply Ht. reflexivity.
Defined.

(** ** Listeners of the engine *)



Section EngineWithDomainError.

Variable sqrt_raises : R -> R -> R -> R -> bool.





End EngineWithDomainError.



(** ** Reporting the same AIS contact twice *)

Lemma setitem_idem {V} k (v : V) d : setitem k v (setitem k v d) = setitem k v d.
Proof.
  induction d as [|[k' v'] d IH]; simpl.
  - rewrite String.eqb_refl. reflexivity.
  - destruct (String.eqb k k') eqn:E; simpl; rewrite E; [reflexivity|].
    rewrite IH. reflexivity.
Qed.

(** The state after [add_ais_target], field by field. *)
Lemma add_ais_target_fields now a s :
  let found := _find_matching_radar s (AISTarget.lat a) (AISTarget.lon a) in
  let track := match found with
               | Some r => fused_track s now r a
               | None => ais_track now a
               end in
  add_ais_target now a s =
  TargetFusion.mk (enabled s) (association_distance s) (max_age s) (radar_targets s)
    (setitem (AISTarget.mmsi a) a (ais_targets s))
    (setitem (FusedTarget.fused_id track) track (fused_targets s))
    (match found with
     | Some _ => {[ AISTarget.mmsi a ]} ∪ matched_ais s
     | None => matched_ais s
     end)
    (radar_origin s) (callback s)
    (if callback s then notified s ++ [track] else notified s).
Proof.
  intros found track. subst track found. unfold add_ais_target.
  set (s1 := with_ais_targets _ s).
  assert (Hscan : _find_matching_radar s1 (AISTarget.lat a) (AISTarget.lon a)
                  = _find_matching_radar s (AISTarget.lat a) (AISTarget.lon a)).
  { unfold _find_matching_radar. apply scan_radar_ext; reflexivity. }
  rewrite Hscan.
  destruct (_find_matching_radar s (AISTarget.lat a) (AISTarget.lon a)) as [r|] eqn:Hfind.
  - change (radar_geo (with_matched_ais _ s1) r) with (radar_geo s r).
    unfold fused_track. destruct (radar_geo s r) as [rlat rlon]. cbn [fst snd].
    subst s1. destruct s as [en gate age radars aiss fused matched origin cb trace].
    destruct cb; reflexivity.
  - unfold _fuse_ais_only. rewrite Hscan. subst s1.
    destruct s as [en gate age radars aiss fused matched origin cb trace].
    destruct cb; reflexivity.
Qed.

(** X24: an AIS report is idempotent.  Up to the notification trace,
    ingesting the same AIS contact twice at the same clock reading leaves
    the engine exactly as ingesting it once: pools, matched set and live
    tracks are equal, and without a callback the two states are equal.
    (A radar report has no such property: see the theorem on a radar
    contact that is sent again after a match.) *)
Theorem ais_report_is_idempotent
    (now : datetime) (a : AISTarget.t) (s : TargetFusion.t) :
  let once := add_ais_target now a s in
  let twice := add_ais_target now a once in
  radar_targets twice = radar_targets once /\
  ais_targets twice = ais_targets once /\
  fused_targets twice = fused_targets once /\
  matched_ais twice = matched_ais once /\
  (callback s = false -> twice = once).
Proof.
  intros once twice. subst twice once.
  pose proof (add_ais_target_fields now a s) as E1. cbn zeta in E1.
  remember (add_ais_target now a s) as once eqn:Eo. clear Eo.
  pose proof (add_ais_target_fields now a once) as E2. cbn zeta in E2.
  assert (Hfind : _find_matching_radar once (AISTarget.lat a) (AISTarget.lon a)
                  = _find_matching_radar s (AISTarget.lat a) (AISTarget.lon a)).
  { rewrite E1. unfold _find_matching_radar. cbn [radar_targets].
    apply scan_radar_ext; reflexivity. }
  assert (Htrack : forall r, fused_track once now r a = fused_track s now r a).
  { intros r. rewrite E1. reflexivity. }
  assert (Hm : forall M : gset string,
             {[AISTarget.mmsi a]} ∪ ({[AISTarget.mmsi a]} ∪ M) = {[AISTarget.mmsi a]} ∪ M)
    by (intros M; rewrite (assoc_L (∪)), (idemp_L (∪)); reflexivity).
  rewrite Hfind in E2. revert E1 E2.
  destruct (_find_matching_radar s (AISTarget.lat a) (AISTarget.lon a)) as [r|];
    intros E1 E2; rewrite ?Htrack in E2; rewrite E2; clear E2; subst once;
    cbn [radar_targets ais_targets fused_targets matched_ais enabled
         association_distance max_age radar_origin callback notified];
    rewrite !setitem_idem, ?Hm;
    (split; [reflexivity|]); (split; [reflexivity|]); (split; [reflexivity|]);
    (split; [reflexivity|]); intros ->; reflexivity.
Qed.

Lemma ais_report_is_idempotent_witness :
  callback engine0 = false /\
  add_ais_target 0%Z ais1 (add_ais_target 0%Z ais1 engine0)
  = add_ais_target 0%Z ais1 engine0.
Proof.
  split; [reflexivity|].
  exact (proj2 (proj2 (proj2 (proj2 (ais_report_is_idempotent 0%Z ais1 engine0))))
           eq_refl).
Defined.
